(** * ProxyStore: signaling server, signaling client, endpoint connector
      and remote store, embedded from the Python sources.

    - [src/proxystore/p2p/server.py]         : modules [Signaling], [SignalingClient]
    - [src/proxystore/connectors/endpoint.py]: module [Endpoint]
    - [src/proxystore/store/remote.py]       : module [Remote]

    Python dictionaries are [gmap]s, coroutines and methods that mutate
    [self] are computations in a state-and-exception monad, and every
    [await] on a transport is recorded in a trace. *)

From Stdlib.Strings Require Import Byte Ascii String.
From stdpp Require Import gmap strings list pretty.

Open Scope string_scope.

(** Python [bytes]. *)
Abbreviation bytes := (list byte) (only parsing).

(** Python [uuid.UUID], by its 128-bit integer value ([UUID.int]). *)
Abbreviation UUID := N (only parsing).

(** ** Exceptions and the state-and-exception monad *)

(** Why a [PeerRegistrationError] was raised by the signaling client (the
    source formats these into the exception's message). *)
Inductive RegistrationFailure (E : Type) :=
  | ClosedBeforeCompleted
  | NoReplyWithinTimeout
  | ServerRepliedError (err : E)
  | UnknownMessageType.
Arguments ClosedBeforeCompleted {E}.
Arguments NoReplyWithinTimeout {E}.
Arguments ServerRepliedError {E} err.
Arguments UnknownMessageType {E}.

#[warnings="-register-all"]
Inductive Exn :=
  | KeyError
  | AttributeError
  | TypeError
  | ValueError (msg : string)
  | SerializationError
  | ConnectionClosed
  | OSError
  | PeerUnknownError (msg : string)
  | PeerRegistrationError (why : RegistrationFailure Exn)
  | RequestException (status_code : option Z)
  | EndpointConnectorError (msg : string).

Inductive Outcome (A : Type) :=
  | Ret (a : A)
  | Raise (e : Exn).
Arguments Ret {A} a.
Arguments Raise {A} e.

Module Eff.

Definition M (S A : Type) : Type := S -> Outcome A * S.

Definition ret {S A} (a : A) : M S A := fun s => (Ret a, s).

Definition raise {S A} (e : Exn) : M S A := fun s => (Raise e, s).

Definition bind {S A B} (m : M S A) (k : A -> M S B) : M S B :=
  fun s =>
    match m s with
    | (Ret a, s') => k a s'
    | (Raise e, s') => (Raise e, s')
    end.

Definition get {S} : M S S := fun s => (Ret s, s).

Definition modify {S} (f : S -> S) : M S unit := fun s => (Ret tt, f s).

End Eff.

Notation "x <- y ;; z" := (Eff.bind y (fun x : _ => z))
  (at level 20, y at level 99, z at level 200, only parsing).


(** ** [str(uuid)]: 32 lower-case hex digits grouped 8-4-4-4-12 *)

Module PyUUID.

Definition hex_digit (d : N) : ascii :=
  match d with
  | 0 => "0" | 1 => "1" | 2 => "2" | 3 => "3"
  | 4 => "4" | 5 => "5" | 6 => "6" | 7 => "7"
  | 8 => "8" | 9 => "9" | 10 => "a" | 11 => "b"
  | 12 => "c" | 13 => "d" | 14 => "e" | _ => "f"
  end%N%char.

(** ['%0nx' % v]: the [n] low hex digits of [v], most significant first. *)
Fixpoint hex (n : nat) (v : N) : list ascii :=
  match n with
  | O => []
  | S n' => hex n' (v / 16)%N ++ [hex_digit (v mod 16)%N]
  end.

Definition dash : ascii := "-"%char.

(** [UUID.__str__]: ['%s-%s-%s-%s-%s' % (h[:8], h[8:12], h[12:16],
    h[16:20], h[20:])] with [h = '%032x' % self.int]. *)
Definition group (h : list ascii) : list ascii :=
  take 8 h ++ dash :: take 4 (drop 8 h) ++ dash :: take 4 (drop 12 h)
    ++ dash :: take 4 (drop 16 h) ++ dash :: drop 20 h.

Definition str (u : UUID) : string :=
  string_of_list_ascii (group (hex 32 u)).
#[global] Arguments str : simpl never.

(** Inverse direction, used to show that [str] is injective. *)
Definition hex_value (c : ascii) : N :=
  (N_of_ascii c - (if (N_of_ascii c <? 58) then 48 else 87))%N.

Definition unhex (l : list ascii) : N :=
  fold_left (fun acc c => (16 * acc + hex_value c)%N) l 0%N.

Definition ungroup (l : list ascii) : list ascii :=
  filter (fun c => c ≠ dash) l.

Definition parse (s : string) : UUID :=
  unhex (ungroup (list_ascii_of_string s)).

End PyUUID.

(** ** Signaling messages *)

(** Modelled from the spec: [proxystore.p2p.messages] is not part of the
    sources at hand; the message types are the tagged union of the
    specification's message codec (section 4.1), with the field names used
    by [server.py]. Optional fields default to [None]. *)
Module PeerRegistrationRequest.
Record t := mk { uuid : option UUID; name : string }.
End PeerRegistrationRequest.

Module PeerRegistrationResponse.
Record t := mk { uuid : UUID; error : option Exn }.
End PeerRegistrationResponse.

Module PeerConnectionMessage.
Record t := mk {
  source_uuid : UUID;
  source_name : string;
  peer_uuid : UUID;
  description : option string;
  error : option Exn
}.
End PeerConnectionMessage.

(** What [deserialize] can hand back. [OtherObject] stands for any decoded
    object that is none of the signaling message types. *)
Inductive Message :=
  | MRegistrationRequest (m : PeerRegistrationRequest.t)
  | MRegistrationResponse (m : PeerRegistrationResponse.t)
  | MConnection (m : PeerConnectionMessage.t)
  | MServerError (message : string)
  | OtherObject (type_name : string).

(** [proxystore.serialize]: [deserialize] raises [SerializationError] on
    [None]. *)
Class Serializer := {
  serialize : Message -> bytes;
  deserialize : bytes -> option Message
}.

(** ** The signaling server ([server.py], class [SignalingServer]) *)

Module Signaling.

(** A [WebSocketServerProtocol] object, by identity (what the dictionary
    hashes on). *)
Abbreviation WebSocket := nat (only parsing).

Module Client.
Record t := mk { name : string; uuid : UUID; websocket : WebSocket }.
End Client.

Record SignalingServer := mkServer {
  _websocket_to_client : gmap nat Client.t;
  _uuid_to_client : gmap N Client.t
}.

(** [SignalingServer.__init__] *)
Definition init : SignalingServer := mkServer ∅ ∅.

(** Awaited transport operations. *)
Inductive IO :=
  | WsSend (websocket : WebSocket) (data : bytes)
  | WsClose (websocket : WebSocket) (code : Z).

Inductive Level := Info | Warning | Error.

(** The [logger] calls, with the values their f-strings interpolate. *)
Inductive LogRecord :=
  | LogReregisterRemoveOld (uuid_ : UUID)
  | LogRegistered (client : Client.t)
  | LogReregisterReturnPrevious (uuid_ : UUID)
  | LogUnregistering (client : Client.t) (reason : string)
  | LogUnknownPeer (client : Client.t) (peer_uuid : UUID)
  | LogTransmitting (client : Client.t) (peer_uuid : UUID)
  | LogListening
  | LogDeserializationError (websocket : WebSocket)
  | LogUnregisteredClient (source_uuid : UUID) (source_name : string)
  | LogUnknownRequestType (websocket : WebSocket) (message : Message).

(** One entry of the execution trace. [Await io s] is a suspension point:
    the coroutine awaits [io] while the registry is [s]. *)
Inductive Item :=
  | Await (io : IO) (s : SignalingServer)
  | Logged (level : Level) (record : LogRecord).

(** The server object together with its environment: the trace produced so
    far and the source [uuid4()] draws from. *)
Record World := mkWorld {
  self : SignalingServer;
  trace : list Item;
  uuid_source : nat -> UUID;
  uuid_count : nat
}.

Abbreviation M := (Eff.M World) (only parsing).

(** [await websocket.send(...)] and [await websocket.close(...)]: the
    coroutine is suspended on [io] and then goes on. The transport
    operation is taken to return; one that raises (a send on a transport
    that has gone away) is not followed here. *)
Definition await (io : IO) : M unit :=
  Eff.modify (fun w =>
    mkWorld (self w) (trace w ++ [Await io (self w)])
            (uuid_source w) (uuid_count w)).

Definition log (level : Level) (record : LogRecord) : M unit :=
  Eff.modify (fun w =>
    mkWorld (self w) (trace w ++ [Logged level record])
            (uuid_source w) (uuid_count w)).

Definition uuid4 : M UUID :=
  fun w => (Ret (uuid_source w (uuid_count w)),
            mkWorld (self w) (trace w) (uuid_source w) (S (uuid_count w))).

Definition get_self : M SignalingServer :=
  fun w => (Ret (self w), w).

Definition set_self (f : SignalingServer -> SignalingServer) : M unit :=
  Eff.modify (fun w =>
    mkWorld (f (self w)) (trace w) (uuid_source w) (uuid_count w)).

(** [d[k]]: raises [KeyError] when [k] is absent. *)
Definition getitem `{Countable K} {V} (d : gmap K V) (k : K) : M V :=
  match d !! k with
  | Some v => Eff.ret v
  | None => Eff.raise KeyError
  end.

(** [self._websocket_to_client.pop(websocket, None)] *)
Definition pop_websocket (websocket : WebSocket) : M (option Client.t) :=
  s <- get_self ;;
  _ <- set_self (fun s =>
         mkServer (delete websocket (_websocket_to_client s))
                  (_uuid_to_client s)) ;;
  Eff.ret (_websocket_to_client s !! websocket).

(** [self._uuid_to_client.pop(uuid, None)] *)
Definition pop_uuid (uuid_ : UUID) : M (option Client.t) :=
  s <- get_self ;;
  _ <- set_self (fun s =>
         mkServer (_websocket_to_client s)
                  (delete uuid_ (_uuid_to_client s))) ;;
  Eff.ret (_uuid_to_client s !! uuid_).

Section WithSerializer.
Context {wire : Serializer}.

(** [SignalingServer.send] *)
Definition send (websocket : WebSocket) (message : Message) : M unit :=
  let message_bytes := serialize message in
  await (WsSend websocket message_bytes).

(** [SignalingServer.unregister] *)
Definition unregister (websocket : WebSocket) (expected : bool) : M unit :=
  client <- pop_websocket websocket ;;
  match client with
  | None => Eff.ret tt
  | Some client =>
      let reason := if expected then "ok" else "unexpected" in
      _ <- log Info (LogUnregistering client reason) ;;
      _ <- pop_uuid (Client.uuid client) ;;
      await (WsClose (Client.websocket client)
                     (if expected then 1000 else 1001)%Z)
  end.

(** [SignalingServer.register] *)
Definition register (websocket : WebSocket)
    (request : PeerRegistrationRequest.t) : M unit :=
  uuid_ <- match PeerRegistrationRequest.uuid request with
           | None => uuid4
           | Some u => Eff.ret u
           end ;;
  s <- get_self ;;
  client <-
    match _websocket_to_client s !! websocket with
    | None =>
        _ <- match _uuid_to_client s !! uuid_ with
             | Some old =>
                 _ <- log Info (LogReregisterRemoveOld uuid_) ;;
                 unregister (Client.websocket old) false
             | None => Eff.ret tt
             end ;;
        let client :=
          Client.mk (PeerRegistrationRequest.name request) uuid_ websocket in
        _ <- set_self (fun s =>
               mkServer (<[websocket := client]> (_websocket_to_client s))
                        (_uuid_to_client s)) ;;
        _ <- set_self (fun s =>
               mkServer (_websocket_to_client s)
                        (<[Client.uuid client := client]> (_uuid_to_client s))) ;;
        _ <- log Info (LogRegistered client) ;;
        Eff.ret client
    | Some client =>
        _ <- log Info (LogReregisterReturnPrevious (Client.uuid client)) ;;
        Eff.ret client
    end ;;
  send websocket
    (MRegistrationResponse
       (PeerRegistrationResponse.mk (Client.uuid client) None)).

(** [SignalingServer.connect] *)
Definition connect (websocket : WebSocket)
    (message : PeerConnectionMessage.t) : M unit :=
  s <- get_self ;;
  client <- getitem (_websocket_to_client s) websocket ;;
  let peer_uuid := PeerConnectionMessage.peer_uuid message in
  match _uuid_to_client s !! peer_uuid with
  | None =>
      _ <- log Warning (LogUnknownPeer client peer_uuid) ;;
      c1 <- getitem (_websocket_to_client s) websocket ;;
      c2 <- getitem (_websocket_to_client s) websocket ;;
      send websocket
        (MConnection
           (PeerConnectionMessage.mk
              (Client.uuid c1) (Client.name c2) peer_uuid None
              (Some (PeerUnknownError
                       ("peer " ++ PyUUID.str peer_uuid ++ " is unknown")))))
  | Some peer_client =>
      _ <- log Info (LogTransmitting client peer_uuid) ;;
      send (Client.websocket peer_client) (MConnection message)
  end.

(** What [await websocket.recv()] yields in the handler loop. *)
Inductive Recv :=
  | Frame (data : bytes)
  | ConnectionClosedOK
  | ConnectionClosedError.

Inductive Loop := Continue | Break.

(** One pass through the body of [while True] in
    [SignalingServer.handler]. *)
Definition handler_iteration (websocket : WebSocket) (r : Recv) : M Loop :=
  match r with
  | ConnectionClosedOK =>
      _ <- unregister websocket true ;; Eff.ret Break
  | ConnectionClosedError =>
      _ <- unregister websocket false ;; Eff.ret Break
  | Frame data =>
      match deserialize data with
      | None =>
          _ <- log Error (LogDeserializationError websocket) ;;
          Eff.ret Continue
      | Some message =>
          _ <- match message with
               | MRegistrationRequest request => register websocket request
               | MConnection m =>
                   s <- get_self ;;
                   match _websocket_to_client s !! websocket with
                   | Some _ => connect websocket m
                   | None =>
                       _ <- log Info
                              (LogUnregisteredClient
                                 (PeerConnectionMessage.source_uuid m)
                                 (PeerConnectionMessage.source_name m)) ;;
                       send websocket
                         (MServerError "client has not registered yet")
                   end
               | _ =>
                   _ <- log Error (LogUnknownRequestType websocket message) ;;
                   send websocket (MServerError "unknown request type")
               end ;;
          Eff.ret Continue
      end
  end.

(** The [while True] loop over the frames the transport delivers. *)
Fixpoint handler_loop (websocket : WebSocket) (inbox : list Recv) : M unit :=
  match inbox with
  | [] => Eff.ret tt
  | r :: inbox' =>
      ctl <- handler_iteration websocket r ;;
      match ctl with
      | Break => Eff.ret tt
      | Continue => handler_loop websocket inbox'
      end
  end.

(** [SignalingServer.handler] *)
Definition handler (websocket : WebSocket) (inbox : list Recv) : M unit :=
  _ <- log Info LogListening ;;
  handler_loop websocket inbox.

(** Operations invoked on the server, one after the other. *)
Inductive Op :=
  | OpRegister (websocket : WebSocket) (request : PeerRegistrationRequest.t)
  | OpUnregister (websocket : WebSocket) (expected : bool)
  | OpConnect (websocket : WebSocket) (message : PeerConnectionMessage.t)
  | OpReceive (websocket : WebSocket) (r : Recv).

(** An operation that raises ends its handler; the server lives on. *)
Definition run_op (op : Op) (w : World) : World :=
  match op with
  | OpRegister ws request => snd (register ws request w)
  | OpUnregister ws expected => snd (unregister ws expected w)
  | OpConnect ws message => snd (connect ws message w)
  | OpReceive ws r => snd (handler_iteration ws r w)
  end.

Definition run_ops (ops : list Op) (w : World) : World :=
  fold_left (fun w op => run_op op w) ops w.

(** A fresh server and a [uuid4] source. *)
Definition boot (source : nat -> UUID) : World :=
  mkWorld init [] source 0.

End WithSerializer.

(** The UUID [register] works with, the request's own or a fresh draw, and
    the number of draws that takes. *)
Definition chosen_uuid (request : PeerRegistrationRequest.t) (w : World)
    : UUID :=
  match PeerRegistrationRequest.uuid request with
  | Some u => u
  | None => uuid_source w (uuid_count w)
  end.

Definition draws (request : PeerRegistrationRequest.t) : nat :=
  match PeerRegistrationRequest.uuid request with
  | Some _ => 0
  | None => 1
  end.

(** The reply to a registration. *)
Definition registration_response {wire : Serializer} (u : UUID) : bytes :=
  serialize (MRegistrationResponse (PeerRegistrationResponse.mk u None)).

(** The transport operations among the items of a trace. *)
Definition ios (t : list Item) : list IO :=
  omap (fun i => match i with Await io _ => Some io | Logged _ _ => None end) t.

(** What running [m] from [w] adds to the trace, and the transport
    operations it awaits. *)
Definition added {A} (m : M A) (w : World) : list Item :=
  drop (length (trace w)) (trace (snd (m w))).

Definition output {A} (m : M A) (w : World) : list IO :=
  ios (added m w).

(** The two indices hold the same clients: each entry of one is stored
    under its own key and is the entry the other index has for it. *)
Definition consistent (s : SignalingServer) : Prop :=
  (forall ws c, _websocket_to_client s !! ws = Some c ->
     Client.websocket c = ws /\ _uuid_to_client s !! Client.uuid c = Some c)
  /\
  (forall u c, _uuid_to_client s !! u = Some c ->
     Client.uuid c = u /\ _websocket_to_client s !! Client.websocket c = Some c).

(** Every suspension point of a trace saw a consistent registry. *)
Definition awaits_consistent (t : list Item) : Prop :=
  forall io s, Await io s ∈ t -> consistent s.

(** The invariant carried along a run: the registry is consistent now and
    was so at every suspension point so far. *)
Definition good (w : World) : Prop :=
  consistent (self w) /\ awaits_consistent (trace w).

(** [register] from the point where its [await self.unregister(...)] has
    returned: bind the new client in both indices and reply. *)
Definition register_resume {wire : Serializer} (websocket : WebSocket)
    (request : PeerRegistrationRequest.t) (uuid_ : UUID) : M unit :=
  let client :=
    Client.mk (PeerRegistrationRequest.name request) uuid_ websocket in
  _ <- set_self (fun s =>
         mkServer (<[websocket := client]> (_websocket_to_client s))
                  (_uuid_to_client s)) ;;
  _ <- set_self (fun s =>
         mkServer (_websocket_to_client s)
                  (<[Client.uuid client := client]> (_uuid_to_client s))) ;;
  _ <- log Info (LogRegistered client) ;;
  send websocket
    (MRegistrationResponse
       (PeerRegistrationResponse.mk (Client.uuid client) None)).


Definition is_registration_request (m : Message) : bool :=
  match m with
  | MRegistrationRequest _ => true
  | _ => false
  end.

(** The rule for frames ahead of registration in the specification's words:
    the one reply is [ServerError("client has not registered yet")] and the
    registry stays as it is. *)
Definition premature_as_stated {wire : Serializer} (websocket : WebSocket)
    (data : bytes) (w : World) : Prop :=
  output (handler_iteration websocket (Frame data)) w
    = [WsSend websocket
         (serialize (MServerError "client has not registered yet"))] /\
  self (snd (handler_iteration websocket (Frame data) w)) = self w.

(** Run the server's computations on a symbolic world. *)
Ltac run :=
  unfold register, unregister, connect, send, pop_websocket, pop_uuid,
    getitem, await, log, uuid4, get_self, set_self,
    Eff.bind, Eff.modify, Eff.ret, Eff.raise, Eff.get; cbn.

(** Every [Await] among explicitly listed items carries a known registry. *)
Ltac items_ok :=
  let Hin := fresh "Hin" in
  intros ? ? Hin;
  repeat (apply elem_of_cons in Hin as [Hin|Hin];
          [try discriminate Hin; injection Hin as _ ->|]);
  try (by apply elem_of_nil in Hin); try assumption.

End Signaling.

(** ** The signaling client ([server.py], function [connect]) *)

Module SignalingClient.

(** What [await asyncio.wait_for(websocket.recv(), timeout)] does. *)
Inductive RecvOutcome :=
  | Received (data : bytes)
  | Closed
  | TimedOut.

(** The process environment and the [websockets] library, as far as
    [connect] uses them. [ws_connect uri open_timeout] either raises or
    yields a transport; [ws_send] raises or returns. *)
Record Env := mkEnv {
  gethostname : string;
  websockets_version : Z;
  ws_connect : string -> option Z -> Exn + nat;
  ws_send : nat -> bytes -> option Exn;
  ws_recv : nat -> Z -> RecvOutcome
}.

Section WithSerializer.
Context {wire : Serializer}.

Definition connect (env : Env) (address : string) (uuid : option UUID)
    (name : option string) (timeout : Z) : Outcome (UUID * string * nat) :=
  let name := match name with
              | None => gethostname env
              | Some n => n
              end in
  let open_timeout :=
    if (10 <=? websockets_version env)%Z then Some timeout else None in
  match ws_connect env ("ws://" ++ address) open_timeout with
  | inl e => Raise e
  | inr websocket =>
      match ws_send env websocket
              (serialize (MRegistrationRequest
                            (PeerRegistrationRequest.mk uuid name))) with
      | Some e => Raise e
      | None =>
          match ws_recv env websocket timeout with
          | Closed => Raise (PeerRegistrationError ClosedBeforeCompleted)
          | TimedOut => Raise (PeerRegistrationError NoReplyWithinTimeout)
          | Received data =>
              match deserialize data with
              | None => Raise SerializationError
              | Some (MRegistrationResponse m) =>
                  match PeerRegistrationResponse.error m with
                  | Some e =>
                      Raise (PeerRegistrationError (ServerRepliedError e))
                  | None =>
                      Ret (PeerRegistrationResponse.uuid m, name, websocket)
                  end
              | Some _ => Raise (PeerRegistrationError UnknownMessageType)
              end
          end
      end
  end.

(** The name [connect] registers under and the [open_timeout] it passes. *)
Definition name_used (env : Env) (name : option string) : string :=
  default (gethostname env) name.

Definition open_timeout (env : Env) (timeout : Z) : option Z :=
  if (10 <=? websockets_version env)%Z then Some timeout else None.

(** The three ways to fail that the specification lists, read off what the
    wait for the response yields: the transport closed, the wait timed out,
    or the response is not a [PeerRegistrationResponse] free of an error. *)
Definition refused (r : RecvOutcome) : Prop :=
  match r with
  | Closed => True
  | TimedOut => True
  | Received data =>
      match deserialize data with
      | Some (MRegistrationResponse m) =>
          is_Some (PeerRegistrationResponse.error m)
      | _ => True
      end
  end.

Definition raises_registration_error {A} (o : Outcome A) : Prop :=
  exists why, o = Raise (PeerRegistrationError why).

(** The contract in the specification's words: [connect] returns an identity
    with the name used and the transport, or raises [PeerRegistrationError];
    and it raises exactly when the response is refused. *)
Definition connect_as_stated (env : Env) (address : string)
    (uuid : option UUID) (name : option string) (timeout : Z) : Prop :=
  let result := connect env address uuid name timeout in
  ((exists u websocket, result = Ret (u, name_used env name, websocket))
   \/ raises_registration_error result) /\
  (raises_registration_error result <->
   exists websocket,
     ws_connect env ("ws://" ++ address) (open_timeout env timeout)
       = inr websocket /\
     refused (ws_recv env websocket timeout)).

End WithSerializer.

End SignalingClient.

(** ** The endpoint connector ([connectors/endpoint.py]) *)

Module Endpoint.

Module EndpointKey.
Record t := mk { object_id : string; endpoint_id : option string }.
End EndpointKey.

(** The attributes [EndpointConnector.__init__] leaves on [self]:
    [endpoint_uuid] is the UUID of the home endpoint, the one answering at
    [address]. *)
Record EndpointConnector := mkConnector {
  endpoints : list UUID;
  proxystore_dir : option string;
  endpoint_uuid : UUID;
  endpoint_host : string;
  endpoint_port : Z;
  address : string
}.

(** Modelled from the spec: the endpoints behind [proxystore.endpoint.client]
    are not part of the sources at hand. Following sections 3, 4.5 and 4.6 of
    the specification, each endpoint owns a local store, a mapping from
    object ids to bytes; [listening] tells which endpoint (by the string form
    of its identity) answers at an address, [stores] holds the local store of
    every endpoint of the fabric. *)
Record Net := mkNet {
  listening : gmap string string;
  stores : gmap string (gmap string (list byte))
}.

(** The connector's process: the fabric it talks to and the source
    [uuid.uuid4()] draws from. *)
Record World := mkWorld {
  net : Net;
  uuid_source : nat -> UUID;
  uuid_count : nat
}.

Abbreviation M := (Eff.M World) (only parsing).

Definition uuid4 : M UUID :=
  fun w => (Ret (uuid_source w (uuid_count w)),
            mkWorld (net w) (uuid_source w) (S (uuid_count w))).

Definition get_net : M Net := fun w => (Ret (net w), w).

Definition set_net (n : Net) : M unit :=
  Eff.modify (fun w => mkWorld n (uuid_source w) (uuid_count w)).

(** The local store of endpoint [id]. *)
Definition store_of (n : Net) (id : string) : gmap string (list byte) :=
  default ∅ (stores n !! id).

Definition with_store (n : Net) (id : string)
    (s : gmap string (list byte)) : Net :=
  mkNet (listening n) (<[id := s]> (stores n)).

(** Modelled from the spec: the routing rule of the endpoint request layer
    (section 4.5). The request reaches the endpoint answering at [address];
    with no [endpoint_id], or with that endpoint's own identity, it is served
    from its local store; otherwise it is served by the named peer, and a
    peer outside the fabric is a peer error (status 502). A request to an
    address where nothing answers raises with no response attached. *)
Definition resolve (n : Net) (address : string) (endpoint_id : option string)
    : Exn + string :=
  match listening n !! address with
  | None => inl (RequestException None)
  | Some local =>
      match endpoint_id with
      | None => inr local
      | Some e =>
          if decide (e = local) then inr local
          else match stores n !! e with
               | Some _ => inr e
               | None => inl (RequestException (Some 502%Z))
               end
      end
  end.

Definition route (address : string) (endpoint_id : option string) : M string :=
  n <- get_net ;;
  match resolve n address endpoint_id with
  | inl e => Eff.raise e
  | inr id => Eff.ret id
  end.

(** Modelled from the spec: [client.put], [client.get], [client.exists] and
    [client.evict] are the four operations of section 4.5 on the store the
    request is routed to; an absent object is a null payload on [get], and
    evicting an absent object succeeds. *)
Definition client_put (address object_id : string) (obj : bytes)
    (endpoint_id : option string) : M unit :=
  id <- route address endpoint_id ;;
  n <- get_net ;;
  set_net (with_store n id (<[object_id := obj]> (store_of n id))).

Definition client_get (address object_id : string)
    (endpoint_id : option string) : M (option bytes) :=
  id <- route address endpoint_id ;;
  n <- get_net ;;
  Eff.ret (store_of n id !! object_id).

Definition client_exists (address object_id : string)
    (endpoint_id : option string) : M bool :=
  id <- route address endpoint_id ;;
  n <- get_net ;;
  Eff.ret (bool_decide (is_Some (store_of n id !! object_id))).

Definition client_evict (address object_id : string)
    (endpoint_id : option string) : M unit :=
  id <- route address endpoint_id ;;
  n <- get_net ;;
  set_net (with_store n id (delete object_id (store_of n id))).

(** [try: ... except requests.exceptions.RequestException as e: raise
    EndpointConnectorError(f'<op> failed with error code
    {e.response.status_code}.')]. With no response attached, reading
    [e.response.status_code] is itself an [AttributeError]. *)
Definition reraise {A} (op : string) (m : M A) : M A :=
  fun w =>
    match m w with
    | (Raise (RequestException (Some code)), w') =>
        (Raise (EndpointConnectorError
                  (op ++ " failed with error code " ++ pretty code ++ ".")), w')
    | (Raise (RequestException None), w') => (Raise AttributeError, w')
    | r => r
    end.

(** [EndpointConnector.evict] *)
Definition evict (self : EndpointConnector) (key : EndpointKey.t) : M unit :=
  reraise "Evict"
    (client_evict (address self) (EndpointKey.object_id key)
                  (EndpointKey.endpoint_id key)).

(** [EndpointConnector.exists] *)
Definition exists_ (self : EndpointConnector) (key : EndpointKey.t) : M bool :=
  reraise "Exists"
    (client_exists (address self) (EndpointKey.object_id key)
                   (EndpointKey.endpoint_id key)).

(** [EndpointConnector.get] *)
Definition get (self : EndpointConnector) (key : EndpointKey.t)
    : M (option bytes) :=
  reraise "Get"
    (client_get (address self) (EndpointKey.object_id key)
                (EndpointKey.endpoint_id key)).

(** [[f(x) for x in xs]] *)
Fixpoint comprehension {A B} (f : A -> M B) (xs : list A) : M (list B) :=
  match xs with
  | [] => Eff.ret []
  | x :: xs' =>
      y <- f x ;;
      ys <- comprehension f xs' ;;
      Eff.ret (y :: ys)
  end.

(** [EndpointConnector.get_batch] *)
Definition get_batch (self : EndpointConnector) (keys : list EndpointKey.t)
    : M (list (option bytes)) :=
  comprehension (get self) keys.

(** [EndpointConnector.put] *)
Definition put (self : EndpointConnector) (obj : bytes) : M EndpointKey.t :=
  u <- uuid4 ;;
  let key := EndpointKey.mk (PyUUID.str u)
                            (Some (PyUUID.str (endpoint_uuid self))) in
  _ <- reraise "Put"
         (client_put (address self) (EndpointKey.object_id key) obj
                     (EndpointKey.endpoint_id key)) ;;
  Eff.ret key.

(** [EndpointConnector.put_batch] *)
Definition put_batch (self : EndpointConnector) (objs : list bytes)
    : M (list EndpointKey.t) :=
  comprehension (put self) objs.

(** Calls made on a connector, one after the other. *)
Inductive Call :=
  | CallPut (obj : bytes)
  | CallPutBatch (objs : list bytes)
  | CallGet (key : EndpointKey.t)
  | CallGetBatch (keys : list EndpointKey.t)
  | CallExists (key : EndpointKey.t)
  | CallEvict (key : EndpointKey.t).

(** The keys a call hands back to its caller, and the world it leaves. A
    call that raises hands back nothing. *)
Definition run_call (self : EndpointConnector) (c : Call) (w : World)
    : list EndpointKey.t * World :=
  match c with
  | CallPut obj =>
      match put self obj w with
      | (Ret k, w') => ([k], w')
      | (Raise _, w') => ([], w')
      end
  | CallPutBatch objs =>
      match put_batch self objs w with
      | (Ret ks, w') => (ks, w')
      | (Raise _, w') => ([], w')
      end
  | CallGet key => ([], snd (get self key w))
  | CallGetBatch keys => ([], snd (get_batch self keys w))
  | CallExists key => ([], snd (exists_ self key w))
  | CallEvict key => ([], snd (evict self key w))
  end.

Fixpoint run_calls (self : EndpointConnector) (cs : list Call) (w : World)
    : list EndpointKey.t * World :=
  match cs with
  | [] => ([], w)
  | c :: cs' =>
      let '(ks, w') := run_call self c w in
      let '(ks', w'') := run_calls self cs' w' in
      ((ks ++ ks')%list, w'')
  end.

(** A call that evicts the object named [object_id]. *)
Definition evicts (object_id : string) (c : Call) : Prop :=
  match c with
  | CallEvict key => EndpointKey.object_id key = object_id
  | _ => False
  end.

(** The connector's home endpoint answers at its address, as
    [EndpointConnector.__init__] checked. *)
Definition at_home (self : EndpointConnector) (w : World) : Prop :=
  listening (net w) !! address self = Some (PyUUID.str (endpoint_uuid self)).

(** The first [n] draws of [uuid4] are 128-bit values, no two the same. *)
Definition unique_upto (source : nat -> UUID) (n : nat) : Prop :=
  (forall i, i < n -> (source i < 2 ^ 128)%N) /\
  (forall i j, i < n -> j < n -> source i = source j -> i = j).

(** The fabric only grows: the same endpoints answer at the same addresses
    and no endpoint leaves. *)
Definition extends (n n' : Net) : Prop :=
  listening n' = listening n /\
  (forall e, is_Some (stores n !! e) -> is_Some (stores n' !! e)).

(** What a stretch of calls leaves alone: the source of [uuid4], whose
    draws only advance; the fabric, which only grows; and every stored
    object whose id is neither evicted ([evicted]) nor minted on the way. *)
Definition frame (evicted : string -> Prop) (w w' : World) : Prop :=
  uuid_source w' = uuid_source w /\
  uuid_count w <= uuid_count w' /\
  extends (net w) (net w') /\
  forall id oid,
    ~ evicted oid ->
    (forall i, uuid_count w <= i < uuid_count w' ->
               oid <> PyUUID.str (uuid_source w i)) ->
    store_of (net w') id !! oid = store_of (net w) id !! oid.

(** A key [put] made between [w] and [w']: its object id is the string of
    one of the UUIDs drawn on the way, its endpoint the connector's home. *)
Definition minted (self : EndpointConnector) (w w' : World)
    (key : EndpointKey.t) : Prop :=
  exists i, uuid_count w <= i < uuid_count w' /\
    key = EndpointKey.mk (PyUUID.str (uuid_source w i))
                         (Some (PyUUID.str (endpoint_uuid self))).

Ltac run_client :=
  unfold client_put, client_get, client_exists, client_evict, route,
    get_net, set_net, Eff.bind, Eff.modify, Eff.ret, Eff.raise; cbn.

End Endpoint.

(** ** The remote store ([store/remote.py], class [RemoteStore]) *)

Module Remote.

(** What a subclass and the runtime supply: the abstract method
    [get_bytes], a read of the remote store [B] as it stands (a [get] writes
    nothing to it); [float(b.decode())] on the
    bytes of a timestamp ([None]: it raises [ValueError]); [>=] on the
    floats so obtained; and [ps.serialize.deserialize] ([None]: it raises
    [SerializationError]). *)
Class Runtime (B Timestamp Obj : Type) := {
  get_bytes : B -> string -> option bytes;
  to_float : bytes -> option Timestamp;
  ge : Timestamp -> Timestamp -> bool;
  ps_deserialize : bytes -> option Obj
}.

Section WithRuntime.
Context {B Timestamp Obj : Type} {runtime : Runtime B Timestamp Obj}.

(** What [get] returns and the cache holds: the stored bytes as they are, or
    the object they deserialize to. *)
Inductive Value :=
  | Serialized (b : bytes)
  | Object (o : Obj).

(** Modelled from the spec: [proxystore.store.cache.LRUCache] is not part of
    the sources at hand; per the specification's design notes the cache is a
    mapping from keys to (timestamp, value). [exists] and [get] read that
    mapping. *)
Definition cache_exists (key : string)
    (cache : gmap string (Timestamp * Value)) : bool :=
  bool_decide (is_Some (cache !! key)).

Definition cache_get (key : string)
    (cache : gmap string (Timestamp * Value)) : option (Timestamp * Value) :=
  cache !! key.

(** [RemoteStore]: [_cache] is [None] when caching is disabled. *)
Record RemoteStore := mkStore {
  name : string;
  cache_size : Z;
  _cache : option (gmap string (Timestamp * Value))
}.

(** [RemoteStore.__init__] *)
Definition init (name : string) (cache_size : Z) : Outcome RemoteStore :=
  if (cache_size <? 0)%Z then Raise (ValueError "Cache size cannot be negative")
  else Ret (mkStore name cache_size
                    (if (0 <? cache_size)%Z then Some ∅ else None)).

(** How a [get] was answered, as its [logger.debug] line tells. *)
Inductive Event :=
  | GetBytes (key : string)
  | DebugGet (key : string) (was_cached : option bool).

(** The store object, the remote store behind it, and what happened so far:
    the calls of [get_bytes] and the debug lines, in order. *)
Record World := mkWorld {
  self : RemoteStore;
  remote : B;
  events : list Event
}.

Abbreviation M := (Eff.M World) (only parsing).

Definition emit (e : Event) : M unit :=
  Eff.modify (fun w => mkWorld (self w) (remote w) (events w ++ [e])).

(** A call [self.get_bytes(key)]. *)
Definition call_get_bytes (key : string) : M (option bytes) :=
  _ <- emit (GetBytes key) ;;
  w <- Eff.get ;;
  Eff.ret (get_bytes (remote w) key).

(** [float(x.decode())] on the result of [get_bytes]: [None] has no
    [decode]. *)
Definition decode_float (x : option bytes) : M Timestamp :=
  match x with
  | None => Eff.raise AttributeError
  | Some b =>
      match to_float b with
      | Some t => Eff.ret t
      | None => Eff.raise (ValueError "could not convert string to float")
      end
  end.

(** [self._cache.<method>(...)]: [None] has no attributes. *)
Definition the_cache : M (gmap string (Timestamp * Value)) :=
  w <- Eff.get ;;
  match _cache (self w) with
  | Some cache => Eff.ret cache
  | None => Eff.raise AttributeError
  end.

(** [x[i]] on what [LRUCache.get] returned: [None] is not subscriptable. *)
Definition subscript {A} (x : option (Timestamp * Value))
    (proj : Timestamp * Value -> A) : M A :=
  match x with
  | Some entry => Eff.ret (proj entry)
  | None => Eff.raise TypeError
  end.

(** [self._cache.set(key, entry)]. What an LRU cache evicts on [set] is not
    fixed here: [set] is whatever [cache_set] does. *)
Context (cache_set : string -> Timestamp * Value ->
                     gmap string (Timestamp * Value) ->
                     gmap string (Timestamp * Value)).

Definition cache_set_m (key : string) (entry : Timestamp * Value) : M unit :=
  Eff.modify (fun w =>
    mkWorld (mkStore (name (self w)) (cache_size (self w))
                     (cache_set key entry <$> _cache (self w)))
            (remote w) (events w)).

(** [RemoteStore.is_cached] *)
Definition is_cached (key : string) (strict : bool) : M bool :=
  w <- Eff.get ;;
  match _cache (self w) with
  | None => Eff.ret false
  | Some cache =>
      if cache_exists key cache then
        if strict then
          x <- call_get_bytes (key ++ "_timestamp") ;;
          store_timestamp <- decode_float x ;;
          cache <- the_cache ;;
          cache_timestamp <- subscript (cache_get key cache) fst ;;
          Eff.ret (ge cache_timestamp store_timestamp)
        else Eff.ret true
      else Eff.ret false
  end.

(** The part of [RemoteStore.get] after the cache was found not to answer:
    fetch the value, then its timestamp sidecar. *)
Definition fetch (key : string) (deserialize : bool)
    (default : option Value) : M (option Value) :=
  value <- call_get_bytes key ;;
  match value with
  | Some value =>
      x <- call_get_bytes (key ++ "_timestamp") ;;
      timestamp <- decode_float x ;;
      value <- (if deserialize then
                  match ps_deserialize value with
                  | Some o => Eff.ret (Object o)
                  | None => Eff.raise SerializationError
                  end
                else Eff.ret (Serialized value)) ;;
      w <- Eff.get ;;
      _ <- match _cache (self w) with
           | Some _ => cache_set_m key (timestamp, value)
           | None => Eff.ret tt
           end ;;
      _ <- emit (DebugGet key (Some false)) ;;
      Eff.ret (Some value)
  | None =>
      _ <- emit (DebugGet key None) ;;
      Eff.ret default
  end.

(** [RemoteStore.get] *)
Definition get (key : string) (deserialize strict : bool)
    (default : option Value) : M (option Value) :=
  cached <- is_cached key strict ;;
  if (cached : bool) then
    cache <- the_cache ;;
    value <- subscript (cache_get key cache) snd ;;
    _ <- emit (DebugGet key (Some true)) ;;
    Eff.ret (Some value)
  else fetch key deserialize default.

(** The events running [m] from [w] adds. *)
Definition new_events {A} (m : M A) (w : World) : list Event :=
  drop (length (events w)) (events (snd (m w))).

End WithRuntime.

Arguments Value Obj : clear implicits.
Arguments RemoteStore Timestamp Obj : clear implicits.
Arguments World B Timestamp Obj : clear implicits.

Ltac run_remote :=
  unfold get, fetch, is_cached, the_cache, subscript, decode_float,
    call_get_bytes, cache_set_m, emit, cache_exists, cache_get,
    Eff.bind, Eff.modify, Eff.ret, Eff.raise, Eff.get; cbn.

(** An event is none of the explicitly listed ones. *)
Ltac not_in_list :=
  let Hin := fresh "Hin" in
  intros Hin;
  repeat (apply elem_of_cons in Hin as [Hin|Hin]; [discriminate Hin|]);
  by apply elem_of_nil in Hin.

End Remote.

(** ** Concrete environments for worked examples *)

Module Examples.

(** A small wire format: one tag byte names the kind of message. A
    [ServerError] carries its text after the tag; every other tag decodes to
    one fixed message of its kind. *)
Definition alice_request : PeerRegistrationRequest.t :=
  PeerRegistrationRequest.mk (Some 7%N) "alice".

Definition note_to_self : PeerConnectionMessage.t :=
  PeerConnectionMessage.mk 7%N "alice" 7%N (Some "offer") None.

Definition wire : Serializer := {|
  serialize m :=
    match m with
    | MRegistrationRequest _ => [x01]
    | MRegistrationResponse _ => [x02]
    | MConnection _ => [x03]
    | MServerError message => x04 :: list_byte_of_string message
    | OtherObject _ => [x05]
    end;
  deserialize data :=
    match data with
    | [x01] => Some (MRegistrationRequest alice_request)
    | [x02] => Some (MRegistrationResponse (PeerRegistrationResponse.mk 7%N None))
    | [x03] => Some (MConnection note_to_self)
    | x04 :: text => Some (MServerError (string_of_list_byte text))
    | [x05] => Some (OtherObject "dict")
    | _ => None
    end
|}.

Definition source (n : nat) : UUID := (1000 + N.of_nat n)%N.

(** A remote store held as a map, timestamps written as decimal digits,
    and objects that deserialize to their own bytes. *)
Definition digit (b : byte) : option N :=
  let n := Byte.to_N b in
  if ((48 <=? n) && (n <=? 57))%N then Some (n - 48)%N else None.

Fixpoint decimal (acc : N) (bs : list byte) : option N :=
  match bs with
  | [] => Some acc
  | b :: bs' =>
      match digit b with
      | Some d => decimal (10 * acc + d)%N bs'
      | None => None
      end
  end.

Definition runtime : Remote.Runtime (gmap string (list byte)) N (list byte) := {|
  Remote.get_bytes store key := store !! key;
  Remote.to_float bs := match bs with [] => None | _ => decimal 0 bs end;
  Remote.ge a b := (b <=? a)%N;
  Remote.ps_deserialize bs := Some bs
|}.

Definition cache_insert (key : string)
    (entry : N * Remote.Value (list byte))
    (cache : gmap string (N * Remote.Value (list byte)))
    : gmap string (N * Remote.Value (list byte)) :=
  <[key := entry]> cache.

(** A store caching ["k"] as fetched at time 5, over a remote store that
    holds ["k"] with a sidecar written at time 7. *)
Definition stale_cache : Remote.World (gmap string (list byte)) N (list byte) :=
  Remote.mkWorld
    (Remote.mkStore "s" 4 (Some {[ "k" := (5%N, Remote.Serialized [x61]) ]}))
    ({[ "k" := [x62]; "k_timestamp" := [x37] ]})
    [].

(** A store without a cache, over a remote store that holds ["k"] and no
    sidecar for it. *)
Definition no_sidecar : Remote.World (gmap string (list byte)) N (list byte) :=
  Remote.mkWorld (Remote.mkStore "s" 0 None) ({[ "k" := [x62] ]}) [].

(** A connector whose home endpoint, with UUID 42 and an empty store,
    answers at its address; nothing else is in the fabric. *)
Definition home : Endpoint.EndpointConnector :=
  Endpoint.mkConnector [42%N] None 42%N "localhost" 8765
    "http://localhost:8765".

Definition fabric : Endpoint.World :=
  Endpoint.mkWorld
    (Endpoint.mkNet {[ "http://localhost:8765" := PyUUID.str 42 ]} ∅)
    source 0.

Definition first_key : Endpoint.EndpointKey.t :=
  Endpoint.EndpointKey.mk (PyUUID.str 1000) (Some (PyUUID.str 42)).

(** A signaling server that accepts the connection and the request, and
    answers with one frame. *)
Definition answering (frame : list byte) : SignalingClient.Env :=
  SignalingClient.mkEnv "host-a" 11
    (fun _ _ => inr 5) (fun _ _ => None)
    (fun _ _ => SignalingClient.Received frame).

(** A server on which alice registered as 7 over transport 1. *)
Definition alice_registered : Signaling.World :=
  Signaling.run_ops (wire := wire) [Signaling.OpRegister 1 alice_request]
    (Signaling.boot source).

End Examples.

(** * Further code of the same sources

    - [src/proxystore/connectors/endpoint.py]: module [Connector]
      ([EndpointConnector.__init__], [config], [from_config])
    - [src/proxystore/store/remote.py]       : module [RemoteSet]
      ([RemoteStore.set])
    - [src/proxystore/backend/utils.py]      : module [Backend]
    - [src/proxystore/p2p/server.py]         : modules [Interleaving]
      (the handlers as coroutines on one event loop) and [Session]
      ([SignalingServer.handler] with a codec that may raise anything) *)

(** ** More worked examples *)

Module MoreExamples.

Definition bob_request : PeerRegistrationRequest.t :=
  PeerRegistrationRequest.mk (Some 8%N) "bob".

(** A server on which alice registered as 7 over transport 1 and bob as 8
    over transport 2. *)
Definition two_registered : Signaling.World :=
  Signaling.run_ops (wire := Examples.wire)
    [Signaling.OpRegister 1 Examples.alice_request;
     Signaling.OpRegister 2 bob_request]
    (Signaling.boot Examples.source).

Definition note_to_alice : PeerConnectionMessage.t :=
  PeerConnectionMessage.mk 8%N "bob" 7%N (Some "offer") None.

(** Two clients that both ask for UUID 7, which alice holds. *)
Definition bob7 : PeerRegistrationRequest.t :=
  PeerRegistrationRequest.mk (Some 7%N) "bob".

Definition carol7 : PeerRegistrationRequest.t :=
  PeerRegistrationRequest.mk (Some 7%N) "carol".

End MoreExamples.

(** ** The endpoint connector's constructor and configuration
       ([connectors/endpoint.py], [EndpointConnector.__init__], [config],
       [from_config]) *)

Module Connector.

(** Modelled from the spec: [proxystore.endpoint.config] is not part of the
    sources at hand. Following the specification's endpoint configuration
    record (section 6), an [EndpointConfig] holds at least a name, a UUID, a
    host and a port; [__init__] reads the last three. *)
Module EndpointConfig.
Record t := mk { name : string; uuid : UUID; host : string; port : Z }.
End EndpointConfig.

(** What [__init__] reads of the response to [requests.get]:
    [response.status_code] and [response.json()['uuid']]. Reading the latter
    may raise ([inl]); the value read may be something else than a string
    ([inr None]), which no string equals. *)
Module Response.
Record t := mk { status_code : Z; json_uuid : Exn + option string }.
End Response.

(** The process the constructor runs in: [home_dir()], [get_configs(dir)],
    [requests.get(url)] ([inl]: it raises), and the 128-bit integer that
    [uuid.UUID(hex)] reads off a string ([inl message]: it raises
    [ValueError(message)]). *)
Record Host := mkHost {
  home_dir : string;
  get_configs : string -> list EndpointConfig.t;
  requests_get : string -> Exn + Response.t;
  uuid_hex : string -> string + N
}.

(** An element of the [endpoints] argument: a [UUID] or a string. *)
Inductive EndpointArg :=
  | AsUUID (u : UUID)
  | AsStr (s : string).

(** [uuid.UUID(..., version=version)]: the variant bits are set to RFC 4122
    and the version nibble to [version], whatever the value had there:
    [int &= ~(0xc000 << 48); int |= 0x8000 << 48; int &= ~(0xf000 << 64);
    int |= version << 76]. *)
Definition with_version (version : N) (int : N) : UUID :=
  N.lor (N.ldiff (N.lor (N.ldiff int (N.shiftl 0xc000 48))
                        (N.shiftl 0x8000 48))
                 (N.shiftl 0xf000 64))
        (N.shiftl version 76).

(** What the constructor does that can be seen from outside: the requests
    it makes and the lines it logs at debug level, in order. *)
Inductive Event :=
  | Get (url : string)
  | LogAttempting (uuid : UUID)
  | LogSuccessful (uuid : UUID)
  | LogDifferentUUID (uuid : UUID)
  | LogFailed (uuid : UUID).

Abbreviation M := (Eff.M (list Event)) (only parsing).

Definition emit (e : Event) : M unit :=
  Eff.modify (fun events => (events ++ [e])%list).

(** [requests.get(url)] *)
Definition request (env : Host) (url : string) : M Response.t :=
  _ <- emit (Get url) ;;
  match requests_get env url with
  | inl e => Eff.raise e
  | inr response => Eff.ret response
  end.

(** [e if isinstance(e, UUID) else UUID(e, version=4)] *)
Definition to_uuid (env : Host) (e : EndpointArg) : M UUID :=
  match e with
  | AsUUID u => Eff.ret u
  | AsStr s =>
      match uuid_hex env s with
      | inr int => Eff.ret (with_version 4 int)
      | inl message => Eff.raise (ValueError message)
      end
  end.

(** [[f(x) for x in xs]] *)
Fixpoint comprehension {A B} (f : A -> M B) (xs : list A) : M (list B) :=
  match xs with
  | [] => Eff.ret []
  | x :: xs' =>
      y <- f x ;;
      ys <- comprehension f xs' ;;
      Eff.ret (y :: ys)
  end.

(** [f'http://{endpoint.host}:{endpoint.port}'] *)
Definition base_url (host : string) (port : Z) : string :=
  "http://" ++ host ++ ":" ++ pretty port.

(** The body of [for endpoint in available_endpoints]: [Some endpoint] when
    the loop is left by [break] with [found_endpoint = endpoint]. *)
Definition probe (env : Host) (endpoints : list UUID)
    (endpoint : EndpointConfig.t) : M (option EndpointConfig.t) :=
  if bool_decide (EndpointConfig.uuid endpoint ∈ endpoints) then
    _ <- emit (LogAttempting (EndpointConfig.uuid endpoint)) ;;
    response <- request env
      (base_url (EndpointConfig.host endpoint) (EndpointConfig.port endpoint)
         ++ "/endpoint") ;;
    if (Response.status_code response =? 200)%Z then
      uuid <- match Response.json_uuid response with
              | inl e => Eff.raise e
              | inr v => Eff.ret v
              end ;;
      if bool_decide (Some (PyUUID.str (EndpointConfig.uuid endpoint)) = uuid)
      then
        _ <- emit (LogSuccessful (EndpointConfig.uuid endpoint)) ;;
        Eff.ret (Some endpoint)
      else
        _ <- emit (LogDifferentUUID (EndpointConfig.uuid endpoint)) ;;
        Eff.ret None
    else
      _ <- emit (LogFailed (EndpointConfig.uuid endpoint)) ;;
      Eff.ret None
  else Eff.ret None.

(** The [for] loop: the value of [found_endpoint] after it. *)
Fixpoint find (env : Host) (endpoints : list UUID)
    (available_endpoints : list EndpointConfig.t)
    : M (option EndpointConfig.t) :=
  match available_endpoints with
  | [] => Eff.ret None
  | endpoint :: rest =>
      found <- probe env endpoints endpoint ;;
      match found with
      | Some found_endpoint => Eff.ret (Some found_endpoint)
      | None => find env endpoints rest
      end
  end.

(** [EndpointConnector.__init__] *)
Definition init (env : Host) (endpoints : list EndpointArg)
    (proxystore_dir : option string) : M Endpoint.EndpointConnector :=
  if bool_decide (length endpoints = 0) then
    Eff.raise (ValueError "At least one endpoint must be specified.")
  else
    self_endpoints <- comprehension (to_uuid env) endpoints ;;
    let available_endpoints :=
      get_configs env (match proxystore_dir with
                       | None => home_dir env
                       | Some dir => dir
                       end) in
    found_endpoint <- find env self_endpoints available_endpoints ;;
    match found_endpoint with
    | None =>
        Eff.raise
          (EndpointConnectorError
             ("Failed to find endpoint configuration matching one of the "
                ++ "provided endpoint UUIDs."))
    | Some found_endpoint =>
        Eff.ret
          (Endpoint.mkConnector self_endpoints proxystore_dir
             (EndpointConfig.uuid found_endpoint)
             (EndpointConfig.host found_endpoint)
             (EndpointConfig.port found_endpoint)
             (base_url (EndpointConfig.host found_endpoint)
                       (EndpointConfig.port found_endpoint)))
    end.

(** The dictionary [config] returns and [from_config] takes, by its two
    keys. *)
Module Config.
Record t := mk { endpoints : list string; proxystore_dir : option string }.
End Config.

(** [EndpointConnector.config] *)
Definition config (self : Endpoint.EndpointConnector) : Config.t :=
  Config.mk (PyUUID.str <$> Endpoint.endpoints self)
            (Endpoint.proxystore_dir self).

(** [EndpointConnector.from_config]: the class called with the entries of
    the dictionary as keyword arguments. *)
Definition from_config (env : Host) (config : Config.t)
    : M Endpoint.EndpointConnector :=
  init env (AsStr <$> Config.endpoints config) (Config.proxystore_dir config).

(** What [__init__] makes of an element of [endpoints]. *)
Definition reads (env : Host) (e : EndpointArg) (u : UUID) : Prop :=
  match e with
  | AsUUID u' => u = u'
  | AsStr s => exists int, uuid_hex env s = inr int /\ u = with_version 4 int
  end.

(** The directory [__init__] reads the configurations from. *)
Definition directory (env : Host) (proxystore_dir : option string) : string :=
  match proxystore_dir with
  | None => home_dir env
  | Some dir => dir
  end.

(** The UUID is one a version 4 UUID can have. *)
Definition is_v4 (u : UUID) : Prop := with_version 4 u = u.

(** The requests among the events. *)
Definition requests (events : list Event) : list string :=
  omap (fun e => match e with Get url => Some url | _ => None end) events.

(** The URL [__init__] asks a configured endpoint at. *)
Definition probe_url (endpoint : EndpointConfig.t) : string :=
  base_url (EndpointConfig.host endpoint) (EndpointConfig.port endpoint)
    ++ "/endpoint".

(** The endpoint answers the probe with status 200 and its own UUID. *)
Definition answers (env : Host) (endpoint : EndpointConfig.t) : Prop :=
  exists response,
    requests_get env (probe_url endpoint) = inr response /\
    Response.status_code response = 200%Z /\
    Response.json_uuid response
      = inr (Some (PyUUID.str (EndpointConfig.uuid endpoint))).

(** The endpoint's probe comes back, and [__init__] passes it over: the
    status is not 200, or the UUID in the body is another one. *)
Definition passed_over (env : Host) (endpoint : EndpointConfig.t) : Prop :=
  exists response,
    requests_get env (probe_url endpoint) = inr response /\
    (Response.status_code response <> 200%Z \/
     exists v, Response.json_uuid response = inr v /\
               v <> Some (PyUUID.str (EndpointConfig.uuid endpoint))).

(** Modelled from the spec: [GET /endpoint] returns the local identity of
    the endpoint answering at the address (section 4.6). Every answer of
    [env] with status 200 and a UUID in its body is such a one, on the
    fabric [n]. *)
Definition truthful (env : Host) (n : Endpoint.Net) : Prop :=
  forall address response id,
    requests_get env (address ++ "/endpoint") = inr response ->
    Response.status_code response = 200%Z ->
    Response.json_uuid response = inr (Some id) ->
    Endpoint.listening n !! address = Some id.

End Connector.

(** ** [RemoteStore.set] ([store/remote.py]) *)

Module RemoteSet.
Import Remote.

(** What a subclass and the runtime supply for writing: the abstract method
    [set_bytes], which gives the remote store after the write;
    [ps.serialize.serialize] ([None]: it raises [SerializationError]); and
    [str(t).encode()] on a reading of [time.time()]. *)
Class Writer (B Timestamp Obj : Type) := {
  set_bytes : B -> string -> bytes -> B;
  ps_serialize : Obj -> option bytes;
  encode_time : Timestamp -> bytes
}.

(** The object handed to [set], with its [serialize] flag: an object to be
    serialized ([serialize=True]), or bytes that are stored as they are
    ([serialize=False]). *)
Inductive SetArg (Obj : Type) :=
  | Pickle (o : Obj)
  | Raw (b : bytes).
Arguments Pickle {Obj} o.
Arguments Raw {Obj} b.

Section WithWriter.
Context {B Timestamp Obj : Type} {runtime : Runtime B Timestamp Obj}
        {writer : Writer B Timestamp Obj}.

(** A call [self.set_bytes(key, data)]. *)
Definition call_set_bytes (key : string) (data : bytes)
    : Eff.M (World B Timestamp Obj) unit :=
  Eff.modify (fun w =>
    mkWorld (self w) (set_bytes (remote w) key data) (events w)).

(** [RemoteStore.set]. [now] is what [time.time()] reads and [created] what
    [self.create_key(obj)], a method of the base class, returns when it is
    called. The debug line [set] logs is not among the events, which are
    those of [get]. *)
Definition set (now : Timestamp) (created : string) (obj : SetArg Obj)
    (key : option string) : Eff.M (World B Timestamp Obj) string :=
  obj <- match obj with
         | Pickle o =>
             match ps_serialize o with
             | Some data => Eff.ret data
             | None => Eff.raise SerializationError
             end
         | Raw data => Eff.ret data
         end ;;
  let key := match key with
             | None => created
             | Some key => key
             end in
  _ <- call_set_bytes key obj ;;
  _ <- call_set_bytes (key ++ "_timestamp") (encode_time now) ;;
  Eff.ret key.

(** The bytes [set] writes for the object: [None] when serializing it
    raises. *)
Definition data_of (obj : SetArg Obj) : option bytes :=
  match obj with
  | Pickle o => ps_serialize o
  | Raw data => Some data
  end.

(** What [get] makes of stored bytes, with and without [deserialize]. *)
Definition read_as (deserialize : bool) (data : bytes) (value : Value Obj)
    : Prop :=
  if deserialize then exists o, ps_deserialize data = Some o /\ value = Object o
  else value = Serialized data.

(** No cache, or a cache that does not hold [key]. *)
Definition cold (key : string) (store : RemoteStore Timestamp Obj) : Prop :=
  forall cache, _cache store = Some cache -> cache !! key = None.

(** The remote store keeps what is written to it, under the key it was
    written for and nowhere else. *)
Definition keeps_writes : Prop :=
  forall (r : B) key data,
    get_bytes (set_bytes r key data) key = Some data /\
    forall key', key' <> key ->
      get_bytes (set_bytes r key data) key' = get_bytes r key'.

End WithWriter.

End RemoteSet.

(** ** Backends ([backend/utils.py]) *)

Module Backend.

(** What [proxystore.backend.store] supplies: the constructors
    [LocalStore()] and [RedisStore(hostname, port)], the two [isinstance]
    tests, and [type(s)] as [str.format] prints it. *)
Class Stores (Store : Type) := {
  LocalStore : Store;
  RedisStore : string -> Z -> Store;
  isinstance_LocalStore : Store -> bool;
  isinstance_RedisStore : Store -> bool;
  type_repr : Store -> string
}.

Section WithStores.
Context {Store : Type} {stores : Stores Store}.

(** The module attribute [ps.store]. *)
Abbreviation M := (Eff.M (option Store)) (only parsing).

Definition already_initialized (s : Store) : Exn :=
  ValueError
    ("Backend is already initialized to " ++ type_repr s ++ ". "
       ++ "ProxyStore does not support using multiple backends "
       ++ "at the same time.").

(** [init_local_backend] *)
Definition init_local_backend : M unit :=
  store <- Eff.get ;;
  match store with
  | Some s =>
      if isinstance_LocalStore s then Eff.ret tt
      else Eff.raise (already_initialized s)
  | None => Eff.modify (fun _ => Some LocalStore)
  end.

(** [init_redis_backend] *)
Definition init_redis_backend (hostname : string) (port : Z) : M unit :=
  store <- Eff.get ;;
  match store with
  | Some s =>
      if isinstance_RedisStore s then Eff.ret tt
      else Eff.raise (already_initialized s)
  | None => Eff.modify (fun _ => Some (RedisStore hostname port))
  end.

(** Calls of the two functions, one after the other. *)
Inductive Call :=
  | InitLocal
  | InitRedis (hostname : string) (port : Z).

Definition run_call (c : Call) : M unit :=
  match c with
  | InitLocal => init_local_backend
  | InitRedis hostname port => init_redis_backend hostname port
  end.

(** The outcomes of the calls, and [ps.store] after the last. A call that
    raises does not stop the next from being made. *)
Fixpoint run_calls (cs : list Call) (store : option Store)
    : list (Outcome unit) * option Store :=
  match cs with
  | [] => ([], store)
  | c :: cs' =>
      let '(r, store') := run_call c store in
      let '(rs, store'') := run_calls cs' store' in
      (r :: rs, store'')
  end.

(** The store a call makes when none is there, and the [isinstance] test
    it makes when one is. *)
Definition made (c : Call) : Store :=
  match c with
  | InitLocal => LocalStore
  | InitRedis hostname port => RedisStore hostname port
  end.

Definition accepts (c : Call) (s : Store) : bool :=
  match c with
  | InitLocal => isinstance_LocalStore s
  | InitRedis _ _ => isinstance_RedisStore s
  end.

(** The two calls are calls of the same function. *)
Definition same_function (c c' : Call) : bool :=
  match c, c' with
  | InitLocal, InitLocal => true
  | InitRedis _ _, InitRedis _ _ => true
  | _, _ => false
  end.

(** An object is an instance of the class that made it. *)
Definition instance_of_own_class : Prop :=
  isinstance_LocalStore LocalStore = true /\
  forall hostname port, isinstance_RedisStore (RedisStore hostname port) = true.

End WithStores.

End Backend.

(** ** The signaling server with its handlers interleaved ([server.py]) *)

Module Interleaving.
Import Signaling.

(** Handlers are coroutines on one event loop: a handler runs until it
    awaits, and other handlers run while it is suspended. After the awaits
    that end [unregister], [connect] and [register] nothing of the registry
    is read or written by the coroutine that awaited. The one await with
    registry work behind it is [await self.unregister(...)] inside
    [register]: it is suspended on the close of the old transport, and binds
    the new client when it is resumed. *)

Section WithSerializer.
Context {wire : Serializer}.

(** The registration an operation carries out, if it is one. *)
Definition registration_of (op : Op)
    : option (WebSocket * PeerRegistrationRequest.t) :=
  match op with
  | OpRegister websocket request => Some (websocket, request)
  | OpReceive websocket (Frame data) =>
      match deserialize data with
      | Some (MRegistrationRequest request) => Some (websocket, request)
      | _ => None
      end
  | _ => None
  end.

(** [register] up to its suspension in [await self.unregister(...)]: the
    branch for a new transport whose UUID is registered. What it hands on
    to the rest of [register] is the local [uuid_]. *)
Definition register_until_close (websocket : WebSocket)
    (request : PeerRegistrationRequest.t) : M UUID :=
  uuid_ <- match PeerRegistrationRequest.uuid request with
           | None => uuid4
           | Some u => Eff.ret u
           end ;;
  s <- get_self ;;
  _ <- match _uuid_to_client s !! uuid_ with
       | Some old =>
           _ <- log Info (LogReregisterRemoveOld uuid_) ;;
           unregister (Client.websocket old) false
       | None => Eff.ret tt
       end ;;
  Eff.ret uuid_.

End WithSerializer.

(** The client whose transport [register] closes, and on whose close it is
    suspended: the transport registering is new, its UUID is registered,
    and [unregister] finds the old transport (it returns at once, without
    awaiting, when it does not). *)
Definition displaced (websocket : WebSocket)
    (request : PeerRegistrationRequest.t) (w : World) : option Client.t :=
  match _websocket_to_client (self w) !! websocket with
  | Some _ => None
  | None =>
      match _uuid_to_client (self w) !! chosen_uuid request w with
      | Some old =>
          match _websocket_to_client (self w) !! Client.websocket old with
          | Some _ => Some old
          | None => None
          end
      | None => None
      end
  end.

(** The server and the registrations that are suspended, each with the
    locals it resumes with, by the transport of its handler. *)
Record State := mkState {
  world : World;
  suspended : gmap nat (PeerRegistrationRequest.t * UUID)
}.

(** What the event loop does next: let a handler start an operation, which
    runs to its end or to the suspension of [register]; or resume a
    suspended registration. *)
Inductive Event :=
  | Start (op : Op)
  | Resume (websocket : WebSocket).

(** The transport whose handler carries out the operation. *)
Definition handler_of (op : Op) : WebSocket :=
  match op with
  | OpRegister websocket _ => websocket
  | OpUnregister websocket _ => websocket
  | OpConnect websocket _ => websocket
  | OpReceive websocket _ => websocket
  end.

Section WithSerializer.
Context {wire : Serializer}.

(** One step of the event loop. [None]: the step cannot be taken, since a
    suspended handler starts nothing, and only a suspended registration is
    resumed. *)
Definition step (e : Event) (st : State) : option State :=
  match e with
  | Start op =>
      match suspended st !! handler_of op with
      | Some _ => None
      | None =>
          match registration_of op with
          | Some (websocket, request) =>
              match displaced websocket request (world st) with
              | Some _ =>
                  match register_until_close websocket request (world st) with
                  | (Ret uuid_, w) =>
                      Some (mkState w
                              (<[websocket := (request, uuid_)]> (suspended st)))
                  | (Raise _, w) => Some (mkState w (suspended st))
                  end
              | None => Some (mkState (run_op op (world st)) (suspended st))
              end
          | None => Some (mkState (run_op op (world st)) (suspended st))
          end
      end
  | Resume websocket =>
      match suspended st !! websocket with
      | Some (request, uuid_) =>
          Some (mkState
                  (snd (register_resume websocket request uuid_ (world st)))
                  (delete websocket (suspended st)))
      | None => None
      end
  end.

Fixpoint run (es : list Event) (st : State) : option State :=
  match es with
  | [] => Some st
  | e :: es' =>
      match step e st with
      | Some st' => run es' st'
      | None => None
      end
  end.

(** No handler starts an operation while a registration is suspended. *)
Fixpoint uninterrupted (es : list Event) (st : State) : Prop :=
  match es with
  | [] => True
  | e :: es' =>
      match e with
      | Start _ => suspended st = ∅
      | Resume _ => True
      end /\
      match step e st with
      | Some st' => uninterrupted es' st'
      | None => True
      end
  end.

End WithSerializer.

(** A fresh server, nothing suspended. *)
Definition start (source : nat -> UUID) : State := mkState (boot source) ∅.





(** The registry agrees now and did at every await; a registration that is
    suspended is the only one, and neither its transport nor its UUID is
    registered. *)
Definition whole (st : State) : Prop :=
  good (world st) /\
  (suspended st = ∅ \/
   exists ws request u,
     suspended st = {[ ws := (request, u) ]} /\
     _websocket_to_client (self (world st)) !! ws = None /\
     _uuid_to_client (self (world st)) !! u = None).



End Interleaving.

(** ** The handler and a codec that raises what it likes ([server.py]) *)

Module Session.
Import Signaling.

(** [proxystore.serialize] as the handler meets it: [deserialize] returns a
    message or raises. *)
Class Codec := {
  encode : Message -> bytes;
  decode : bytes -> Exn + Message
}.

(** The codec as the rest of the server sees it, which only serializes. *)
Definition wire_of (codec : Codec) : Serializer := {|
  serialize := encode;
  deserialize data :=
    match decode data with
    | inr message => Some message
    | inl _ => None
    end
|}.

Section WithCodec.
Context {codec : Codec}.

(** One pass through the body of [while True] in
    [SignalingServer.handler]: of what [deserialize] raises,
    [SerializationError] is caught and everything else is not. *)
Definition handler_iteration (websocket : WebSocket) (r : Recv) : M Loop :=
  match r with
  | ConnectionClosedOK =>
      _ <- unregister websocket true ;; Eff.ret Break
  | ConnectionClosedError =>
      _ <- unregister websocket false ;; Eff.ret Break
  | Frame data =>
      match decode data with
      | inl SerializationError =>
          _ <- log Error (LogDeserializationError websocket) ;;
          Eff.ret Continue
      | inl e => Eff.raise e
      | inr message =>
          _ <- match message with
               | MRegistrationRequest request =>
                   register (wire := wire_of codec) websocket request
               | MConnection m =>
                   s <- get_self ;;
                   match _websocket_to_client s !! websocket with
                   | Some _ => connect (wire := wire_of codec) websocket m
                   | None =>
                       _ <- log Info
                              (LogUnregisteredClient
                                 (PeerConnectionMessage.source_uuid m)
                                 (PeerConnectionMessage.source_name m)) ;;
                       send (wire := wire_of codec) websocket
                         (MServerError "client has not registered yet")
                   end
               | _ =>
                   _ <- log Error (LogUnknownRequestType websocket message) ;;
                   send (wire := wire_of codec) websocket
                     (MServerError "unknown request type")
               end ;;
          Eff.ret Continue
      end
  end.

(** The [while True] loop over what the transport delivers. *)
Fixpoint handler_loop (websocket : WebSocket) (inbox : list Recv) : M unit :=
  match inbox with
  | [] => Eff.ret tt
  | r :: inbox' =>
      ctl <- handler_iteration websocket r ;;
      match ctl with
      | Break => Eff.ret tt
      | Continue => handler_loop websocket inbox'
      end
  end.

(** [SignalingServer.handler] *)
Definition handler (websocket : WebSocket) (inbox : list Recv) : M unit :=
  _ <- log Info LogListening ;;
  handler_loop websocket inbox.

(** The handler gets past what was received: a frame decodes, or fails to
    with [SerializationError]. *)
Definition survives (r : Recv) : Prop :=
  match r with
  | Frame data => forall e, decode data = inl e -> e = SerializationError
  | _ => True
  end.

Definition is_frame (r : Recv) : Prop := exists data, r = Frame data.

End WithCodec.

End Session.

(** ** More concrete environments *)

Module MoreEnvironments.

(** A version 4 UUID: 00000000-0000-4000-8000-00000000002a. *)
Definition v4 : UUID := (4 * 2 ^ 76 + 8 * 2 ^ 60 + 42)%N.

Definition stopped : Connector.EndpointConfig.t :=
  Connector.EndpointConfig.mk "stopped" 7 "10.0.0.7" 8700.

Definition other : Connector.EndpointConfig.t :=
  Connector.EndpointConfig.mk "other" 9 "10.0.0.9" 8900.

Definition running : Connector.EndpointConfig.t :=
  Connector.EndpointConfig.mk "running" v4 "localhost" 8765.

Definition late : Connector.EndpointConfig.t :=
  Connector.EndpointConfig.mk "late" 7 "10.0.0.8" 8800.

(** A host with four configured endpoints: the first answers 404, the
    second cannot be reached, the third answers with its UUID, and at the
    address of the fourth the third answers too. Strings of 36 characters
    are read as UUIDs. *)
Definition host : Connector.Host :=
  Connector.mkHost "/home/u/.proxystore"
    (fun _ => [stopped; other; running; late])
    (fun url =>
       if decide (url = "http://10.0.0.7:8700/endpoint") then
         inr (Connector.Response.mk 404 (inl TypeError))
       else if decide (url = "http://localhost:8765/endpoint") then
         inr (Connector.Response.mk 200 (inr (Some (PyUUID.str v4))))
       else if decide (url = "http://10.0.0.8:8800/endpoint") then
         inr (Connector.Response.mk 200 (inr (Some (PyUUID.str v4))))
       else inl OSError)
    (fun s => if decide (String.length s = 36) then inr (PyUUID.parse s)
              else inl "badly formed hexadecimal UUID string").

(** The fabric [host] sees: the third endpoint answers at two addresses. *)
Definition host_fabric : Endpoint.World :=
  Endpoint.mkWorld
    (Endpoint.mkNet {[ "http://localhost:8765" := PyUUID.str v4;
                       "http://10.0.0.8:8800" := PyUUID.str v4 ]} ∅)
    Examples.source 0.

(** Timestamps written as decimal digits, objects that serialize to their
    own bytes, and a remote store held as a map. *)
Definition writer
    : RemoteSet.Writer (gmap string (list byte)) N (list byte) := {|
  RemoteSet.set_bytes store key data := <[key := data]> store;
  RemoteSet.ps_serialize o := Some o;
  RemoteSet.encode_time t := list_byte_of_string (pretty t)
|}.

(** Two classes of stores, neither a subclass of the other. *)
Inductive store :=
  | Local
  | Redis (hostname : string) (port : Z).

Definition stores : Backend.Stores store := {|
  Backend.LocalStore := Local;
  Backend.RedisStore := Redis;
  Backend.isinstance_LocalStore s :=
    match s with Local => true | _ => false end;
  Backend.isinstance_RedisStore s :=
    match s with Redis _ _ => true | _ => false end;
  Backend.type_repr s :=
    match s with
    | Local => "<class 'proxystore.backend.store.LocalStore'>"
    | Redis _ _ => "<class 'proxystore.backend.store.RedisStore'>"
    end
|}.


(** The same registrations, each resumed before the next starts. *)
Definition in_turn : list Interleaving.Event :=
  [Interleaving.Start (Signaling.OpRegister 1 Examples.alice_request);
   Interleaving.Start (Signaling.OpRegister 2 MoreExamples.bob7);
   Interleaving.Resume 2;
   Interleaving.Start (Signaling.OpRegister 3 MoreExamples.carol7);
   Interleaving.Resume 3].

(** The example wire format, with one frame on which decoding raises
    something else than [SerializationError]. *)
Definition codec : Session.Codec := {|
  Session.encode := serialize (Serializer := Examples.wire);
  Session.decode data :=
    match data with
    | [x06] => inl (ValueError "invalid load key")
    | _ =>
        match deserialize (Serializer := Examples.wire) data with
        | Some message => inr message
        | None => inl SerializationError
        end
    end
|}.

End MoreEnvironments.

(** * Facts *)

(** ** [str(uuid)] is injective on 128-bit values *)
Section PyUUIDFacts.
Import PyUUID.
Local Open Scope N_scope.

Lemma below_16 d :
  d < 16 ->
  d = 0 \/ d = 1 \/ d = 2 \/ d = 3 \/ d = 4 \/ d = 5 \/ d = 6 \/ d = 7 \/
  d = 8 \/ d = 9 \/ d = 10 \/ d = 11 \/ d = 12 \/ d = 13 \/ d = 14 \/ d = 15.
Proof. lia. Qed.

Lemma hex_value_digit d : d < 16 -> hex_value (hex_digit d) = d.
Proof.
  intros Hd. destruct (below_16 d Hd) as
    [->|[->|[->|[->|[->|[->|[->|[->|[->|[->|[->|[->|[->|[->|[->| ->]]]]]]]]]]]]]]];
    reflexivity.
Qed.

Lemma hex_digit_not_dash d : d < 16 -> hex_digit d <> dash.
Proof.
  intros Hd. destruct (below_16 d Hd) as
    [->|[->|[->|[->|[->|[->|[->|[->|[->|[->|[->|[->|[->|[->|[->| ->]]]]]]]]]]]]]]];
    discriminate.
Qed.

Lemma hex_length n v : length (hex n v) = n.
Proof.
  revert v. induction n as [|n IH]; intros v; [done|].
  cbn [hex]. rewrite length_app, IH. cbn. lia.
Qed.

Lemma hex_no_dash n v : Forall (fun c => c <> dash) (hex n v).
Proof.
  revert v. induction n as [|n IH]; intros v; [constructor|].
  cbn [hex]. apply Forall_app. split; [apply IH|].
  constructor; [|constructor].
  apply hex_digit_not_dash, N.mod_upper_bound. done.
Qed.

Lemma unhex_snoc l c : unhex (l ++ [c]) = 16 * unhex l + hex_value c.
Proof. unfold unhex. by rewrite fold_left_app. Qed.

Lemma unhex_hex n v : unhex (hex n v) = v mod 16 ^ N.of_nat n.
Proof.
  revert v. induction n as [|n IH]; intros v.
  - cbn. by rewrite N.mod_1_r.
  - cbn [hex]. rewrite unhex_snoc, IH, hex_value_digit
      by (by apply N.mod_upper_bound).
    rewrite Nat2N.inj_succ, N.pow_succ_r'.
    rewrite (N.Div0.mod_mul_r v 16 (16 ^ N.of_nat n)). lia.
Qed.

Lemma ungroup_clean h : Forall (fun c => c <> dash) h -> ungroup h = h.
Proof.
  intros Hh. unfold ungroup. induction Hh as [|c h Hc Hh IH]; [done|].
  rewrite filter_cons_True by done. by rewrite IH.
Qed.

Lemma ungroup_app l1 l2 : ungroup (l1 ++ l2) = (ungroup l1 ++ ungroup l2)%list.
Proof. apply filter_app. Qed.

Lemma ungroup_dash l : ungroup (dash :: l) = ungroup l.
Proof. unfold ungroup. by rewrite filter_cons_False by (intros Hn; by apply Hn). Qed.

Lemma ungroup_group h : Forall (fun c => c <> dash) h -> ungroup (group h) = h.
Proof.
  intros Hh. unfold group.
  repeat (progress (rewrite ?ungroup_app, ?ungroup_dash)).
  rewrite !ungroup_clean
    by (repeat first [apply Forall_take | apply Forall_drop]; done).
  replace (drop 12 h) with (drop 4 (drop 8 h)) by (by rewrite drop_drop).
  replace (drop 16 h) with (drop 4 (drop 4 (drop 8 h))) by (by rewrite !drop_drop).
  replace (drop 20 h) with (drop 4 (drop 4 (drop 4 (drop 8 h))))
    by (by rewrite !drop_drop).
  by rewrite !take_drop.
Qed.

Lemma parse_str u : u < 2 ^ 128 -> parse (str u) = u.
Proof.
  intros Hu. unfold parse, str.
  rewrite list_ascii_of_string_of_list_ascii, ungroup_group by apply hex_no_dash.
  rewrite unhex_hex. apply N.mod_small.
  replace (16 ^ N.of_nat 32) with (2 ^ 128) by reflexivity. done.
Qed.

Lemma str_inj u v : u < 2 ^ 128 -> v < 2 ^ 128 -> str u = str v -> u = v.
Proof.
  intros Hu Hv Heq. rewrite <- (parse_str u Hu), <- (parse_str v Hv).
  by rewrite Heq.
Qed.

End PyUUIDFacts.

(** ** The signaling server *)
Section SignalingFacts.
Import Signaling.
Context {wire : Serializer}.

Lemma world_eta w :
  mkWorld (self w) (trace w) (uuid_source w) (uuid_count w) = w.
Proof. by destruct w. Qed.

Lemma server_eta s :
  mkServer (_websocket_to_client s) (_uuid_to_client s) = s.
Proof. by destruct s. Qed.

Lemma unregister_absent ws expected w :
  _websocket_to_client (self w) !! ws = None ->
  unregister ws expected w = (Ret tt, w).
Proof.
  intros Hn. run. rewrite Hn, delete_id by done.
  by rewrite server_eta, world_eta.
Qed.

Lemma unregister_present ws expected w c :
  _websocket_to_client (self w) !! ws = Some c ->
  unregister ws expected w =
    (Ret tt,
     let s := mkServer (delete ws (_websocket_to_client (self w)))
                       (delete (Client.uuid c) (_uuid_to_client (self w))) in
     mkWorld s
       (trace w ++
          [Logged Info (LogUnregistering c (if expected then "ok" else "unexpected"));
           Await (WsClose (Client.websocket c)
                          (if expected then 1000 else 1001)%Z) s])
       (uuid_source w) (uuid_count w)).
Proof.
  intros Hn. run. rewrite Hn. cbn. by rewrite <- app_assoc.
Qed.

Lemma consistent_init : consistent init.
Proof. split; intros ? ?; cbn; by rewrite lookup_empty. Qed.

Lemma consistent_delete s ws c :
  consistent s ->
  _websocket_to_client s !! ws = Some c ->
  consistent (mkServer (delete ws (_websocket_to_client s))
                       (delete (Client.uuid c) (_uuid_to_client s))).
Proof.
  intros [Hw Hu] Hc. destruct (Hw _ _ Hc) as [Hws Huc].
  split; cbn.
  - intros ws' c' Hl. apply lookup_delete_Some in Hl as [Hne Hl].
    destruct (Hw _ _ Hl) as [Hws' Hu'c]. split; [done|].
    rewrite lookup_delete_ne; [done|].
    intros Heq. rewrite Heq in Huc. congruence.
  - intros u' c' Hl. apply lookup_delete_Some in Hl as [Hne Hl].
    destruct (Hu _ _ Hl) as [Hu' Hw'c]. split; [done|].
    rewrite lookup_delete_ne; [done|].
    intros Heq. rewrite <- Heq in Hw'c. congruence.
Qed.

Lemma consistent_insert s ws n u :
  consistent s ->
  _websocket_to_client s !! ws = None ->
  _uuid_to_client s !! u = None ->
  consistent (mkServer (<[ws := Client.mk n u ws]> (_websocket_to_client s))
                       (<[u := Client.mk n u ws]> (_uuid_to_client s))).
Proof.
  intros [Hw Hu] Hnw Hnu. split; cbn.
  - intros ws' c' Hl. apply lookup_insert_Some in Hl as [[<- <-]|[Hne Hl]].
    + cbn. by rewrite lookup_insert_eq.
    + destruct (Hw _ _ Hl) as [Hws' Hu'c]. split; [done|].
      rewrite lookup_insert_ne; [done|]. congruence.
  - intros u' c' Hl. apply lookup_insert_Some in Hl as [[<- <-]|[Hne Hl]].
    + cbn. by rewrite lookup_insert_eq.
    + destruct (Hu _ _ Hl) as [Hu' Hw'c]. split; [done|].
      rewrite lookup_insert_ne; [done|]. congruence.
Qed.


Lemma register_bound ws request w c :
  _websocket_to_client (self w) !! ws = Some c ->
  register ws request w =
    (Ret tt,
     mkWorld (self w)
       (trace w ++
          [Logged Info (LogReregisterReturnPrevious (Client.uuid c));
           Await (WsSend ws (registration_response (Client.uuid c))) (self w)])
       (uuid_source w) (draws request + uuid_count w)).
Proof.
  intros Hc. unfold draws, registration_response.
  destruct request as [[u|] n]; run; rewrite Hc; cbn;
    by rewrite <- app_assoc.
Qed.

Lemma register_fresh ws request w :
  _websocket_to_client (self w) !! ws = None ->
  _uuid_to_client (self w) !! chosen_uuid request w = None ->
  register ws request w =
    (Ret tt,
     let c := Client.mk (PeerRegistrationRequest.name request)
                        (chosen_uuid request w) ws in
     let s := mkServer (<[ws := c]> (_websocket_to_client (self w)))
                       (<[chosen_uuid request w := c]> (_uuid_to_client (self w))) in
     mkWorld s
       (trace w ++
          [Logged Info (LogRegistered c);
           Await (WsSend ws (registration_response (chosen_uuid request w))) s])
       (uuid_source w) (draws request + uuid_count w)).
Proof.
  unfold draws, registration_response, chosen_uuid.
  destruct request as [[u|] n]; cbn; intros Hw Hu; run; rewrite Hw, Hu; cbn;
    by rewrite <- app_assoc.
Qed.

Lemma register_rebind ws request w old :
  _websocket_to_client (self w) !! ws = None ->
  _uuid_to_client (self w) !! chosen_uuid request w = Some old ->
  _websocket_to_client (self w) !! Client.websocket old = Some old ->
  Client.uuid old = chosen_uuid request w ->
  register ws request w =
    (Ret tt,
     let u := chosen_uuid request w in
     let c := Client.mk (PeerRegistrationRequest.name request) u ws in
     let mid := mkServer (delete (Client.websocket old) (_websocket_to_client (self w)))
                         (delete u (_uuid_to_client (self w))) in
     let s := mkServer (<[ws := c]> (_websocket_to_client mid))
                       (<[u := c]> (_uuid_to_client mid)) in
     mkWorld s
       (trace w ++
          [Logged Info (LogReregisterRemoveOld u);
           Logged Info (LogUnregistering old "unexpected");
           Await (WsClose (Client.websocket old) 1001%Z) mid;
           Logged Info (LogRegistered c);
           Await (WsSend ws (registration_response u)) s])
       (uuid_source w) (draws request + uuid_count w)).
Proof.
  unfold draws, registration_response, chosen_uuid.
  destruct request as [[u|] n]; cbn; intros Hw Hu Ho Huo; run;
    rewrite Hw, Hu; cbn; rewrite Ho; cbn; rewrite Huo; cbn;
    by rewrite <- !app_assoc.
Qed.


Lemma connect_unregistered ws message w :
  _websocket_to_client (self w) !! ws = None ->
  connect ws message w = (Raise KeyError, w).
Proof. intros Hn. run. by rewrite Hn. Qed.

Lemma connect_forward ws message w client target :
  _websocket_to_client (self w) !! ws = Some client ->
  _uuid_to_client (self w) !! PeerConnectionMessage.peer_uuid message
    = Some target ->
  connect ws message w =
    (Ret tt,
     mkWorld (self w)
       (trace w ++
          [Logged Info
             (LogTransmitting client (PeerConnectionMessage.peer_uuid message));
           Await (WsSend (Client.websocket target)
                         (serialize (MConnection message))) (self w)])
       (uuid_source w) (uuid_count w)).
Proof.
  intros Hc Ht. run. rewrite Hc. cbn. rewrite Ht. cbn.
  by rewrite <- app_assoc.
Qed.

Lemma connect_unknown ws message w client :
  _websocket_to_client (self w) !! ws = Some client ->
  _uuid_to_client (self w) !! PeerConnectionMessage.peer_uuid message = None ->
  connect ws message w =
    (Ret tt,
     let peer := PeerConnectionMessage.peer_uuid message in
     mkWorld (self w)
       (trace w ++
          [Logged Warning (LogUnknownPeer client peer);
           Await (WsSend ws
                    (serialize
                       (MConnection
                          (PeerConnectionMessage.mk
                             (Client.uuid client) (Client.name client) peer None
                             (Some (PeerUnknownError
                                      ("peer " ++ PyUUID.str peer
                                         ++ " is unknown")))))))
                 (self w)])
       (uuid_source w) (uuid_count w)).
Proof.
  intros Hc Ht. run. rewrite Hc. cbn. rewrite Ht. cbn.
  by rewrite <- app_assoc.
Qed.

Lemma added_app {A} (m : M A) w (items : list Item) :
  trace (snd (m w)) = (trace w ++ items)%list -> added m w = items.
Proof. intros Ht. unfold added. rewrite Ht. apply drop_app_length. Qed.

Lemma good_boot source : good (boot source).
Proof.
  split; [apply consistent_init|]. intros io s Hin. cbn in Hin.
  by apply elem_of_nil in Hin.
Qed.

Lemma good_extend w w' (items : list Item) :
  good w ->
  trace w' = (trace w ++ items)%list ->
  consistent (self w') ->
  (forall io s, Await io s ∈ items -> consistent s) ->
  good w'.
Proof.
  intros [Hs Ht] Htr Hs' Hitems. split; [done|].
  intros io s Hin. rewrite Htr in Hin.
  apply elem_of_app in Hin as [Hin|Hin]; eauto.
Qed.

Lemma good_unregister ws expected w :
  good w -> good (snd (unregister ws expected w)).
Proof.
  intros Hg. destruct (_websocket_to_client (self w) !! ws) as [c|] eqn:Hc.
  - rewrite (unregister_present _ _ _ _ Hc). cbn.
    assert (Hd := consistent_delete _ _ _ (proj1 Hg) Hc).
    eapply good_extend; [exact Hg|cbn; reflexivity|exact Hd|]. items_ok.
  - by rewrite (unregister_absent _ _ _ Hc).
Qed.

Lemma good_register ws request w :
  good w -> good (snd (register ws request w)).
Proof.
  intros Hg. destruct (_websocket_to_client (self w) !! ws) as [c|] eqn:Hc.
  - rewrite (register_bound _ _ _ _ Hc). cbn.
    eapply good_extend; [exact Hg|cbn; reflexivity|exact (proj1 Hg)|].
      destruct Hg. items_ok.
  - destruct (_uuid_to_client (self w) !! chosen_uuid request w) as [old|] eqn:Hu.
    + destruct (proj2 (proj1 Hg) _ _ Hu) as [Huo Hwo].
      rewrite (register_rebind _ _ _ _ Hc Hu Hwo Huo). cbn.
      assert (Hmid := consistent_delete _ _ _ (proj1 Hg) Hwo).
      rewrite Huo in Hmid.
      assert (Hnew := consistent_insert _ ws (PeerRegistrationRequest.name request)
                        (chosen_uuid request w) Hmid).
      cbn in Hnew.
      assert (Hs : consistent
          (mkServer
             (<[ws:=Client.mk (PeerRegistrationRequest.name request)
                      (chosen_uuid request w) ws]>
                (delete (Client.websocket old) (_websocket_to_client (self w))))
             (<[chosen_uuid request w:=Client.mk (PeerRegistrationRequest.name request)
                      (chosen_uuid request w) ws]>
                (delete (chosen_uuid request w) (_uuid_to_client (self w)))))).
      { apply Hnew.
        - apply lookup_delete_None. by right.
        - apply lookup_delete_eq. }
      eapply good_extend; [exact Hg|cbn; reflexivity|exact Hs|]. items_ok.
    + rewrite (register_fresh _ _ _ Hc Hu). cbn.
      assert (Hs := consistent_insert _ ws (PeerRegistrationRequest.name request)
                      (chosen_uuid request w) (proj1 Hg) Hc Hu).
      eapply good_extend; [exact Hg|cbn; reflexivity|exact Hs|]. items_ok.
Qed.

Lemma good_connect ws message w :
  good w -> good (snd (connect ws message w)).
Proof.
  intros Hg. destruct (_websocket_to_client (self w) !! ws) as [c|] eqn:Hc.
  - destruct (_uuid_to_client (self w) !! PeerConnectionMessage.peer_uuid message)
      as [t|] eqn:Ht.
    + rewrite (connect_forward _ _ _ _ _ Hc Ht). cbn.
      eapply good_extend; [exact Hg|cbn; reflexivity|exact (proj1 Hg)|].
      destruct Hg. items_ok.
    + rewrite (connect_unknown _ _ _ _ Hc Ht). cbn.
      eapply good_extend; [exact Hg|cbn; reflexivity|exact (proj1 Hg)|].
      destruct Hg. items_ok.
  - by rewrite (connect_unregistered _ _ _ Hc).
Qed.


Lemma snd_bind_ret {A C} (m : M A) (b : C) w :
  snd ((_ <- m ;; Eff.ret b) w) = snd (m w).
Proof. unfold Eff.bind, Eff.ret. by destruct (m w) as [[a|e] w']. Qed.

Lemma good_log level record w :
  good w -> good (snd (log level record w)).
Proof.
  intros Hg. eapply good_extend; [exact Hg|cbn; reflexivity|exact (proj1 Hg)|].
  items_ok.
Qed.

Lemma good_send ws message w :
  good w -> good (snd (send ws message w)).
Proof.
  intros Hg. eapply good_extend; [exact Hg|cbn; reflexivity|exact (proj1 Hg)|].
  destruct Hg. items_ok.
Qed.

Lemma good_handler_iteration ws r w :
  good w -> good (snd (handler_iteration ws r w)).
Proof.
  intros Hg. destruct r as [data| |]; unfold handler_iteration.
  - destruct (deserialize data) as [message|].
    + rewrite snd_bind_ret. destruct message as [request|m|m|m|m].
      * by apply good_register.
      * by apply (good_send ws _ (snd (log _ _ w))), good_log.
      * unfold Eff.bind at 1, get_self.
        destruct (_websocket_to_client (self w) !! ws); [by apply good_connect|].
        by apply (good_send ws _ (snd (log _ _ w))), good_log.
      * by apply (good_send ws _ (snd (log _ _ w))), good_log.
      * by apply (good_send ws _ (snd (log _ _ w))), good_log.
    + rewrite snd_bind_ret. by apply good_log.
  - rewrite snd_bind_ret. by apply good_unregister.
  - rewrite snd_bind_ret. by apply good_unregister.
Qed.

Lemma good_run_op op w : good w -> good (run_op op w).
Proof.
  destruct op; cbn [run_op];
    auto using good_register, good_unregister, good_connect,
               good_handler_iteration.
Qed.

Lemma good_run_ops ops w : good w -> good (run_ops ops w).
Proof.
  revert w. induction ops as [|op ops IH]; intros w Hg; [done|].
  cbn. apply IH, good_run_op, Hg.
Qed.


Lemma output_of_world {A} (m : M A) w (items : list Item) :
  trace (snd (m w)) = (trace w ++ items)%list -> output m w = ios items.
Proof. intros Ht. unfold output. by rewrite (added_app _ _ _ Ht). Qed.


(** C3 (amended). A frame on a transport that has not registered, other
    than a registration request: the loop goes on and neither index changes.
    A [PeerConnectionMessage] is answered with [ServerError("client has not
    registered yet")], any other decoded object with [ServerError("unknown
    request type")], and a frame that does not decode with nothing. *)
Theorem C3_frame_before_registration ws data w :
  _websocket_to_client (self w) !! ws = None ->
  (forall m, deserialize data = Some m -> is_registration_request m = false) ->
  fst (handler_iteration ws (Frame data) w) = Ret Continue /\
  self (snd (handler_iteration ws (Frame data) w)) = self w /\
  output (handler_iteration ws (Frame data)) w =
    match deserialize data with
    | Some (MConnection _) =>
        [WsSend ws (serialize (MServerError "client has not registered yet"))]
    | Some _ =>
        [WsSend ws (serialize (MServerError "unknown request type"))]
    | None => []
    end.
Proof.
  intros Hc Hm. unfold output, added, handler_iteration.
  destruct (deserialize data) as [m|] eqn:Hd.
  - specialize (Hm m eq_refl).
    destruct m; try discriminate Hm; run; rewrite ?Hc; cbn;
      rewrite <- ?app_assoc, drop_app_length; done.
  - run. by rewrite drop_app_length.
Qed.


(** C9. A registration request on a transport that is already registered
    is answered with the UUID the transport is registered with, whatever the
    request carries, and leaves both indices as they are. *)
Theorem C9_registered_transport_keeps_uuid ws request w c :
  _websocket_to_client (self w) !! ws = Some c ->
  fst (register ws request w) = Ret tt /\
  self (snd (register ws request w)) = self w /\
  output (register ws request) w
    = [WsSend ws (registration_response (Client.uuid c))].
Proof.
  intros Hc. pose proof (register_bound _ request _ _ Hc) as Hrun.
  rewrite (output_of_world _ _ _ (f_equal (fun r => trace (snd r)) Hrun)).
  by rewrite Hrun.
Qed.

End SignalingFacts.

Section SignalingExamples.
Import Signaling.

(** The example server is a run from a fresh one. *)
Lemma alice_registered_good : good Examples.alice_registered.
Proof.
  exact (good_run_ops (wire := Examples.wire) _ _ (good_boot Examples.source)).
Qed.



(** C3, counterexample: on a fresh server, transport 1 sends a frame that
    decodes to a [PeerRegistrationResponse]. The reply is
    [ServerError("unknown request type")]. *)
Lemma C3_counterexample :
  let w := boot Examples.source in
  _websocket_to_client (self w) !! 1 = None /\
  deserialize (Serializer := Examples.wire) [x02]
    = Some (MRegistrationResponse (PeerRegistrationResponse.mk 7%N None)) /\
  output (handler_iteration (wire := Examples.wire) 1 (Frame [x02])) w
    = [WsSend 1 (serialize (Serializer := Examples.wire)
                   (MServerError "unknown request type"))] /\
  ~ premature_as_stated (wire := Examples.wire) 1 [x02] w.
Proof.
  cbv zeta. split; [reflexivity|]. split; [reflexivity|].
  split; [reflexivity|].
  intros [Hout _]. vm_compute in Hout. discriminate Hout.
Qed.

(** C3, witness: on a fresh server, transport 1 sends a
    [PeerConnectionMessage]. *)
Lemma C3_witness :
  let w := boot Examples.source in
  _websocket_to_client (self w) !! 1 = None /\
  (forall m, deserialize (Serializer := Examples.wire) [x03] = Some m ->
             is_registration_request m = false) /\
  fst (handler_iteration (wire := Examples.wire) 1 (Frame [x03]) w) = Ret Continue /\
  self (snd (handler_iteration (wire := Examples.wire) 1 (Frame [x03]) w)) = self w /\
  output (handler_iteration (wire := Examples.wire) 1 (Frame [x03])) w =
    match deserialize (Serializer := Examples.wire) [x03] with
    | Some (MConnection _) =>
        [WsSend 1 (serialize (Serializer := Examples.wire)
                     (MServerError "client has not registered yet"))]
    | Some _ =>
        [WsSend 1 (serialize (Serializer := Examples.wire)
                     (MServerError "unknown request type"))]
    | None => []
    end.
Proof.
  intros w.
  assert (Hl : _websocket_to_client (self w) !! 1 = None) by reflexivity.
  assert (Hm : forall m, deserialize (Serializer := Examples.wire) [x03] = Some m ->
                         is_registration_request m = false).
  { intros m Hd. cbn in Hd. injection Hd as <-. reflexivity. }
  split; [exact Hl|]. split; [exact Hm|].
  exact (C3_frame_before_registration (wire := Examples.wire) 1 [x03] w Hl Hm).
Defined.

(** C9, witness: transport 1, registered as 7, asks to register as 8. *)
Lemma C9_witness :
  let w := Examples.alice_registered in
  let request := PeerRegistrationRequest.mk (Some 8%N) "mallory" in
  let c := Client.mk "alice" 7 1 in
  _websocket_to_client (self w) !! 1 = Some c /\
  fst (register (wire := Examples.wire) 1 request w) = Ret tt /\
  self (snd (register (wire := Examples.wire) 1 request w)) = self w /\
  output (register (wire := Examples.wire) 1 request) w
    = [WsSend 1 (registration_response (wire := Examples.wire) (Client.uuid c))].
Proof.
  intros w request c.
  assert (Hl : _websocket_to_client (self w) !! 1 = Some c) by reflexivity.
  split; [exact Hl|].
  exact (C9_registered_transport_keeps_uuid (wire := Examples.wire) 1 request w c Hl).
Defined.


End SignalingExamples.

Section SignalingInterleaving.
Import Signaling.

(** In the reconnect case [register] is its first half, up to the await
    inside [unregister], followed by [register_resume]. *)
Lemma register_suspends {wire : Serializer} ws request u old w :
  _websocket_to_client (self w) !! ws = None ->
  PeerRegistrationRequest.uuid request = Some u ->
  _uuid_to_client (self w) !! u = Some old ->
  register ws request w =
    (_ <- (_ <- log Info (LogReregisterRemoveOld u) ;;
           unregister (Client.websocket old) false) ;;
     register_resume ws request u) w.
Proof.
  intros Hw Hr Hu. destruct request as [ru rn]. cbn in Hr. subst ru.
  unfold register_resume. run. rewrite Hw, Hu. cbn.
  by destruct (_websocket_to_client (self w) !! Client.websocket old).
Qed.

(** Beyond runs of whole operations: when a third transport registers the
    same UUID while a reconnecting [register] is suspended in [unregister],
    the resumed [register] overwrites the UUID's entry and the indices
    disagree. *)
Lemma register_interleaved_breaks_consistency :
  let bob := PeerRegistrationRequest.mk (Some 7%N) "bob" in
  let carol := PeerRegistrationRequest.mk (Some 7%N) "carol" in
  let w0 := Examples.alice_registered in
  let w1 := snd ((_ <- log Info (LogReregisterRemoveOld 7%N) ;;
                  unregister 1 false) w0) in
  let w2 := snd (register (wire := Examples.wire) 3 carol w1) in
  let w3 := snd (register_resume (wire := Examples.wire) 2 bob 7%N w2) in
  _websocket_to_client (self w3) !! 3 = Some (Client.mk "carol" 7 3) /\
  _uuid_to_client (self w3) !! 7%N = Some (Client.mk "bob" 7 2) /\
  ~ consistent (self w3).
Proof.
  intros bob carol w0 w1 w2 w3.
  assert (H3 : _websocket_to_client (self w3) !! 3 = Some (Client.mk "carol" 7 3))
    by reflexivity.
  assert (H7 : _uuid_to_client (self w3) !! 7%N = Some (Client.mk "bob" 7 2))
    by reflexivity.
  split; [exact H3|]. split; [exact H7|].
  intros [Hw _]. destruct (Hw _ _ H3) as [_ Hu].
  change (Client.uuid (Client.mk "carol" 7 3)) with 7%N in Hu.
  rewrite H7 in Hu. discriminate Hu.
Qed.

End SignalingInterleaving.

Section InterleavingFacts.
Import Signaling Interleaving.
Context {wire : Serializer}.

(** The two halves of [register] make up [register]. *)
Lemma register_split ws request w old :
  displaced ws request w = Some old ->
  register ws request w
    = (uuid_ <- register_until_close ws request ;;
       register_resume ws request uuid_) w.
Proof.
  unfold displaced, chosen_uuid, register_until_close, register_resume.
  destruct request as [[u|] n]; cbn;
    destruct (_websocket_to_client (self w) !! ws) eqn:Hw; try discriminate;
    match goal with
    | |- context [_uuid_to_client (self w) !! ?k] =>
        destruct (_uuid_to_client (self w) !! k) as [o|] eqn:Hu;
        try discriminate
    end;
    destruct (_websocket_to_client (self w) !! Client.websocket o) eqn:Ho;
    try discriminate; intros _; run; rewrite ?Hw, ?Hu; cbn; by rewrite ?Ho.
Qed.

Lemma register_until_close_run ws request w old old' :
  _uuid_to_client (self w) !! chosen_uuid request w = Some old ->
  _websocket_to_client (self w) !! Client.websocket old = Some old' ->
  register_until_close ws request w =
    (Ret (chosen_uuid request w),
     let mid := mkServer
                  (delete (Client.websocket old) (_websocket_to_client (self w)))
                  (delete (Client.uuid old') (_uuid_to_client (self w))) in
     mkWorld mid
       (trace w ++
          [Logged Info (LogReregisterRemoveOld (chosen_uuid request w));
           Logged Info (LogUnregistering old' "unexpected");
           Await (WsClose (Client.websocket old') 1001%Z) mid])
       (uuid_source w) (draws request + uuid_count w)).
Proof.
  unfold draws, chosen_uuid, register_until_close.
  destruct request as [[u|] n]; cbn; intros Hu Ho; run;
    rewrite Hu; cbn; rewrite Ho; cbn; by rewrite <- !app_assoc.
Qed.

Lemma register_resume_run ws request u w :
  register_resume ws request u w =
    (Ret tt,
     let c := Client.mk (PeerRegistrationRequest.name request) u ws in
     let s := mkServer (<[ws := c]> (_websocket_to_client (self w)))
                       (<[u := c]> (_uuid_to_client (self w))) in
     mkWorld s
       (trace w ++
          [Logged Info (LogRegistered c);
           Await (WsSend ws (registration_response u)) s])
       (uuid_source w) (uuid_count w)).
Proof.
  unfold register_resume, registration_response. run. by rewrite <- app_assoc.
Qed.

Lemma displaced_Some ws request w old :
  displaced ws request w = Some old ->
  _websocket_to_client (self w) !! ws = None /\
  _uuid_to_client (self w) !! chosen_uuid request w = Some old /\
  exists old',
    _websocket_to_client (self w) !! Client.websocket old = Some old'.
Proof.
  unfold displaced.
  destruct (_websocket_to_client (self w) !! ws); [discriminate|].
  destruct (_uuid_to_client (self w) !! chosen_uuid request w) as [o|];
    [|discriminate].
  destruct (_websocket_to_client (self w) !! Client.websocket o) as [o'|] eqn:Ho;
    [|discriminate].
  intros [= <-]. eauto.
Qed.

(** ** What every interleaving keeps *)













Lemma registration_of_handler op ws request :
  registration_of op = Some (ws, request) -> handler_of op = ws.
Proof.
  destruct op as [ws' r|ws' e|ws' m|ws' [data| |]]; cbn; try discriminate.
  - by intros [= <- _].
  - destruct (deserialize data) as [[r|m|m|m|m]|]; try discriminate.
    by intros [= <- _].
Qed.




(** ** What runs without interruption keep *)

Lemma whole_step e st st' :
  step e st = Some st' ->
  match e with Start _ => suspended st = ∅ | Resume _ => True end ->
  whole st -> whole st'.
Proof.
  destruct e as [op|ws]; cbn [step].
  - intros Hstep Hnone [Hg _]. rewrite Hnone, lookup_empty in Hstep.
    destruct (registration_of op) as [[ws request]|] eqn:Hreg.
    + destruct (displaced ws request (world st)) as [old|] eqn:Hd.
      * destruct (displaced_Some _ _ _ _ Hd) as (Hw & Hu & old' & Ho).
        rewrite (register_until_close_run _ _ _ _ _ Hu Ho) in Hstep.
        cbn zeta in Hstep. injection Hstep as <-. cbn [world suspended].
        destruct (proj2 (proj1 Hg) _ _ Hu) as [Huo Hwo].
        assert (Hold : old' = old) by congruence. subst old'.
        assert (Hmid := consistent_delete _ _ _ (proj1 Hg) Ho).
        split.
        -- eapply good_extend; [exact Hg|cbn; reflexivity|exact Hmid|].
           items_ok.
        -- right. exists ws, request, (chosen_uuid request (world st)).
           split; [by rewrite insert_empty|]. cbn [self].
           split; cbn.
           ++ apply lookup_delete_None. by right.
           ++ rewrite Huo. apply lookup_delete_eq.
      * injection Hstep as <-. cbn [world suspended].
        split; [by apply good_run_op|by left].
    + injection Hstep as <-. cbn [world suspended].
      split; [by apply good_run_op|by left].
  - destruct (suspended st !! ws) as [[request u]|] eqn:Hs; [|discriminate].
    rewrite register_resume_run. cbn zeta. cbn [snd].
    intros [= <-] _ [Hg [Hnone|(ws' & request' & u' & Hsing & Hw & Hu)]].
    + rewrite Hnone, lookup_empty in Hs. discriminate Hs.
    + rewrite Hsing in Hs.
      apply lookup_singleton_Some in Hs as [<- [= <- <-]].
      cbn [world suspended].
      assert (Hnew := consistent_insert _ ws'
                        (PeerRegistrationRequest.name request') u'
                        (proj1 Hg) Hw Hu).
      split.
      * eapply good_extend; [exact Hg|cbn; reflexivity|exact Hnew|]. items_ok.
      * left. rewrite Hsing. apply delete_singleton_eq.
Qed.

Lemma whole_run es st st' :
  run es st = Some st' -> uninterrupted es st -> whole st -> whole st'.
Proof.
  revert st. induction es as [|e es IH]; intros st; cbn [run uninterrupted].
  - by intros [= <-].
  - destruct (step e st) as [st1|] eqn:Hstep; [|discriminate].
    intros Hrun [He Hrest] Hw. apply (IH _ Hrun Hrest).
    by apply (whole_step e st).
Qed.

Lemma whole_start source : whole (start source).
Proof. split; [apply good_boot|by left]. Qed.


(** X8. As long as no handler starts an operation while a registration is
    suspended in its await of [unregister], no two transports are
    registered under one UUID. *)
Theorem registered_uuids_are_unique source es st ws1 ws2 c1 c2 :
  run es (start source) = Some st ->
  uninterrupted es (start source) ->
  _websocket_to_client (self (world st)) !! ws1 = Some c1 ->
  _websocket_to_client (self (world st)) !! ws2 = Some c2 ->
  Client.uuid c1 = Client.uuid c2 ->
  ws1 = ws2.
Proof.
  intros Hrun Hun H1 H2 Hu.
  destruct (whole_run _ _ _ Hrun Hun (whole_start source)) as [[[Hw _] _] _].
  destruct (Hw _ _ H1) as [<- Hu1]. destruct (Hw _ _ H2) as [<- Hu2].
  rewrite Hu in Hu1. congruence.
Qed.

End InterleavingFacts.

Section InterleavingExamples.
Import Signaling Interleaving.



(** X8, witness: the three registrations, one after the other; transport 3
    is then the one registered under UUID 7. *)
Lemma registered_uuids_are_unique_witness :
  let st := default (start Examples.source)
              (run (wire := Examples.wire) MoreEnvironments.in_turn
                   (start Examples.source)) in
  let c := Client.mk "carol" 7 3 in
  run (wire := Examples.wire) MoreEnvironments.in_turn (start Examples.source)
    = Some st /\
  uninterrupted (wire := Examples.wire) MoreEnvironments.in_turn
    (start Examples.source) /\
  _websocket_to_client (self (world st)) !! 3 = Some c /\
  _websocket_to_client (self (world st)) !! 3 = Some c /\
  Client.uuid c = Client.uuid c /\
  3 = 3.
Proof.
  intros st c.
  assert (Hrun : run (wire := Examples.wire) MoreEnvironments.in_turn
                   (start Examples.source) = Some st) by (vm_compute; reflexivity).
  assert (Hun : uninterrupted (wire := Examples.wire) MoreEnvironments.in_turn
                  (start Examples.source)).
  { vm_compute. repeat split. }
  assert (H1 : _websocket_to_client (self (world st)) !! 3 = Some c)
    by reflexivity.
  split; [exact Hrun|]. split; [exact Hun|]. split; [exact H1|].
  split; [exact H1|]. split; [reflexivity|].
  exact (registered_uuids_are_unique (wire := Examples.wire)
           Examples.source MoreEnvironments.in_turn st 3 3 c c
           Hrun Hun H1 H1 eq_refl).
Defined.

End InterleavingExamples.

(** ** The signaling client *)
Section SignalingClientFacts.
Import SignalingClient.
Context {wire : Serializer}.

(** C6 (amended). When the connection opens, the request is sent and
    whatever frame arrives decodes, [connect] either returns the UUID of the
    [PeerRegistrationResponse] it received, with the name it registered
    under and the transport, or raises [PeerRegistrationError]; and it raises
    exactly when the transport closed during the wait, the wait timed out,
    or the response is not a [PeerRegistrationResponse] or carries an
    error. *)
Theorem C6_connect_returns_or_refuses env address uuid name timeout websocket :
  ws_connect env ("ws://" ++ address) (open_timeout env timeout)
    = inr websocket ->
  ws_send env websocket
    (serialize (MRegistrationRequest
                  (PeerRegistrationRequest.mk uuid (name_used env name)))) = None ->
  (forall data, ws_recv env websocket timeout = Received data ->
                is_Some (deserialize data)) ->
  let result := connect env address uuid name timeout in
  ((exists data m,
      ws_recv env websocket timeout = Received data /\
      deserialize data = Some (MRegistrationResponse m) /\
      PeerRegistrationResponse.error m = None /\
      result = Ret (PeerRegistrationResponse.uuid m, name_used env name, websocket))
   \/ raises_registration_error result) /\
  (raises_registration_error result <-> refused (ws_recv env websocket timeout)).
Proof.
  intros Hopen Hsend Hdec result. subst result.
  unfold connect, open_timeout, name_used in *.
  assert (Hname : match name with Some n => n | None => gethostname env end
                  = default (gethostname env) name) by (by destruct name).
  rewrite Hname, Hopen, Hsend.
  unfold refused, raises_registration_error.
  destruct (ws_recv env websocket timeout) as [data| |] eqn:Hrecv.
  - destruct (Hdec data eq_refl) as [m Hm]. rewrite Hm.
    destruct m as [r|r|r|r|r]; try solve [split; [right; eauto|split; eauto]].
    destruct (PeerRegistrationResponse.error r) as [e|] eqn:He.
    + split; [right; eauto|]. split; eauto.
    + split; [left; eauto 10|]. split.
      * intros [why Hw]. discriminate Hw.
      * intros [e He']. discriminate He'.
  - split; [right; eauto|]. split; eauto.
  - split; [right; eauto|]. split; eauto.
Qed.

End SignalingClientFacts.

Section SignalingClientExamples.
Import SignalingClient.

(** C6, counterexample: the server answers with a frame that does not
    decode. [connect] raises [SerializationError]: it neither returns nor
    raises [PeerRegistrationError]. *)
Lemma C6_counterexample :
  connect (wire := Examples.wire) (Examples.answering [xff]) "relay:8765"
          None None 10 = Raise SerializationError /\
  ~ connect_as_stated (wire := Examples.wire) (Examples.answering [xff])
      "relay:8765" None None 10.
Proof.
  split; [reflexivity|]. intros [[(u & ws & Hret)|[why Hraise]] _].
  - discriminate Hret.
  - discriminate Hraise.
Qed.

(** C6, witness: the server answers with a [PeerRegistrationResponse]. *)
Lemma C6_witness :
  let env := Examples.answering [x02] in
  ws_connect env ("ws://" ++ "relay:8765") (open_timeout env 10) = inr 5 /\
  ws_send env 5
    (serialize (Serializer := Examples.wire)
       (MRegistrationRequest
          (PeerRegistrationRequest.mk None (name_used env None)))) = None /\
  (forall data, ws_recv env 5 10 = Received data ->
                is_Some (deserialize (Serializer := Examples.wire) data)) /\
  let result := connect (wire := Examples.wire) env "relay:8765" None None 10 in
  ((exists data m,
      ws_recv env 5 10 = Received data /\
      deserialize (Serializer := Examples.wire) data = Some (MRegistrationResponse m) /\
      PeerRegistrationResponse.error m = None /\
      result = Ret (PeerRegistrationResponse.uuid m, name_used env None, 5))
   \/ raises_registration_error result) /\
  (raises_registration_error result
     <-> refused (wire := Examples.wire) (ws_recv env 5 10)).
Proof.
  intros env.
  assert (Ho : ws_connect env ("ws://" ++ "relay:8765") (open_timeout env 10) = inr 5)
    by reflexivity.
  assert (Hs : ws_send env 5
    (serialize (Serializer := Examples.wire)
       (MRegistrationRequest
          (PeerRegistrationRequest.mk None (name_used env None)))) = None)
    by reflexivity.
  assert (Hd : forall data, ws_recv env 5 10 = Received data ->
                is_Some (deserialize (Serializer := Examples.wire) data)).
  { intros data Hr. injection Hr as <-. by eexists. }
  split; [exact Ho|]. split; [exact Hs|]. split; [exact Hd|].
  exact (C6_connect_returns_or_refuses (wire := Examples.wire)
           env "relay:8765" None None 10 5 Ho Hs Hd).
Defined.

End SignalingClientExamples.

(** ** The endpoint connector *)
Section EndpointFacts.
Import Endpoint.

Lemma client_put_run a oid obj eo w :
  client_put a oid obj eo w =
    match resolve (net w) a eo with
    | inl e => (Raise e, w)
    | inr id =>
        (Ret tt,
         mkWorld (with_store (net w) id (<[oid := obj]> (store_of (net w) id)))
                 (uuid_source w) (uuid_count w))
    end.
Proof. run_client. by destruct (resolve (net w) a eo). Qed.

Lemma client_evict_run a oid eo w :
  client_evict a oid eo w =
    match resolve (net w) a eo with
    | inl e => (Raise e, w)
    | inr id =>
        (Ret tt,
         mkWorld (with_store (net w) id (delete oid (store_of (net w) id)))
                 (uuid_source w) (uuid_count w))
    end.
Proof. run_client. by destruct (resolve (net w) a eo). Qed.

Lemma client_get_run a oid eo w :
  client_get a oid eo w =
    match resolve (net w) a eo with
    | inl e => (Raise e, w)
    | inr id => (Ret (store_of (net w) id !! oid), w)
    end.
Proof. run_client. by destruct (resolve (net w) a eo). Qed.

Lemma client_exists_run a oid eo w :
  client_exists a oid eo w =
    match resolve (net w) a eo with
    | inl e => (Raise e, w)
    | inr id => (Ret (bool_decide (is_Some (store_of (net w) id !! oid))), w)
    end.
Proof. run_client. by destruct (resolve (net w) a eo). Qed.

Lemma snd_reraise {A} op (m : M A) w : snd (reraise op m w) = snd (m w).
Proof.
  unfold reraise. destruct (m w) as [[a|e] w']; [done|].
  destruct e; try done. by destruct status_code.
Qed.

Lemma reraise_ret {A} op (m : M A) w a w' :
  m w = (Ret a, w') -> reraise op m w = (Ret a, w').
Proof. intros Hm. unfold reraise. by rewrite Hm. Qed.

Lemma reraise_ret_inv {A} op (m : M A) w a :
  fst (reraise op m w) = Ret a -> fst (m w) = Ret a.
Proof.
  unfold reraise. destruct (m w) as [[a'|e] w']; [done|].
  destruct e; try done. by destruct status_code.
Qed.

Lemma extends_refl n : extends n n.
Proof. by split. Qed.

Lemma extends_trans n1 n2 n3 : extends n1 n2 -> extends n2 n3 -> extends n1 n3.
Proof. intros [Hl1 Hs1] [Hl2 Hs2]. split; [congruence|eauto]. Qed.

Lemma with_store_extends n id s : extends n (with_store n id s).
Proof.
  split; [done|]. intros e He. cbn.
  destruct (decide (id = e)) as [->|Hne].
  - rewrite lookup_insert_eq. eauto.
  - by rewrite lookup_insert_ne.
Qed.

Lemma store_of_with_store_eq n id s : store_of (with_store n id s) id = s.
Proof. unfold store_of, with_store; cbn. by rewrite lookup_insert_eq. Qed.

Lemma store_of_with_store_ne n id s id' :
  id <> id' -> store_of (with_store n id s) id' = store_of n id'.
Proof. intros Hne. unfold store_of, with_store; cbn. by rewrite lookup_insert_ne. Qed.

Lemma resolve_extends n n' a eo id :
  extends n n' -> resolve n a eo = inr id -> resolve n' a eo = inr id.
Proof.
  intros [Hl Hs]. unfold resolve. rewrite Hl.
  destruct (listening n !! a) as [local|]; [|done].
  destruct eo as [e|]; [|done].
  destruct (decide (e = local)); [done|].
  destruct (stores n !! e) as [s|] eqn:He; [|done].
  destruct (Hs e) as [s' ->]; eauto.
Qed.

Lemma frame_refl ev w : frame ev w w.
Proof.
  split; [done|]. split; [done|]. split; [apply extends_refl|done].
Qed.

Lemma frame_trans ev w1 w2 w3 :
  frame ev w1 w2 -> frame ev w2 w3 -> frame ev w1 w3.
Proof.
  intros (Hs1 & Hc1 & He1 & Hk1) (Hs2 & Hc2 & He2 & Hk2).
  split; [congruence|]. split; [lia|].
  split; [by apply (extends_trans _ _ _ He1 He2)|].
  intros id oid Hno Hfresh. rewrite Hk2, Hk1; [done|done| |done|].
  - intros i Hi. apply Hfresh. lia.
  - intros i Hi. rewrite Hs1. apply Hfresh. lia.
Qed.

Lemma frame_weaken (ev ev' : string -> Prop) w w' :
  (forall oid, ev oid -> ev' oid) -> frame ev w w' -> frame ev' w w'.
Proof.
  intros Himp (Hs & Hc & He & Hk).
  split; [done|]. split; [done|]. split; [done|].
  intros id oid Hno Hfresh. apply Hk; [|done]. intros Hev. by apply Hno, Himp.
Qed.

Lemma frame_get ev self key w : frame ev w (snd (get self key w)).
Proof.
  unfold get. rewrite snd_reraise, client_get_run.
  destruct (resolve _ _ _); apply frame_refl.
Qed.

Lemma frame_exists ev self key w : frame ev w (snd (exists_ self key w)).
Proof.
  unfold exists_. rewrite snd_reraise, client_exists_run.
  destruct (resolve _ _ _); apply frame_refl.
Qed.

Lemma frame_evict self key w :
  frame (fun oid => EndpointKey.object_id key = oid) w (snd (evict self key w)).
Proof.
  unfold evict. rewrite snd_reraise, client_evict_run.
  destruct (resolve _ _ _) as [e|id]; [apply frame_refl|]. cbn.
  split; [done|]. split; [done|]. split; [apply with_store_extends|].
  intros id' oid Hno _. cbn. destruct (decide (id = id')) as [->|Hne].
  - rewrite store_of_with_store_eq. by apply lookup_delete_ne.
  - by rewrite store_of_with_store_ne.
Qed.

Lemma put_run self obj w :
  put self obj w =
    let key := EndpointKey.mk (PyUUID.str (uuid_source w (uuid_count w)))
                              (Some (PyUUID.str (endpoint_uuid self))) in
    let drawn := mkWorld (net w) (uuid_source w) (S (uuid_count w)) in
    match reraise "Put"
            (client_put (address self) (EndpointKey.object_id key) obj
                        (EndpointKey.endpoint_id key)) drawn with
    | (Ret _, w') => (Ret key, w')
    | (Raise e, w') => (Raise e, w')
    end.
Proof. reflexivity. Qed.

Lemma put_count self obj w :
  uuid_count (snd (put self obj w)) = S (uuid_count w).
Proof.
  rewrite put_run. cbn zeta.
  pose proof (snd_reraise "Put"
    (client_put (address self) (PyUUID.str (uuid_source w (uuid_count w))) obj
                (Some (PyUUID.str (endpoint_uuid self))))
    (mkWorld (net w) (uuid_source w) (S (uuid_count w)))) as Hsnd.
  cbn [EndpointKey.object_id EndpointKey.endpoint_id].
  destruct (reraise _ _ _) as [[a|e] w']; cbn in *; rewrite Hsnd;
    rewrite client_put_run; by destruct (resolve _ _ _).
Qed.

Lemma put_key self obj w key :
  fst (put self obj w) = Ret key ->
  key = EndpointKey.mk (PyUUID.str (uuid_source w (uuid_count w)))
                       (Some (PyUUID.str (endpoint_uuid self))).
Proof.
  rewrite put_run. cbn zeta. destruct (reraise _ _ _) as [[a|e] w']; cbn; congruence.
Qed.

Lemma frame_put ev self obj w : frame ev w (snd (put self obj w)).
Proof.
  assert (Hc := put_count self obj w). revert Hc. rewrite put_run. cbn zeta.
  pose proof (snd_reraise "Put"
    (client_put (address self) (PyUUID.str (uuid_source w (uuid_count w))) obj
                (Some (PyUUID.str (endpoint_uuid self))))
    (mkWorld (net w) (uuid_source w) (S (uuid_count w)))) as Hsnd.
  cbn [EndpointKey.object_id EndpointKey.endpoint_id].
  assert (Hf : frame ev w (snd (reraise "Put"
    (client_put (address self) (PyUUID.str (uuid_source w (uuid_count w))) obj
                (Some (PyUUID.str (endpoint_uuid self))))
    (mkWorld (net w) (uuid_source w) (S (uuid_count w)))))).
  { rewrite Hsnd, client_put_run. cbn [net uuid_source uuid_count].
    destruct (resolve _ _ _) as [e|id]; unfold frame; cbn.
    - split; [done|]. split; [lia|]. split; [apply extends_refl|done].
    - split; [done|]. split; [lia|].
      split; [apply (with_store_extends (net w))|].
      intros id' oid _ Hfresh. destruct (decide (id = id')) as [->|Hne].
      + rewrite store_of_with_store_eq. apply lookup_insert_ne.
        intros Heq. apply (Hfresh (uuid_count w)); [lia|done].
      + by rewrite store_of_with_store_ne. }
  destruct (reraise _ _ _) as [[a|e] w']; done.
Qed.


Lemma comprehension_cons {A C} (f : A -> M C) x xs w :
  comprehension f (x :: xs) w =
    match f x w with
    | (Ret y, w1) =>
        match comprehension f xs w1 with
        | (Ret ys, w2) => (Ret (y :: ys), w2)
        | (Raise e, w2) => (Raise e, w2)
        end
    | (Raise e, w1) => (Raise e, w1)
    end.
Proof.
  cbn [comprehension]. unfold Eff.bind, Eff.ret.
  destruct (f x w) as [[y|e] w1]; [|done].
  by destruct (comprehension f xs w1) as [[ys|e] w2].
Qed.

Lemma frame_comprehension {A C} ev (f : A -> M C) xs w :
  (forall x w, frame ev w (snd (f x w))) ->
  frame ev w (snd (comprehension f xs w)).
Proof.
  intros Hf. revert w. induction xs as [|x xs IH]; intros w.
  - apply frame_refl.
  - rewrite comprehension_cons. specialize (Hf x w).
    destruct (f x w) as [[y|e] w1]; cbn in Hf; [|done].
    specialize (IH w1).
    destruct (comprehension f xs w1) as [[ys|e] w2]; cbn in IH |- *;
      by apply (frame_trans _ _ _ _ Hf).
Qed.

Lemma minted_widen ev self w0 w1 w2 w3 key :
  frame ev w0 w1 -> frame ev w2 w3 ->
  minted self w1 w2 key -> minted self w0 w3 key.
Proof.
  intros (Hs1 & Hc1 & _) (_ & Hc2 & _) (i & Hi & ->).
  exists i. split; [lia|]. by rewrite Hs1.
Qed.

Lemma minted_put self obj w key :
  fst (put self obj w) = Ret key -> minted self w (snd (put self obj w)) key.
Proof.
  intros Hk. exists (uuid_count w). rewrite put_count.
  split; [lia|]. by apply put_key in Hk.
Qed.

Lemma minted_put_batch self objs w keys :
  fst (put_batch self objs w) = Ret keys ->
  Forall (minted self w (snd (put_batch self objs w))) keys.
Proof.
  unfold put_batch. revert w keys.
  induction objs as [|obj objs IH]; intros w keys.
  - cbn. intros [= <-]. constructor.
  - rewrite comprehension_cons.
    pose proof (minted_put self obj w) as Hk.
    pose proof (frame_put (fun _ => False) self obj w) as Hf.
    destruct (put self obj w) as [[k|e] w1]; cbn in Hk, Hf; [|done].
    specialize (IH w1).
    pose proof (frame_comprehension (fun _ => False) (put self) objs w1
                  (frame_put _ self)) as Hfs.
    destruct (comprehension (put self) objs w1) as [[ks|e] w2];
      cbn in IH, Hfs |- *; [|done].
    intros [= <-]. constructor.
    + apply (minted_widen (fun _ => False) _ w w w1 w2);
        [apply frame_refl|done|by apply Hk].
    + eapply Forall_impl; [by apply IH|].
      intros k' Hk'. apply (minted_widen (fun _ => False) _ w w1 w2 w2);
        [done|apply frame_refl|done].
Qed.

Lemma frame_run_call self c w :
  frame (fun oid => evicts oid c) w (snd (run_call self c w)).
Proof.
  destruct c as [obj|objs|key|keys|key|key]; cbn [run_call evicts].
  - pose proof (frame_put (fun _ => False) self obj w) as Hf.
    by destruct (put self obj w) as [[k|e] w1].
  - pose proof (frame_comprehension (fun _ => False) (put self) objs w
                  (frame_put _ self)) as Hf.
    unfold put_batch. by destruct (comprehension _ _ _) as [[k|e] w1].
  - apply frame_get.
  - apply frame_comprehension. intros; apply frame_get.
  - apply frame_exists.
  - apply frame_evict.
Qed.

Lemma minted_run_call self c w :
  Forall (minted self w (snd (run_call self c w))) (fst (run_call self c w)).
Proof.
  destruct c as [obj|objs|key|keys|key|key]; cbn [run_call]; try constructor.
  - pose proof (minted_put self obj w) as Hk.
    destruct (put self obj w) as [[k|e] w1]; cbn in *; [|constructor].
    constructor; [by apply Hk|constructor].
  - pose proof (minted_put_batch self objs w) as Hk.
    destruct (put_batch self objs w) as [[ks|e] w1]; cbn in *; [|constructor].
    by apply Hk.
Qed.

Lemma run_calls_cons self c cs w :
  run_calls self (c :: cs) w =
    ((fst (run_call self c w)
        ++ fst (run_calls self cs (snd (run_call self c w))))%list,
     snd (run_calls self cs (snd (run_call self c w)))).
Proof.
  cbn [run_calls]. destruct (run_call self c w) as [ks w1]; cbn.
  by destruct (run_calls self cs w1) as [ks' w2].
Qed.

Lemma frame_run_calls self cs w :
  frame (fun oid => Exists (evicts oid) cs) w (snd (run_calls self cs w)).
Proof.
  revert w. induction cs as [|c cs IH]; intros w; [apply frame_refl|].
  rewrite run_calls_cons. cbn [snd].
  eapply frame_trans.
  - eapply frame_weaken; [|apply (frame_run_call self c w)].
    intros oid Hev. by constructor.
  - eapply frame_weaken; [|apply IH].
    intros oid Hev. by apply Exists_cons_tl.
Qed.

Lemma minted_run_calls self cs w :
  Forall (minted self w (snd (run_calls self cs w))) (fst (run_calls self cs w)).
Proof.
  revert w. induction cs as [|c cs IH]; intros w; [constructor|].
  rewrite run_calls_cons. cbn [fst snd].
  pose proof (frame_run_call self c w) as Hf1.
  pose proof (frame_run_calls self cs (snd (run_call self c w))) as Hf2.
  apply Forall_app. split.
  - eapply Forall_impl; [apply minted_run_call|].
    intros k Hk.
    eapply (minted_widen (fun _ => True) _ w w);
      [apply frame_refl|eapply frame_weaken; [|exact Hf2]; done|exact Hk].
  - eapply Forall_impl; [apply IH|].
    intros k Hk.
    eapply (minted_widen (fun _ => True) _ w _ _ _);
      [eapply frame_weaken; [|exact Hf1]; done|apply frame_refl|exact Hk].
Qed.

(** C7. Whatever calls came before, a [put] that returns hands back a key
    whose [endpoint_id] is the string of the connector's home endpoint UUID
    and whose [object_id] is the string of the UUID just drawn; as long as
    [uuid4] has not repeated itself, no key handed back before carries that
    [object_id]. *)
Theorem C7_put_returns_fresh_home_key self calls obj w0 key :
  let earlier := fst (run_calls self calls w0) in
  let w := snd (run_calls self calls w0) in
  unique_upto (uuid_source w0) (S (uuid_count w)) ->
  fst (put self obj w) = Ret key ->
  EndpointKey.endpoint_id key = Some (PyUUID.str (endpoint_uuid self)) /\
  EndpointKey.object_id key = PyUUID.str (uuid_source w (uuid_count w)) /\
  forall k, k ∈ earlier ->
    EndpointKey.object_id k <> EndpointKey.object_id key.
Proof.
  intros earlier w [Hbound Hinj] Hput.
  apply put_key in Hput as ->. cbn. split; [done|]. split; [done|].
  intros k Hk.
  pose proof (minted_run_calls self calls w0) as Hm.
  rewrite Forall_forall in Hm. destruct (Hm k Hk) as (i & Hi & ->). cbn.
  destruct (frame_run_calls self calls w0) as (Hs & _).
  fold w in Hi, Hs. rewrite Hs. intros Heq.
  apply str_inj in Heq; [|apply Hbound; lia|apply Hbound; lia].
  apply Hinj in Heq; lia.
Qed.


Lemma put_ret_inv self obj w key w' :
  put self obj w = (Ret key, w') ->
  exists id,
    resolve (net w) (address self) (EndpointKey.endpoint_id key) = inr id /\
    key = EndpointKey.mk (PyUUID.str (uuid_source w (uuid_count w)))
                         (Some (PyUUID.str (endpoint_uuid self))) /\
    w' = mkWorld (with_store (net w) id
                    (<[EndpointKey.object_id key := obj]> (store_of (net w) id)))
                 (uuid_source w) (S (uuid_count w)).
Proof.
  rewrite put_run. cbn zeta. unfold reraise. rewrite client_put_run.
  cbn [net uuid_source uuid_count EndpointKey.object_id EndpointKey.endpoint_id].
  destruct (resolve _ _ _) as [e|id] eqn:Hr.
  - destruct e; try discriminate. destruct status_code; discriminate.
  - intros [= <- <-]. exists id. cbn. by rewrite Hr.
Qed.

Lemma get_found self key w id :
  resolve (net w) (address self) (EndpointKey.endpoint_id key) = inr id ->
  get self key w = (Ret (store_of (net w) id !! EndpointKey.object_id key), w).
Proof.
  intros Hr. unfold get. apply reraise_ret. by rewrite client_get_run, Hr.
Qed.

Lemma exists_found self key w id :
  resolve (net w) (address self) (EndpointKey.endpoint_id key) = inr id ->
  exists_ self key w =
    (Ret (bool_decide
            (is_Some (store_of (net w) id !! EndpointKey.object_id key))), w).
Proof.
  intros Hr. unfold exists_. apply reraise_ret. by rewrite client_exists_run, Hr.
Qed.

Lemma evict_found self key w id :
  resolve (net w) (address self) (EndpointKey.endpoint_id key) = inr id ->
  evict self key w =
    (Ret tt,
     mkWorld (with_store (net w) id
                (delete (EndpointKey.object_id key) (store_of (net w) id)))
             (uuid_source w) (uuid_count w)).
Proof.
  intros Hr. unfold evict. apply reraise_ret. by rewrite client_evict_run, Hr.
Qed.

(** C1. After a [put] of [obj] that returned [key], and then any calls on
    the connector among which none evicts [key]'s object id ([uuid4] not
    having repeated itself on the way): [get(key)] returns [obj] and
    [exists(key)] returns [True]; an [evict(key)] then succeeds, and after it
    [exists(key)] returns [False] and [get(key)] returns [None]. *)
Theorem C1_round_trip_until_evict self obj w0 key w1 calls :
  put self obj w0 = (Ret key, w1) ->
  let w2 := snd (run_calls self calls w1) in
  unique_upto (uuid_source w0) (uuid_count w2) ->
  Forall (fun c => ~ evicts (EndpointKey.object_id key) c) calls ->
  get self key w2 = (Ret (Some obj), w2) /\
  exists_ self key w2 = (Ret true, w2) /\
  fst (evict self key w2) = Ret tt /\
  let w3 := snd (evict self key w2) in
  exists_ self key w3 = (Ret false, w3) /\
  get self key w3 = (Ret None, w3).
Proof.
  intros Hput w2 [Hbound Hinj] Hcalls.
  destruct (put_ret_inv _ _ _ _ _ Hput) as (id & Hr0 & Hkey & Hw1).
  destruct (frame_run_calls self calls w1) as (Hs & Hc & He & Hk).
  fold w2 in Hs, Hc, He, Hk.
  assert (Hs1 : uuid_source w1 = uuid_source w0) by (by rewrite Hw1).
  assert (Hc1 : uuid_count w1 = S (uuid_count w0)) by (by rewrite Hw1).
  assert (Hr1 : resolve (net w1) (address self) (EndpointKey.endpoint_id key)
                = inr id).
  { apply (resolve_extends (net w0)); [|done].
    rewrite Hw1. apply with_store_extends. }
  assert (Hr2 : resolve (net w2) (address self) (EndpointKey.endpoint_id key)
                = inr id) by (by apply (resolve_extends (net w1))).
  assert (Hin1 : store_of (net w1) id !! EndpointKey.object_id key = Some obj).
  { rewrite Hw1. cbn [net]. rewrite store_of_with_store_eq.
    apply lookup_insert_eq. }
  assert (Hin2 : store_of (net w2) id !! EndpointKey.object_id key = Some obj).
  { rewrite Hk; [done| |].
    - intros Hex. apply Exists_exists in Hex as (c & Hc_in & Hev).
      rewrite Forall_forall in Hcalls. by apply (Hcalls c).
    - intros i Hi. rewrite Hs1, Hkey. cbn. intros Heq.
      apply str_inj in Heq; [|apply Hbound; lia|apply Hbound; lia].
      apply Hinj in Heq; lia. }
  rewrite (get_found _ _ _ _ Hr2), (exists_found _ _ _ _ Hr2), Hin2.
  split; [done|]. split; [by rewrite bool_decide_eq_true_2|].
  rewrite (evict_found _ _ _ _ Hr2). split; [done|]. cbn [snd].
  set (w3 := mkWorld _ _ _).
  assert (Hr3 : resolve (net w3) (address self) (EndpointKey.endpoint_id key)
                = inr id).
  { apply (resolve_extends (net w2)); [|done]. apply with_store_extends. }
  rewrite (get_found _ _ _ _ Hr3), (exists_found _ _ _ _ Hr3).
  assert (Hgone : store_of (net w3) id !! EndpointKey.object_id key = None).
  { unfold w3. cbn [net]. rewrite store_of_with_store_eq. apply lookup_delete_eq. }
  rewrite Hgone. split; [|done].
  rewrite bool_decide_eq_false_2; [done|]. by intros [? ?].
Qed.

(** At home, [put] succeeds. *)
Lemma put_succeeds_at_home self obj w :
  at_home self w -> exists key w', put self obj w = (Ret key, w').
Proof.
  intros Hhome. rewrite put_run. cbn zeta. unfold reraise.
  rewrite client_put_run. unfold resolve. cbn [net]. unfold at_home in Hhome.
  rewrite Hhome. cbn. rewrite decide_True by done. eauto.
Qed.

End EndpointFacts.

Section EndpointExamples.
Import Endpoint.

(** The example source never repeats itself. *)
Lemma source_unique n :
  (N.of_nat n < 2 ^ 127)%N -> unique_upto Examples.source n.
Proof.
  intros Hn. unfold unique_upto, Examples.source. split.
  - intros i Hi. change (2 ^ 128)%N with (2 * 2 ^ 127)%N. lia.
  - intros i j _ _ Heq. lia.
Qed.

(** C1, witness: a put, then another put, an evict of another object and a
    get, on the example fabric. *)
Lemma C1_witness :
  let self := Examples.home in
  let w0 := Examples.fabric in
  let obj := [x68; x69] in
  let key := Examples.first_key in
  let w1 := snd (put self obj w0) in
  let calls := [CallPut [x00];
                CallEvict (EndpointKey.mk "other" None);
                CallGet key] in
  put self obj w0 = (Ret key, w1) /\
  let w2 := snd (run_calls self calls w1) in
  unique_upto (uuid_source w0) (uuid_count w2) /\
  Forall (fun c => ~ evicts (EndpointKey.object_id key) c) calls /\
  get self key w2 = (Ret (Some obj), w2) /\
  exists_ self key w2 = (Ret true, w2) /\
  fst (evict self key w2) = Ret tt /\
  let w3 := snd (evict self key w2) in
  exists_ self key w3 = (Ret false, w3) /\
  get self key w3 = (Ret None, w3).
Proof.
  intros self w0 obj key w1 calls.
  assert (Hput : put self obj w0 = (Ret key, w1)) by (vm_compute; reflexivity).
  split; [exact Hput|]. intros w2.
  assert (Hu : unique_upto (uuid_source w0) (uuid_count w2)).
  { replace (uuid_count w2) with 2 by (vm_compute; reflexivity).
    apply source_unique. vm_compute. reflexivity. }
  assert (Hc : Forall (fun c => ~ evicts (EndpointKey.object_id key) c) calls).
  { repeat constructor; cbn; try tauto. vm_compute. discriminate. }
  split; [exact Hu|]. split; [exact Hc|].
  exact (C1_round_trip_until_evict self obj w0 key w1 calls Hput Hu Hc).
Defined.

(** C7, witness: the fourth key minted on the example fabric. *)
Lemma C7_witness :
  let self := Examples.home in
  let w0 := Examples.fabric in
  let calls := [CallPut [x68; x69]; CallPutBatch [[x00]; [x01]]] in
  let earlier := fst (run_calls self calls w0) in
  let w := snd (run_calls self calls w0) in
  let key := EndpointKey.mk (PyUUID.str 1003) (Some (PyUUID.str 42)) in
  unique_upto (uuid_source w0) (S (uuid_count w)) /\
  fst (put self [x02] w) = Ret key /\
  EndpointKey.endpoint_id key = Some (PyUUID.str (endpoint_uuid self)) /\
  EndpointKey.object_id key = PyUUID.str (uuid_source w (uuid_count w)) /\
  forall k, k ∈ earlier ->
    EndpointKey.object_id k <> EndpointKey.object_id key.
Proof.
  intros self w0 calls earlier w key.
  assert (Hu : unique_upto (uuid_source w0) (S (uuid_count w))).
  { replace (uuid_count w) with 3 by (vm_compute; reflexivity).
    apply source_unique. vm_compute. reflexivity. }
  assert (Hput : fst (put self [x02] w) = Ret key) by (vm_compute; reflexivity).
  split; [exact Hu|]. split; [exact Hput|].
  exact (C7_put_returns_fresh_home_key self calls [x02] w0 key Hu Hput).
Defined.

End EndpointExamples.

(** ** The remote store *)
Section RemoteFacts.
Import Remote.
Context {B Timestamp Obj : Type} {runtime : Runtime B Timestamp Obj}.
Context (cache_set : string -> Timestamp * Value Obj ->
                     gmap string (Timestamp * Value Obj) ->
                     gmap string (Timestamp * Value Obj)).

Lemma sidecar_differs (key : string) : key ++ "_timestamp" <> key.
Proof.
  induction key as [|a key IH]; [discriminate|].
  intros Heq. injection Heq as Heq. by apply IH.
Qed.

Lemma fetch_events key deserialize default
    (w : World B Timestamp Obj) :
  exists rest,
    events (snd (fetch cache_set key deserialize default w))
      = (events w ++ GetBytes key :: rest)%list /\
    DebugGet key (Some true) ∉ rest.
Proof.
  run_remote. destruct (get_bytes (remote w) key) as [value|]; cbn.
  - destruct (get_bytes (remote w) (key ++ "_timestamp")) as [stamp|]; cbn;
      [|eexists; split; [by rewrite <- app_assoc|]; not_in_list].
    destruct (to_float stamp); cbn;
      [|eexists; split; [by rewrite <- app_assoc|]; not_in_list].
    destruct deserialize; [destruct (ps_deserialize value)|]; cbn;
      try destruct (_cache (self w)); cbn;
      (eexists; split; [by rewrite <- !app_assoc|]; not_in_list).
  - eexists; split; [by rewrite <- !app_assoc|]. not_in_list.
Qed.

Lemma is_cached_strict key (w : World B Timestamp Obj)
    cache cache_timestamp value stamp store_timestamp :
  _cache (self w) = Some cache ->
  cache !! key = Some (cache_timestamp, value) ->
  get_bytes (remote w) (key ++ "_timestamp") = Some stamp ->
  to_float stamp = Some store_timestamp ->
  is_cached key true w =
    (Ret (ge cache_timestamp store_timestamp),
     mkWorld (self w) (remote w)
             (events w ++ [GetBytes (key ++ "_timestamp")])).
Proof.
  intros Hcache Hkey Hstamp Hfloat.
  unfold is_cached, Eff.bind at 1, Eff.get. rewrite Hcache.
  unfold cache_exists. rewrite Hkey, bool_decide_eq_true_2 by eauto.
  unfold call_get_bytes, emit, decode_float, the_cache, subscript, cache_get,
    Eff.bind, Eff.modify, Eff.ret, Eff.get; cbn.
  repeat (progress (rewrite ?Hcache, ?Hkey, ?Hstamp, ?Hfloat; cbn)).
  done.
Qed.

(** C8. A cache is configured and holds [key], and the lookup of the
    sidecar [key + '_timestamp'] yields a timestamp. With [strict=True],
    [get] is answered from the cache, with the cached value and no lookup of
    [key], exactly when the cached timestamp is [>=] the sidecar's.
    Otherwise the value is fetched again: [get] looks [key] up in the remote
    store and, when it is there, looks the sidecar up once more, returns the
    value found (deserialized if asked to) and puts it in the cache with the
    sidecar's timestamp; when deserializing fails it raises and caches
    nothing; when [key] is gone from the remote store it returns the
    default. *)
Theorem C8_strict_get_checks_sidecar key deserialize default
    (w : World B Timestamp Obj) cache cache_timestamp value stamp store_timestamp :
  _cache (self w) = Some cache ->
  cache !! key = Some (cache_timestamp, value) ->
  get_bytes (remote w) (key ++ "_timestamp") = Some stamp ->
  to_float stamp = Some store_timestamp ->
  let run := get cache_set key deserialize true default in
  (ge cache_timestamp store_timestamp = true ->
     run w = (Ret (Some value),
              mkWorld (self w) (remote w)
                (events w ++ [GetBytes (key ++ "_timestamp");
                              DebugGet key (Some true)]))) /\
  (ge cache_timestamp store_timestamp = false ->
     match get_bytes (remote w) key with
     | Some data =>
         match (if deserialize then Object <$> ps_deserialize data
                else Some (Serialized data)) with
         | Some fetched =>
             run w = (Ret (Some fetched),
                      mkWorld
                        (mkStore (name (self w)) (cache_size (self w))
                           (Some (cache_set key (store_timestamp, fetched)
                                    cache)))
                        (remote w)
                        (events w ++ [GetBytes (key ++ "_timestamp");
                                      GetBytes key;
                                      GetBytes (key ++ "_timestamp");
                                      DebugGet key (Some false)]))
         | None =>
             run w = (Raise SerializationError,
                      mkWorld (self w) (remote w)
                        (events w ++ [GetBytes (key ++ "_timestamp");
                                      GetBytes key;
                                      GetBytes (key ++ "_timestamp")]))
         end
     | None =>
         run w = (Ret default,
                  mkWorld (self w) (remote w)
                    (events w ++ [GetBytes (key ++ "_timestamp");
                                  GetBytes key; DebugGet key None]))
     end) /\
  (DebugGet key (Some true) ∈ new_events run w
     <-> ge cache_timestamp store_timestamp = true) /\
  (GetBytes key ∈ new_events run w
     <-> ge cache_timestamp store_timestamp = false).
Proof.
  intros Hcache Hkey Hstamp Hfloat run.
  set (checked := mkWorld (self w) (remote w)
                    (events w ++ [GetBytes (key ++ "_timestamp")])).
  pose proof (is_cached_strict key w _ _ _ _ _ Hcache Hkey Hstamp Hfloat) as Hic.
  assert (Hhit : ge cache_timestamp store_timestamp = true ->
     run w = (Ret (Some value),
              mkWorld (self w) (remote w)
                (events w ++ [GetBytes (key ++ "_timestamp");
                              DebugGet key (Some true)]))).
  { intros Hge. unfold run, get, Eff.bind at 1. rewrite Hic, Hge.
    unfold the_cache, subscript, cache_get, emit,
      Eff.bind, Eff.modify, Eff.ret, Eff.get; cbn.
    repeat (progress (rewrite ?Hcache, ?Hkey; cbn)).
    by rewrite <- app_assoc. }
  assert (Hmiss : ge cache_timestamp store_timestamp = false ->
     run w = fetch cache_set key deserialize default checked).
  { intros Hge. unfold run, get, Eff.bind at 1. by rewrite Hic, Hge. }
  split; [exact Hhit|]. split.
  { intros Hge. rewrite (Hmiss Hge). unfold checked. run_remote.
    destruct (get_bytes (remote w) key) as [data|]; cbn;
      [|by rewrite <- !app_assoc].
    rewrite Hstamp; cbn. rewrite Hfloat; cbn.
    destruct deserialize; [destruct (ps_deserialize data)|]; cbn;
      rewrite ?Hcache; cbn; rewrite ?Hcache; cbn; by rewrite <- !app_assoc. }
  destruct (ge cache_timestamp store_timestamp) eqn:Hge.
  - unfold new_events. rewrite (Hhit eq_refl); cbn. rewrite drop_app_length.
    split; split; try done.
    + intros _. apply elem_of_cons; right. by apply list_elem_of_singleton.
    + intros Hin. apply elem_of_cons in Hin as [Hin|Hin].
      * injection Hin as Hin. symmetry in Hin. by apply sidecar_differs in Hin.
      * apply list_elem_of_singleton in Hin. discriminate Hin.
  - unfold new_events. rewrite (Hmiss eq_refl).
    destruct (fetch_events key deserialize default checked) as (rest & Hrest & Hno).
    rewrite Hrest. unfold checked; cbn. rewrite <- app_assoc, drop_app_length.
    split; split; try done.
    + intros Hin. exfalso.
      apply elem_of_cons in Hin as [Hin|Hin]; [discriminate Hin|].
      apply elem_of_cons in Hin as [Hin|Hin]; [discriminate Hin|]. done.
    + intros _. apply elem_of_cons; right. apply elem_of_cons; by left.
Qed.

(** C10. The remote store holds [key] and has no [key + '_timestamp']
    sidecar for it, and [get] is not answered from the cache (with
    [strict=False], the cache is off or does not hold [key]): [get] raises
    [AttributeError], from decoding [None], and returns neither the value nor
    the default. *)
Theorem C10_get_raises_without_sidecar key deserialize strict default
    (w : World B Timestamp Obj) value :
  get_bytes (remote w) key = Some value ->
  get_bytes (remote w) (key ++ "_timestamp") = None ->
  (strict = false ->
   forall cache, _cache (self w) = Some cache -> cache !! key = None) ->
  fst (get cache_set key deserialize strict default w) = Raise AttributeError.
Proof.
  intros Hvalue Hstamp Hcold.
  destruct (_cache (self w)) as [cache|] eqn:Hcache.
  - destruct (cache !! key) as [entry|] eqn:Hkey.
    + assert (Hin : bool_decide (is_Some (cache !! key)) = true)
        by (apply bool_decide_eq_true_2; eauto).
      destruct strict.
      * run_remote.
        repeat (progress (rewrite ?Hcache, ?Hin, ?Hstamp; cbn)). done.
      * specialize (Hcold eq_refl _ eq_refl). congruence.
    + assert (Hout : bool_decide (is_Some (cache !! key)) = false)
        by (apply bool_decide_eq_false_2; rewrite Hkey; by intros [? ?]).
      run_remote.
      repeat (progress (rewrite ?Hcache, ?Hout, ?Hvalue, ?Hstamp; cbn)). done.
  - run_remote.
    repeat (progress (rewrite ?Hcache, ?Hvalue, ?Hstamp; cbn)). done.
Qed.

End RemoteFacts.

Section RemoteExamples.
Import Remote.

(** C8, witness: the cache holds ["k"] as of time 5, the sidecar says 7. *)
Lemma C8_witness :
  let w := Examples.stale_cache in
  let cache : gmap string (N * Value (list byte)) :=
    {[ "k" := (5%N, Serialized [x61]) ]} in
  let run := get (runtime := Examples.runtime) Examples.cache_insert
                 "k" false true None in
  _cache (self w) = Some cache /\
  cache !! "k" = Some (5%N, Serialized [x61]) /\
  get_bytes (Runtime := Examples.runtime) (remote w) ("k" ++ "_timestamp")
    = Some [x37] /\
  to_float (Runtime := Examples.runtime) [x37] = Some 7%N /\
  (ge (Runtime := Examples.runtime) 5%N 7%N = true ->
     run w = (Ret (Some (Serialized [x61])),
              mkWorld (self w) (remote w)
                (events w ++ [GetBytes ("k" ++ "_timestamp");
                              DebugGet "k" (Some true)]))) /\
  (ge (Runtime := Examples.runtime) 5%N 7%N = false ->
     match get_bytes (Runtime := Examples.runtime) (remote w) "k" with
     | Some data =>
         match (if false
                then Object <$> ps_deserialize (Runtime := Examples.runtime) data
                else Some (Serialized data)) with
         | Some fetched =>
             run w = (Ret (Some fetched),
                      mkWorld
                        (mkStore (name (self w)) (cache_size (self w))
                           (Some (Examples.cache_insert "k" (7%N, fetched)
                                    cache)))
                        (remote w)
                        (events w ++ [GetBytes ("k" ++ "_timestamp");
                                      GetBytes "k";
                                      GetBytes ("k" ++ "_timestamp");
                                      DebugGet "k" (Some false)]))
         | None =>
             run w = (Raise SerializationError,
                      mkWorld (self w) (remote w)
                        (events w ++ [GetBytes ("k" ++ "_timestamp");
                                      GetBytes "k";
                                      GetBytes ("k" ++ "_timestamp")]))
         end
     | None =>
         run w = (Ret None,
                  mkWorld (self w) (remote w)
                    (events w ++ [GetBytes ("k" ++ "_timestamp");
                                  GetBytes "k"; DebugGet "k" None]))
     end) /\
  (DebugGet "k" (Some true) ∈ new_events run w
     <-> ge (Runtime := Examples.runtime) 5%N 7%N = true) /\
  (GetBytes "k" ∈ new_events run w
     <-> ge (Runtime := Examples.runtime) 5%N 7%N = false).
Proof.
  intros w cache run.
  assert (H1 : _cache (self w) = Some cache) by reflexivity.
  assert (H2 : cache !! "k" = Some (5%N, Serialized [x61])) by reflexivity.
  assert (H3 : get_bytes (Runtime := Examples.runtime) (remote w)
                 ("k" ++ "_timestamp") = Some [x37]) by reflexivity.
  assert (H4 : to_float (Runtime := Examples.runtime) [x37] = Some 7%N)
    by reflexivity.
  split; [exact H1|]. split; [exact H2|]. split; [exact H3|]. split; [exact H4|].
  exact (C8_strict_get_checks_sidecar (runtime := Examples.runtime)
           Examples.cache_insert "k" false None w cache 5%N (Serialized [x61])
           [x37] 7%N H1 H2 H3 H4).
Defined.

(** C10, witness: no cache, ["k"] stored without its sidecar. *)
Lemma C10_witness :
  let w := Examples.no_sidecar in
  get_bytes (Runtime := Examples.runtime) (remote w) "k" = Some [x62] /\
  get_bytes (Runtime := Examples.runtime) (remote w) ("k" ++ "_timestamp") = None /\
  (false = false ->
   forall cache, _cache (self w) = Some cache -> cache !! "k" = None) /\
  fst (get (runtime := Examples.runtime) Examples.cache_insert
           "k" false false None w) = Raise AttributeError.
Proof.
  intros w.
  assert (H1 : get_bytes (Runtime := Examples.runtime) (remote w) "k" = Some [x62])
    by reflexivity.
  assert (H2 : get_bytes (Runtime := Examples.runtime) (remote w)
                 ("k" ++ "_timestamp") = None) by reflexivity.
  assert (H3 : false = false ->
               forall cache, _cache (self w) = Some cache -> cache !! "k" = None).
  { intros _ cache Hc. discriminate Hc. }
  split; [exact H1|]. split; [exact H2|]. split; [exact H3|].
  exact (C10_get_raises_without_sidecar (runtime := Examples.runtime)
           Examples.cache_insert "k" false false None w [x62] H1 H2 H3).
Defined.

End RemoteExamples.

(** * More facts *)

(** ** Sessions of the signaling server *)
Section SignalingSessionFacts.
Import Signaling.
Context {wire : Serializer}.

Lemma unregister_ret ws expected w : fst (unregister ws expected w) = Ret tt.
Proof.
  destruct (_websocket_to_client (self w) !! ws) as [c|] eqn:Hc.
  - by rewrite (unregister_present _ _ _ _ Hc).
  - by rewrite (unregister_absent _ _ _ Hc).
Qed.

Lemma unregister_removes ws expected w :
  _websocket_to_client (self (snd (unregister ws expected w))) !! ws = None.
Proof.
  destruct (_websocket_to_client (self w) !! ws) as [c|] eqn:Hc.
  - rewrite (unregister_present _ _ _ _ Hc). cbn. apply lookup_delete_eq.
  - by rewrite (unregister_absent _ _ _ Hc).
Qed.

Lemma register_ret ws request w : fst (register ws request w) = Ret tt.
Proof.
  destruct (_websocket_to_client (self w) !! ws) as [c|] eqn:Hc.
  - by rewrite (register_bound _ _ _ _ Hc).
  - destruct request as [[u|] n]; run; rewrite Hc; cbn;
      match goal with
      | |- context [_uuid_to_client (self w) !! ?k] =>
          destruct (_uuid_to_client (self w) !! k) as [old|]; cbn; [|done];
          by destruct (_websocket_to_client (self w) !! Client.websocket old)
      end.
Qed.

Lemma connect_ret ws message w c :
  _websocket_to_client (self w) !! ws = Some c ->
  fst (connect ws message w) = Ret tt.
Proof.
  intros Hc.
  destruct (_uuid_to_client (self w) !! PeerConnectionMessage.peer_uuid message)
    as [t|] eqn:Ht.
  - by rewrite (connect_forward _ _ _ _ _ Hc Ht).
  - by rewrite (connect_unknown _ _ _ _ Hc Ht).
Qed.

Lemma connect_keeps_registry ws message w :
  self (snd (connect ws message w)) = self w.
Proof.
  destruct (_websocket_to_client (self w) !! ws) as [c|] eqn:Hc.
  - destruct (_uuid_to_client (self w) !! PeerConnectionMessage.peer_uuid message)
      as [t|] eqn:Ht.
    + by rewrite (connect_forward _ _ _ _ _ Hc Ht).
    + by rewrite (connect_unknown _ _ _ _ Hc Ht).
  - by rewrite (connect_unregistered _ _ _ Hc).
Qed.

Lemma bind_ret_fst {A C} (m : M A) (b : C) w :
  (exists a, fst (m w) = Ret a) ->
  fst ((_ <- m ;; Eff.ret b) w) = Ret b.
Proof.
  unfold Eff.bind, Eff.ret. destruct (m w) as [[a|e] w']; cbn; [done|].
  intros [a H]; discriminate H.
Qed.

Lemma handler_iteration_ret ws r w :
  fst (handler_iteration ws r w)
    = Ret (match r with Frame _ => Continue | _ => Break end).
Proof.
  destruct r as [data| |]; unfold handler_iteration.
  - destruct (deserialize data) as [message|]; [|done].
    apply bind_ret_fst. exists tt.
    destruct message as [request|m|m|m|m]; try done.
    + apply register_ret.
    + unfold Eff.bind at 1, get_self.
      destruct (_websocket_to_client (self w) !! ws) as [c|] eqn:Hc; [|done].
      by apply (connect_ret _ _ _ c).
  - apply bind_ret_fst. exists tt. apply unregister_ret.
  - apply bind_ret_fst. exists tt. apply unregister_ret.
Qed.

(** X2. Only a registration request or a closed connection changes the
    registry: any other frame, from a registered transport or not, decodable
    or not, leaves both indices as they are. *)
Theorem other_frames_keep_registry ws data w :
  (forall m, deserialize data = Some m -> is_registration_request m = false) ->
  self (snd (handler_iteration ws (Frame data) w)) = self w.
Proof.
  intros Hm. unfold handler_iteration.
  destruct (deserialize data) as [m|] eqn:Hd; [|done].
  specialize (Hm m eq_refl). rewrite snd_bind_ret.
  destruct m as [request|m|m|m|m]; try discriminate Hm; try done.
  unfold Eff.bind at 1, get_self.
  destruct (_websocket_to_client (self w) !! ws) as [c|] eqn:Hc; [|done].
  apply connect_keeps_registry.
Qed.

Lemma output_app_items {A} (m : M A) w (items : list Item) :
  trace (snd (m w)) = (trace w ++ items)%list -> output m w = ios items.
Proof. intros Ht. unfold output, added. by rewrite Ht, drop_app_length. Qed.

Lemma register_new_transport ws request w :
  consistent (self w) ->
  _websocket_to_client (self w) !! ws = None ->
  let c := Client.mk (PeerRegistrationRequest.name request)
                     (chosen_uuid request w) ws in
  _websocket_to_client (self (snd (register ws request w))) !! ws = Some c /\
  _uuid_to_client (self (snd (register ws request w))) !! chosen_uuid request w
    = Some c /\
  last (output (register ws request) w)
    = Some (WsSend ws (registration_response (chosen_uuid request w))).
Proof.
  intros [Hw Hu] Hc c.
  destruct (_uuid_to_client (self w) !! chosen_uuid request w)
    as [old|] eqn:Ho.
  - destruct (Hu _ _ Ho) as [Huo Hwo].
    pose proof (register_rebind _ _ _ _ Hc Ho Hwo Huo) as Hrun.
    rewrite (output_app_items _ _ _ (f_equal (fun r => trace (snd r)) Hrun)).
    rewrite Hrun.
    cbn [snd self _websocket_to_client _uuid_to_client Client.uuid].
    split; [apply lookup_insert_eq|]. split; [apply lookup_insert_eq|].
    done.
  - pose proof (register_fresh _ _ _ Hc Ho) as Hrun.
    rewrite (output_app_items _ _ _ (f_equal (fun r => trace (snd r)) Hrun)).
    rewrite Hrun.
    cbn [snd self _websocket_to_client _uuid_to_client Client.uuid].
    split; [apply lookup_insert_eq|]. split; [apply lookup_insert_eq|].
    done.
Qed.

(** X4. On a consistent registry, when [register] returns the transport is
    registered, the UUID index has the same client under its UUID, and the
    last thing sent is the [PeerRegistrationResponse] with that UUID, on that
    transport. A transport that was not registered gets the name of the
    request and the UUID of the request (or the one drawn for it). *)
Theorem register_binds_and_replies ws request w :
  consistent (self w) ->
  exists c,
    _websocket_to_client (self (snd (register ws request w))) !! ws = Some c /\
    _uuid_to_client (self (snd (register ws request w))) !! Client.uuid c
      = Some c /\
    last (output (register ws request) w)
      = Some (WsSend ws (registration_response (Client.uuid c))) /\
    (_websocket_to_client (self w) !! ws = None ->
     c = Client.mk (PeerRegistrationRequest.name request)
                   (chosen_uuid request w) ws).
Proof.
  intros Hcons.
  destruct (_websocket_to_client (self w) !! ws) as [c|] eqn:Hc.
  - exists c. pose proof (register_bound _ request _ _ Hc) as Hrun.
    rewrite (output_app_items _ _ _ (f_equal (fun r => trace (snd r)) Hrun)).
    rewrite Hrun. cbn [snd self]. split; [done|].
    split; [by apply (proj1 Hcons) in Hc as [_ Hc]|]. done.
  - destruct (register_new_transport ws request w Hcons Hc) as (H1 & H2 & H3).
    eexists. split; [exact H1|]. split; [exact H2|]. split; [exact H3|]. done.
Qed.

Lemma bind_run {A C} (m : M A) (k : A -> M C) w a w' :
  m w = (Ret a, w') -> (x <- m ;; k x) w = k a w'.
Proof. intros Hm. unfold Eff.bind. by rewrite Hm. Qed.

Lemma handler_iteration_registration ws data request w :
  deserialize data = Some (MRegistrationRequest request) ->
  handler_iteration ws (Frame data) w
    = (Ret Continue, snd (register ws request w)).
Proof.
  intros Hd. unfold handler_iteration. rewrite Hd. unfold Eff.bind, Eff.ret.
  pose proof (register_ret ws request w) as Hr.
  destruct (register ws request w) as [[[]|e] w']; cbn in *; [done|].
  discriminate Hr.
Qed.

Lemma handler_iteration_closed_ok ws w :
  handler_iteration ws ConnectionClosedOK w
    = (Ret Break, snd (unregister ws true w)).
Proof.
  unfold handler_iteration, Eff.bind, Eff.ret.
  pose proof (unregister_ret ws true w) as Hr.
  destruct (unregister ws true w) as [[[]|e] w']; cbn in *; [done|].
  discriminate Hr.
Qed.

(** X5. A session that registers on a new transport, under a UUID nobody
    holds, and then closes cleanly leaves the registry exactly as it found
    it; what the server did on the transport is to send the registration
    response and to close it with code 1000. *)
Theorem register_then_close_restores_registry ws data request w :
  _websocket_to_client (self w) !! ws = None ->
  deserialize data = Some (MRegistrationRequest request) ->
  _uuid_to_client (self w) !! chosen_uuid request w = None ->
  let session := handler ws [Frame data; ConnectionClosedOK] in
  fst (session w) = Ret tt /\
  self (snd (session w)) = self w /\
  output session w
    = [WsSend ws (registration_response (chosen_uuid request w));
       WsClose ws 1000%Z].
Proof.
  intros Hw Hd Hu session.
  assert (Hrun : session w =
    (Ret tt,
     mkWorld (self w)
       (trace w ++
          [Logged Info LogListening;
           Logged Info
             (LogRegistered
                (Client.mk (PeerRegistrationRequest.name request)
                           (chosen_uuid request w) ws));
           Await (WsSend ws (registration_response (chosen_uuid request w)))
             (mkServer
                (<[ws := Client.mk (PeerRegistrationRequest.name request)
                           (chosen_uuid request w) ws]>
                   (_websocket_to_client (self w)))
                (<[chosen_uuid request w :=
                     Client.mk (PeerRegistrationRequest.name request)
                       (chosen_uuid request w) ws]> (_uuid_to_client (self w))));
           Logged Info
             (LogUnregistering
                (Client.mk (PeerRegistrationRequest.name request)
                           (chosen_uuid request w) ws) "ok");
           Await (WsClose ws 1000%Z) (self w)])
       (uuid_source w) (draws request + uuid_count w))).
  { unfold session, handler.
    rewrite (bind_run _ _ _ _ _ (eq_refl : log Info LogListening w = (Ret tt, _))).
    set (w0 := mkWorld _ _ _ _).
    assert (Hw0 : _websocket_to_client (self w0) !! ws = None) by exact Hw.
    assert (Hu0 : _uuid_to_client (self w0) !! chosen_uuid request w0 = None)
      by exact Hu.
    cbn [handler_loop].
    rewrite (bind_run _ _ _ _ _
               (handler_iteration_registration _ _ _ _ Hd)).
    rewrite (register_fresh _ _ _ Hw0 Hu0). cbn [snd].
    set (c := Client.mk _ _ _). set (w1 := mkWorld _ _ _ _).
    rewrite (bind_run _ _ _ _ _ (handler_iteration_closed_ok _ _)).
    assert (Hw1 : _websocket_to_client (self w1) !! ws = Some c)
      by apply lookup_insert_eq.
    rewrite (unregister_present _ _ _ _ Hw1).
    unfold Eff.ret, w1, w0, c.
    cbn [snd self trace uuid_source uuid_count _websocket_to_client
         _uuid_to_client Client.uuid Client.websocket].
    change (chosen_uuid request (mkWorld (self w)
              (trace w ++ [Logged Info LogListening])
              (uuid_source w) (uuid_count w))) with (chosen_uuid request w).
    rewrite !delete_insert_id by done.
    rewrite server_eta. rewrite <- !app_assoc. reflexivity. }
  rewrite (output_app_items _ _ _ (f_equal (fun r => trace (snd r)) Hrun)).
  by rewrite Hrun.
Qed.

(** X6. When the codec gives back the frame it decoded, a
    [PeerConnectionMessage] frame from a registered transport to a
    registered peer goes out on the peer's transport byte for byte, and
    nothing else is sent. *)
Theorem relay_forwards_frame_unchanged ws data message w sender target :
  deserialize data = Some (MConnection message) ->
  serialize (MConnection message) = data ->
  _websocket_to_client (self w) !! ws = Some sender ->
  _uuid_to_client (self w) !! PeerConnectionMessage.peer_uuid message
    = Some target ->
  output (handler_iteration ws (Frame data)) w
    = [WsSend (Client.websocket target) data].
Proof.
  intros Hd Hs Hw Hu.
  assert (Hrun : trace (snd (handler_iteration ws (Frame data) w)) =
    (trace w ++
       [Logged Info
          (LogTransmitting sender (PeerConnectionMessage.peer_uuid message));
        Await (WsSend (Client.websocket target) data) (self w)])%list).
  { unfold handler_iteration. rewrite Hd, snd_bind_ret.
    unfold Eff.bind at 1, get_self. rewrite Hw.
    rewrite (connect_forward _ _ _ _ _ Hw Hu). cbn. by rewrite Hs. }
  by rewrite (output_app_items _ _ _ Hrun).
Qed.

(** X7. Once a transport is unregistered its UUID is unknown: a message
    that any still registered client then addresses to that UUID comes back
    to the sender with a [PeerUnknownError], and goes nowhere else. *)
Theorem unregistered_peer_is_unknown ws_gone expected gone ws message w sender :
  _websocket_to_client (self w) !! ws_gone = Some gone ->
  let w' := snd (unregister ws_gone expected w) in
  _websocket_to_client (self w') !! ws = Some sender ->
  PeerConnectionMessage.peer_uuid message = Client.uuid gone ->
  output (connect ws message) w'
    = [WsSend ws
         (serialize
            (MConnection
               (PeerConnectionMessage.mk
                  (Client.uuid sender) (Client.name sender)
                  (Client.uuid gone) None
                  (Some (PeerUnknownError
                           ("peer " ++ PyUUID.str (Client.uuid gone)
                              ++ " is unknown"))))))].
Proof.
  intros Hg w' Hs Hp.
  assert (Hu : _uuid_to_client (self w')
                 !! PeerConnectionMessage.peer_uuid message = None).
  { unfold w'. rewrite (unregister_present _ _ _ _ Hg), Hp. cbn.
    apply lookup_delete_eq. }
  pose proof (connect_unknown _ _ _ _ Hs Hu) as Hrun.
  rewrite (output_app_items _ _ _ (f_equal (fun r => trace (snd r)) Hrun)).
  cbn. by rewrite Hp.
Qed.

End SignalingSessionFacts.

Section HandshakeFacts.
Context {wire : Serializer}.

(** X9. Client and server agree. The client's [connect] opens a transport
    the server does not know yet and sends its request; the server's handler
    decodes the frame and registers; the client receives the last frame the
    server sent on the transport and decodes it. Then [connect] returns the
    UUID and the name under which the server now holds that transport: the
    UUID asked for (or the one the server drew), and the name given (or the
    host name). *)
Theorem client_server_handshake env address uuid name timeout ws w data :
  let request :=
    PeerRegistrationRequest.mk uuid (SignalingClient.name_used env name) in
  let frame := serialize (MRegistrationRequest request) in
  let server := Signaling.handler_iteration ws (Signaling.Frame frame) in
  let u := Signaling.chosen_uuid request w in
  SignalingClient.ws_connect env ("ws://" ++ address)
    (SignalingClient.open_timeout env timeout) = inr ws ->
  SignalingClient.ws_send env ws frame = None ->
  Signaling.consistent (Signaling.self w) ->
  Signaling._websocket_to_client (Signaling.self w) !! ws = None ->
  deserialize frame = Some (MRegistrationRequest request) ->
  last (Signaling.output server w) = Some (Signaling.WsSend ws data) ->
  SignalingClient.ws_recv env ws timeout = SignalingClient.Received data ->
  deserialize (Signaling.registration_response u)
    = Some (MRegistrationResponse (PeerRegistrationResponse.mk u None)) ->
  SignalingClient.connect env address uuid name timeout
    = Ret (u, SignalingClient.name_used env name, ws) /\
  Signaling._websocket_to_client (Signaling.self (snd (server w))) !! ws
    = Some (Signaling.Client.mk (SignalingClient.name_used env name) u ws).
Proof.
  intros request frame server u Hopen Hsend Hcons Hnew Hreq Hlast Hrecv Hresp.
  assert (Hsrv : server w = (Ret Signaling.Continue,
                             snd (Signaling.register ws request w)))
    by apply (handler_iteration_registration _ _ _ _ Hreq).
  destruct (register_new_transport ws request w Hcons Hnew)
    as (Hc & _ & Hl).
  assert (Hout : Signaling.output server w
                 = Signaling.output (Signaling.register ws request) w).
  { unfold Signaling.output, Signaling.added. by rewrite Hsrv. }
  rewrite Hout, Hl in Hlast. injection Hlast as <-. cbn in Hresp.
  split.
  - unfold SignalingClient.connect, SignalingClient.open_timeout,
      SignalingClient.name_used in *.
    assert (Hname : match name with
                    | Some n => n
                    | None => SignalingClient.gethostname env
                    end = default (SignalingClient.gethostname env) name)
      by (by destruct name).
    rewrite Hname, Hopen. fold request. fold frame. rewrite Hsend, Hrecv.
    fold u. by rewrite Hresp.
  - by rewrite Hsrv.
Qed.

End HandshakeFacts.

Section SignalingSessionExamples.
Import Signaling.

(** X2, witness: alice, registered on transport 1, sends a
    [PeerConnectionMessage]. *)
Lemma other_frames_keep_registry_witness :
  let w := Examples.alice_registered in
  (forall m, deserialize (Serializer := Examples.wire) [x03] = Some m ->
             is_registration_request m = false) /\
  self (snd (handler_iteration (wire := Examples.wire) 1 (Frame [x03]) w))
    = self w.
Proof.
  intros w.
  assert (Hm : forall m, deserialize (Serializer := Examples.wire) [x03] = Some m ->
                         is_registration_request m = false).
  { intros m Hd. cbn in Hd. injection Hd as <-. reflexivity. }
  split; [exact Hm|].
  exact (other_frames_keep_registry (wire := Examples.wire) 1 [x03] w Hm).
Defined.

(** X5, witness: alice registers on a fresh server and leaves. *)
Lemma register_then_close_restores_registry_witness :
  let w := boot Examples.source in
  let request := Examples.alice_request in
  let session :=
    handler (wire := Examples.wire) 1 [Frame [x01]; ConnectionClosedOK] in
  _websocket_to_client (self w) !! 1 = None /\
  deserialize (Serializer := Examples.wire) [x01]
    = Some (MRegistrationRequest request) /\
  _uuid_to_client (self w) !! chosen_uuid request w = None /\
  fst (session w) = Ret tt /\
  self (snd (session w)) = self w /\
  output session w
    = [WsSend 1 (registration_response (wire := Examples.wire)
                   (chosen_uuid request w));
       WsClose 1 1000%Z].
Proof.
  intros w request session.
  assert (H1 : _websocket_to_client (self w) !! 1 = None) by reflexivity.
  assert (H2 : deserialize (Serializer := Examples.wire) [x01]
               = Some (MRegistrationRequest request)) by reflexivity.
  assert (H3 : _uuid_to_client (self w) !! chosen_uuid request w = None)
    by reflexivity.
  split; [exact H1|]. split; [exact H2|]. split; [exact H3|].
  exact (register_then_close_restores_registry (wire := Examples.wire)
           1 [x01] request w H1 H2 H3).
Defined.

(** X6, witness: bob, on transport 2, sends a message for alice, who is on
    transport 1. *)
Lemma relay_forwards_frame_unchanged_witness :
  let w := MoreExamples.two_registered in
  let message := Examples.note_to_self in
  let sender := Client.mk "bob" 8 2 in
  let target := Client.mk "alice" 7 1 in
  deserialize (Serializer := Examples.wire) [x03] = Some (MConnection message) /\
  serialize (Serializer := Examples.wire) (MConnection message) = [x03] /\
  _websocket_to_client (self w) !! 2 = Some sender /\
  _uuid_to_client (self w) !! PeerConnectionMessage.peer_uuid message
    = Some target /\
  output (handler_iteration (wire := Examples.wire) 2 (Frame [x03])) w
    = [WsSend (Client.websocket target) [x03]].
Proof.
  intros w message sender target.
  assert (H1 : deserialize (Serializer := Examples.wire) [x03]
               = Some (MConnection message)) by reflexivity.
  assert (H2 : serialize (Serializer := Examples.wire) (MConnection message)
               = [x03]) by reflexivity.
  assert (H3 : _websocket_to_client (self w) !! 2 = Some sender) by reflexivity.
  assert (H4 : _uuid_to_client (self w) !! PeerConnectionMessage.peer_uuid message
               = Some target) by reflexivity.
  split; [exact H1|]. split; [exact H2|]. split; [exact H3|]. split; [exact H4|].
  exact (relay_forwards_frame_unchanged (wire := Examples.wire)
           2 [x03] message w sender target H1 H2 H3 H4).
Defined.

(** X7, witness: alice is unregistered, then bob writes to her. *)
Lemma unregistered_peer_is_unknown_witness :
  let w := MoreExamples.two_registered in
  let gone := Client.mk "alice" 7 1 in
  let sender := Client.mk "bob" 8 2 in
  let message := MoreExamples.note_to_alice in
  _websocket_to_client (self w) !! 1 = Some gone /\
  let w' := snd (unregister 1 true w) in
  _websocket_to_client (self w') !! 2 = Some sender /\
  PeerConnectionMessage.peer_uuid message = Client.uuid gone /\
  output (connect (wire := Examples.wire) 2 message) w'
    = [WsSend 2
         (serialize (Serializer := Examples.wire)
            (MConnection
               (PeerConnectionMessage.mk
                  (Client.uuid sender) (Client.name sender)
                  (Client.uuid gone) None
                  (Some (PeerUnknownError
                           ("peer " ++ PyUUID.str (Client.uuid gone)
                              ++ " is unknown"))))))].
Proof.
  intros w gone sender message.
  assert (Hg : _websocket_to_client (self w) !! 1 = Some gone) by reflexivity.
  split; [exact Hg|]. intros w'.
  assert (Hs : _websocket_to_client (self w') !! 2 = Some sender) by reflexivity.
  assert (Hp : PeerConnectionMessage.peer_uuid message = Client.uuid gone)
    by reflexivity.
  split; [exact Hs|]. split; [exact Hp|].
  exact (unregistered_peer_is_unknown (wire := Examples.wire)
           1 true gone 2 message w sender Hg Hs Hp).
Defined.

(** X4, witness: bob registers on transport 2 of the server alice is
    registered on. *)
Lemma register_binds_and_replies_witness :
  let w := Examples.alice_registered in
  let request := MoreExamples.bob_request in
  consistent (self w) /\
  exists c,
    _websocket_to_client
      (self (snd (register (wire := Examples.wire) 2 request w))) !! 2
      = Some c /\
    _uuid_to_client
      (self (snd (register (wire := Examples.wire) 2 request w)))
      !! Client.uuid c = Some c /\
    last (output (register (wire := Examples.wire) 2 request) w)
      = Some (WsSend 2 (registration_response (wire := Examples.wire)
                          (Client.uuid c))) /\
    (_websocket_to_client (self w) !! 2 = None ->
     c = Client.mk (PeerRegistrationRequest.name request)
                   (chosen_uuid request w) 2).
Proof.
  intros w request.
  assert (Hc : consistent (self w)) by exact (proj1 alice_registered_good).
  split; [exact Hc|].
  exact (register_binds_and_replies (wire := Examples.wire) 2 request w Hc).
Defined.

End SignalingSessionExamples.

Section HandshakeExamples.
Import SignalingClient.

(** X9, witness: alice connects, asking for UUID 7, to a fresh server that
    sees her on transport 5. *)
Lemma client_server_handshake_witness :
  let env := Examples.answering [x02] in
  let w := Signaling.boot Examples.source in
  let request := PeerRegistrationRequest.mk (Some 7%N)
                   (name_used env (Some "alice")) in
  let frame := serialize (Serializer := Examples.wire)
                 (MRegistrationRequest request) in
  let server := Signaling.handler_iteration (wire := Examples.wire) 5
                  (Signaling.Frame frame) in
  let u := Signaling.chosen_uuid request w in
  ws_connect env ("ws://" ++ "relay:8765") (open_timeout env 10) = inr 5 /\
  ws_send env 5 frame = None /\
  Signaling.consistent (Signaling.self w) /\
  Signaling._websocket_to_client (Signaling.self w) !! 5 = None /\
  deserialize (Serializer := Examples.wire) frame
    = Some (MRegistrationRequest request) /\
  last (Signaling.output server w) = Some (Signaling.WsSend 5 [x02]) /\
  ws_recv env 5 10 = Received [x02] /\
  deserialize (Serializer := Examples.wire)
    (Signaling.registration_response (wire := Examples.wire) u)
    = Some (MRegistrationResponse (PeerRegistrationResponse.mk u None)) /\
  connect (wire := Examples.wire) env "relay:8765" (Some 7%N) (Some "alice") 10
    = Ret (u, name_used env (Some "alice"), 5) /\
  Signaling._websocket_to_client (Signaling.self (snd (server w))) !! 5
    = Some (Signaling.Client.mk (name_used env (Some "alice")) u 5).
Proof.
  intros env w request frame server u.
  assert (H1 : ws_connect env ("ws://" ++ "relay:8765") (open_timeout env 10)
               = inr 5) by reflexivity.
  assert (H2 : ws_send env 5 frame = None) by reflexivity.
  assert (H0 : Signaling.consistent (Signaling.self w))
    by exact consistent_init.
  assert (H3 : Signaling._websocket_to_client (Signaling.self w) !! 5 = None)
    by reflexivity.
  assert (H4 : deserialize (Serializer := Examples.wire) frame
               = Some (MRegistrationRequest request)) by reflexivity.
  assert (H5 : last (Signaling.output server w)
               = Some (Signaling.WsSend 5 [x02])) by reflexivity.
  assert (H6 : ws_recv env 5 10 = Received [x02]) by reflexivity.
  assert (H7 : deserialize (Serializer := Examples.wire)
                 (Signaling.registration_response (wire := Examples.wire) u)
               = Some (MRegistrationResponse (PeerRegistrationResponse.mk u None)))
    by reflexivity.
  split; [exact H1|]. split; [exact H2|]. split; [exact H0|]. split; [exact H3|].
  split; [exact H4|]. split; [exact H5|]. split; [exact H6|]. split; [exact H7|].
  exact (client_server_handshake (wire := Examples.wire)
           env "relay:8765" (Some 7%N) (Some "alice") 10 5 w [x02]
           H1 H2 H0 H3 H4 H5 H6 H7).
Defined.

End HandshakeExamples.

(** ** Sessions with a codec that raises *)
Section SessionFacts.
Import Signaling.
Context {codec : Session.Codec}.

(** On what the handler gets past, the loop body is the one of
    [Signaling], for the codec seen as a serializer. *)
Lemma session_iteration_agrees ws r w :
  Session.survives r ->
  Session.handler_iteration ws r w
    = handler_iteration (wire := Session.wire_of codec) ws r w.
Proof.
  destruct r as [data| |]; [|done|done]. cbn. intros Hs.
  destruct (Session.decode data) as [e|message] eqn:Hd; [|done].
  by rewrite (Hs e eq_refl).
Qed.

Lemma session_iteration_raises ws data e w :
  Session.decode data = inl e -> e <> SerializationError ->
  Session.handler_iteration ws (Frame data) w = (Raise e, w).
Proof. intros Hd He. cbn. rewrite Hd. by destruct e. Qed.

Lemma session_iteration_ret ws r w :
  Session.survives r ->
  fst (Session.handler_iteration ws r w)
    = Ret (match r with Frame _ => Continue | _ => Break end).
Proof.
  intros Hs. rewrite (session_iteration_agrees _ _ _ Hs).
  apply handler_iteration_ret.
Qed.

Lemma session_loop_frames ws frames w :
  Forall Session.is_frame frames ->
  Forall Session.survives frames ->
  exists w',
    Session.handler_loop ws frames w = (Ret tt, w') /\
    forall rest,
      Session.handler_loop ws (frames ++ rest) w
        = Session.handler_loop ws rest w'.
Proof.
  intros Hf. revert w. induction Hf as [|r frames [data ->] Hf IH]; intros w Hs.
  - exists w. done.
  - apply Forall_cons in Hs as [Hr Hs].
    pose proof (session_iteration_ret ws (Frame data) w Hr) as Hit.
    cbn [app Session.handler_loop]. unfold Eff.bind.
    destruct (Session.handler_iteration ws (Frame data) w) as [[ctl|e] w1];
      cbn in Hit; [|discriminate Hit].
    injection Hit as ->. by apply IH.
Qed.

Lemma session_loop_ret ws inbox w :
  Forall Session.survives inbox ->
  fst (Session.handler_loop ws inbox w) = Ret tt.
Proof.
  intros Hs. revert w. induction Hs as [|r inbox Hr Hs IH]; intros w; [done|].
  pose proof (session_iteration_ret ws r w Hr) as Hit.
  cbn [Session.handler_loop]. unfold Eff.bind.
  destruct (Session.handler_iteration ws r w) as [[ctl|e] w1];
    cbn in Hit; [|discriminate Hit].
  destruct ctl; [apply IH|done].
Qed.

(** X1. With transports on which every send and close succeeds, the one
    thing that comes out of the handler is what [deserialize] raises other
    than [SerializationError]. When every frame received decodes, or fails
    to decode with [SerializationError], the handler returns; in particular
    the [KeyError] of [connect] on an unregistered transport never comes out
    of it. At the first frame on which [deserialize] raises something else,
    the handler ends with that exception, in the state the frames before
    left: nothing is unregistered, and a transport that was registered stays
    so. *)
Theorem handler_raises_only_codec_errors ws inbox w :
  (Forall Session.survives inbox ->
   fst (Session.handler ws inbox w) = Ret tt) /\
  (forall before data rest e,
     inbox = (before ++ Frame data :: rest)%list ->
     Forall Session.is_frame before ->
     Forall Session.survives before ->
     Session.decode data = inl e ->
     e <> SerializationError ->
     Session.handler ws inbox w
       = (Raise e, snd (Session.handler ws before w))).
Proof.
  unfold Session.handler, Eff.bind at 1 2 3. cbn.
  set (w0 := mkWorld _ _ _ _). split.
  - intros Hs. apply session_loop_ret, Hs.
  - intros before data rest e -> Hf Hs Hd He.
    destruct (session_loop_frames ws before w0 Hf Hs) as (w1 & Hrun & Hrest).
    rewrite Hrest, Hrun. cbn [Session.handler_loop snd]. unfold Eff.bind.
    by rewrite (session_iteration_raises _ _ _ _ Hd He).
Qed.

(** X3. When every frame before it decodes, or fails to decode with
    [SerializationError], a session ends at the first closed connection:
    whatever is queued after it is never looked at, the handler returns, and
    the transport is out of the registry when it does. *)
Theorem handler_stops_at_close ws frames closed rest w :
  Forall Session.is_frame frames ->
  Forall Session.survives frames ->
  (forall data, closed <> Frame data) ->
  Session.handler ws (frames ++ closed :: rest) w
    = Session.handler ws (frames ++ [closed]) w /\
  fst (Session.handler ws (frames ++ closed :: rest) w) = Ret tt /\
  _websocket_to_client
    (self (snd (Session.handler ws (frames ++ closed :: rest) w))) !! ws
    = None.
Proof.
  intros Hf Hs Hc. unfold Session.handler, Eff.bind at 1 2 3 4. cbn.
  set (w0 := mkWorld _ _ _ _).
  destruct (session_loop_frames ws frames w0 Hf Hs) as (w1 & _ & Hrest).
  rewrite !Hrest. cbn [Session.handler_loop]. unfold Eff.bind.
  assert (Hsurv : Session.survives closed).
  { destruct closed as [data| |]; [by destruct (Hc data)|done|done]. }
  pose proof (session_iteration_ret ws closed w1 Hsurv) as Hit.
  assert (Hsnd : _websocket_to_client
            (self (snd (Session.handler_iteration ws closed w1))) !! ws = None).
  { rewrite (session_iteration_agrees _ _ _ Hsurv).
    destruct closed as [data| |]; [by destruct (Hc data)| |];
      unfold handler_iteration; rewrite snd_bind_ret;
      apply unregister_removes. }
  destruct (Session.handler_iteration ws closed w1) as [[ctl|e] w2];
    cbn in Hit, Hsnd; [|discriminate Hit].
  destruct closed as [data| |]; [by destruct (Hc data)| |];
    injection Hit as ->; done.
Qed.

End SessionFacts.

Section SessionExamples.
Import Signaling.

(** X1, witness: alice registers on transport 1, then sends a frame on
    which decoding raises [ValueError]; the handler ends with it, and alice
    stays registered. *)
Lemma handler_raises_only_codec_errors_witness :
  let w := boot Examples.source in
  let before := [Frame [x01]] in
  let inbox := (before ++ Frame [x06] :: [ConnectionClosedOK])%list in
  let e := ValueError "invalid load key" in
  inbox = (before ++ Frame [x06] :: [ConnectionClosedOK])%list /\
  Forall (Session.is_frame) before /\
  Forall (Session.survives (codec := MoreEnvironments.codec)) before /\
  Session.decode (Codec := MoreEnvironments.codec) [x06] = inl e /\
  e <> SerializationError /\
  Session.handler (codec := MoreEnvironments.codec) 1 inbox w
    = (Raise e, snd (Session.handler (codec := MoreEnvironments.codec)
                       1 before w)) /\
  _websocket_to_client
    (self (snd (Session.handler (codec := MoreEnvironments.codec) 1 inbox w)))
    !! 1 = Some (Client.mk "alice" 7 1).
Proof.
  intros w before inbox e.
  assert (H1 : inbox = (before ++ Frame [x06] :: [ConnectionClosedOK])%list)
    by reflexivity.
  assert (H2 : Forall (Session.is_frame) before).
  { repeat constructor. by eexists. }
  assert (H3 : Forall (Session.survives (codec := MoreEnvironments.codec))
                 before).
  { repeat constructor. intros e' He'. discriminate He'. }
  assert (H4 : Session.decode (Codec := MoreEnvironments.codec) [x06] = inl e)
    by reflexivity.
  assert (H5 : e <> SerializationError) by discriminate.
  split; [exact H1|]. split; [exact H2|]. split; [exact H3|].
  split; [exact H4|]. split; [exact H5|].
  split; [|reflexivity].
  exact (proj2 (handler_raises_only_codec_errors
                  (codec := MoreEnvironments.codec) 1 inbox w)
           before [x06] [ConnectionClosedOK] e H1 H2 H3 H4 H5).
Defined.

(** X3, witness: a registration request, a clean close, and a frame that
    is never read. *)
Lemma handler_stops_at_close_witness :
  let w := boot Examples.source in
  let frames := [Frame [x01]] in
  let rest := [Frame [x06]] in
  Forall (Session.is_frame) frames /\
  Forall (Session.survives (codec := MoreEnvironments.codec)) frames /\
  (forall data, ConnectionClosedOK <> Frame data) /\
  Session.handler (codec := MoreEnvironments.codec) 1
    (frames ++ ConnectionClosedOK :: rest) w
    = Session.handler (codec := MoreEnvironments.codec) 1
        (frames ++ [ConnectionClosedOK]) w /\
  fst (Session.handler (codec := MoreEnvironments.codec) 1
         (frames ++ ConnectionClosedOK :: rest) w) = Ret tt /\
  _websocket_to_client
    (self (snd (Session.handler (codec := MoreEnvironments.codec) 1
                  (frames ++ ConnectionClosedOK :: rest) w))) !! 1 = None.
Proof.
  intros w frames rest.
  assert (Hf : Forall (Session.is_frame) frames).
  { repeat constructor. by eexists. }
  assert (Hs : Forall (Session.survives (codec := MoreEnvironments.codec))
                 frames).
  { repeat constructor. intros e' He'. discriminate He'. }
  assert (Hc : forall data, ConnectionClosedOK <> Frame data) by discriminate.
  split; [exact Hf|]. split; [exact Hs|]. split; [exact Hc|].
  exact (handler_stops_at_close (codec := MoreEnvironments.codec)
           1 frames ConnectionClosedOK rest w Hf Hs Hc).
Defined.

End SessionExamples.

(** ** What the signaling client returns *)
Section SignalingClientReturnFacts.
Import SignalingClient.
Context {wire : Serializer}.

(** X23. [connect] returns only what the server said. When it returns, the
    connection was opened on the transport returned, the request was sent
    with the name returned, which is the name given or the host name, and a
    frame arrived in time that decodes to a [PeerRegistrationResponse]
    without an error, whose UUID is the one returned: the [uuid] argument
    reaches the result through the server's answer only. *)
Theorem connect_returns_what_server_said
    env address uuid name timeout u registered websocket :
  connect env address uuid name timeout = Ret (u, registered, websocket) ->
  registered = name_used env name /\
  ws_connect env ("ws://" ++ address) (open_timeout env timeout)
    = inr websocket /\
  ws_send env websocket
    (serialize (MRegistrationRequest
                  (PeerRegistrationRequest.mk uuid registered))) = None /\
  exists data m,
    ws_recv env websocket timeout = Received data /\
    deserialize data = Some (MRegistrationResponse m) /\
    PeerRegistrationResponse.error m = None /\
    PeerRegistrationResponse.uuid m = u.
Proof.
  unfold connect, open_timeout, name_used.
  assert (Hname : match name with Some n => n | None => gethostname env end
                  = default (gethostname env) name) by (by destruct name).
  rewrite Hname.
  destruct (ws_connect env _ _) as [e|ws] eqn:Hopen; [discriminate|].
  destruct (ws_send env ws _) as [e|] eqn:Hsend; [discriminate|].
  destruct (ws_recv env ws timeout) as [data| |] eqn:Hrecv; try discriminate.
  destruct (deserialize data) as [[r|m|r|r|r]|] eqn:Hd; try discriminate.
  destruct (PeerRegistrationResponse.error m) as [e|] eqn:He; [discriminate|].
  intros [= <- <- <-]. rewrite Hrecv. eauto 10.
Qed.

End SignalingClientReturnFacts.

Section SignalingClientReturnExamples.
Import SignalingClient.

(** X23, witness: a client asking for UUID 9 of a server that answers with
    UUID 7. *)
Lemma connect_returns_what_server_said_witness :
  let env := Examples.answering [x02] in
  connect (wire := Examples.wire) env "relay:8765" (Some 9%N) None 10
    = Ret (7%N, "host-a", 5) /\
  "host-a" = name_used env None /\
  ws_connect env ("ws://" ++ "relay:8765") (open_timeout env 10) = inr 5 /\
  ws_send env 5
    (serialize (Serializer := Examples.wire)
       (MRegistrationRequest
          (PeerRegistrationRequest.mk (Some 9%N) "host-a"))) = None /\
  exists data m,
    ws_recv env 5 10 = Received data /\
    deserialize (Serializer := Examples.wire) data
      = Some (MRegistrationResponse m) /\
    PeerRegistrationResponse.error m = None /\
    PeerRegistrationResponse.uuid m = 7%N.
Proof.
  intros env.
  assert (H : connect (wire := Examples.wire) env "relay:8765" (Some 9%N)
                None 10 = Ret (7%N, "host-a", 5)) by reflexivity.
  split; [exact H|].
  exact (connect_returns_what_server_said (wire := Examples.wire) env
           "relay:8765" (Some 9%N) None 10 7%N "host-a" 5 H).
Defined.

End SignalingClientReturnExamples.

(** ** The constructor of the endpoint connector *)
Lemma append_length (s t : string) :
  String.length (s ++ t) = String.length s + String.length t.
Proof.
  induction s as [|a s IH]; [done|].
  change (S (String.length (s ++ t)) = S (String.length s + String.length t)).
  by rewrite IH.
Qed.

Lemma append_inj_r (s s' t : string) : s ++ t = s' ++ t -> s = s'.
Proof.
  revert s'. induction s as [|a s IH]; intros [|a' s'] Heq.
  - done.
  - apply (f_equal String.length) in Heq.
    rewrite !append_length in Heq. cbn in Heq. lia.
  - apply (f_equal String.length) in Heq.
    rewrite !append_length in Heq. cbn in Heq. lia.
  - injection Heq as -> Heq. by rewrite (IH _ Heq).
Qed.

Section ConnectorFacts.
Import Connector.
Context (env : Host).

Lemma comprehension_reads endpoints events :
  (exists us, comprehension (to_uuid env) endpoints events = (Ret us, events)
              /\ Forall2 (reads env) endpoints us)
  \/ (exists msg s, comprehension (to_uuid env) endpoints events
                  = (Raise (ValueError msg), events)
                /\ AsStr s ∈ endpoints /\ uuid_hex env s = inl msg).
Proof.
  induction endpoints as [|e endpoints IH].
  - left. exists []. split; [done|constructor].
  - cbn [comprehension]. unfold Eff.bind.
    destruct e as [u|s]; cbn.
    + destruct IH as [(us & -> & Hus)|(msg & s & -> & Hin & Hs)].
      * left. exists (u :: us). split; [done|]. by constructor.
      * right. exists msg, s. split; [done|]. split; [|done].
        apply elem_of_cons; by right.
    + destruct (uuid_hex env s) as [message|int] eqn:Hs; cbn.
      * right. exists message, s. split; [done|]. split; [|done].
        apply elem_of_cons; by left.
      * destruct IH as [(us & -> & Hus)|(msg & s' & -> & Hin & Hs')].
        -- left. exists (with_version 4 int :: us). split; [done|].
           constructor; [by exists int|done].
        -- right. exists msg, s'. split; [done|]. split; [|done].
           apply elem_of_cons; by right.
Qed.

Lemma comprehension_reads_inv endpoints us events :
  Forall2 (reads env) endpoints us ->
  comprehension (to_uuid env) endpoints events = (Ret us, events).
Proof.
  intros H. induction H as [|e u endpoints us He H IH]; [done|].
  cbn [comprehension]. unfold Eff.bind.
  destruct e as [u'|s]; cbn in *.
  - subst u'. by rewrite IH.
  - destruct He as (int & -> & ->). cbn. by rewrite IH.
Qed.

(** What one pass through the loop body does. *)
Lemma probe_cases (endpoints : list UUID) c events :
  (((EndpointConfig.uuid c ∉ endpoints) /\
    probe env endpoints c events = (Ret None, events))
  \/ (EndpointConfig.uuid c ∈ endpoints /\
      ((exists e, requests_get env (probe_url c) = inl e /\
          probe env endpoints c events
            = (Raise e,
               events ++ [LogAttempting (EndpointConfig.uuid c);
                          Get (probe_url c)])%list)
       \/ (exists response e,
             requests_get env (probe_url c) = inr response /\
             Response.status_code response = 200%Z /\
             Response.json_uuid response = inl e /\
             probe env endpoints c events
               = (Raise e,
               events ++ [LogAttempting (EndpointConfig.uuid c);
                          Get (probe_url c)])%list)
       \/ (passed_over env c /\
           exists line,
             (line = LogFailed (EndpointConfig.uuid c) \/
              line = LogDifferentUUID (EndpointConfig.uuid c)) /\
             probe env endpoints c events
               = (Ret None,
                  events ++ [LogAttempting (EndpointConfig.uuid c);
                             Get (probe_url c); line])%list)
       \/ (answers env c /\
           probe env endpoints c events
             = (Ret (Some c),
                events ++ [LogAttempting (EndpointConfig.uuid c);
                           Get (probe_url c);
                           LogSuccessful (EndpointConfig.uuid c)])%list)))).
Proof.
  set (u := EndpointConfig.uuid c). unfold probe. fold u.
  destruct (decide (u ∈ endpoints)) as [Hin|Hout].
  - right. split; [done|]. rewrite bool_decide_eq_true_2 by done.
    unfold request, emit, Eff.bind, Eff.modify, Eff.ret, Eff.raise.
    fold (probe_url c). cbn.
    destruct (requests_get env (probe_url c)) as [e|response] eqn:Hr; cbn.
    + left. exists e. split; [done|]. by rewrite <- app_assoc.
    + right. destruct (Z.eqb_spec (Response.status_code response) 200) as [Hs|Hs].
      * destruct (Response.json_uuid response) as [e|v] eqn:Hj; cbn.
        -- left. exists response, e. repeat (split; [done|]).
           by rewrite <- app_assoc.
        -- right. destruct (decide (Some (PyUUID.str u) = v)) as [Hv|Hv].
           ++ right. rewrite bool_decide_eq_true_2 by done. cbn.
              split; [|by rewrite <- !app_assoc].
              exists response. by subst v.
           ++ left. rewrite bool_decide_eq_false_2 by done. cbn.
              split.
              ** exists response. split; [done|]. right. exists v.
                 split; [done|]. intros Heq. apply Hv. by rewrite Heq.
              ** eexists. split; [by right|]. by rewrite <- !app_assoc.
      * right. left. split.
        -- exists response. split; [done|]. by left.
        -- eexists. split; [by left|]. by rewrite <- !app_assoc.
  - left. split; [done|]. by rewrite bool_decide_eq_false_2.
Qed.

Lemma requests_app l1 l2 : requests (l1 ++ l2) = (requests l1 ++ requests l2)%list.
Proof. apply omap_app. Qed.

(** The named endpoints among the configured ones, in order. *)
Lemma filter_named_cons (endpoints : list UUID) c (l : list EndpointConfig.t) :
  filter (fun e => EndpointConfig.uuid e ∈ endpoints) (c :: l)
  = if decide (EndpointConfig.uuid c ∈ endpoints)
    then c :: filter (fun e => EndpointConfig.uuid e ∈ endpoints) l
    else filter (fun e => EndpointConfig.uuid e ∈ endpoints) l.
Proof. by rewrite filter_cons. Qed.

Lemma find_some endpoints available events found events' :
  find env endpoints available events = (Ret (Some found), events') ->
  exists before after added,
    available = (before ++ found :: after)%list /\
    EndpointConfig.uuid found ∈ endpoints /\
    answers env found /\
    Forall (fun c => EndpointConfig.uuid c ∈ endpoints -> passed_over env c)
           before /\
    events' = (events ++ added)%list /\
    requests added
      = probe_url <$> filter (fun c => EndpointConfig.uuid c ∈ endpoints)
                        (before ++ [found])%list.
Proof.
  revert events. induction available as [|c available IH]; intros events.
  - discriminate.
  - cbn [find]. unfold Eff.bind.
    destruct (probe_cases endpoints c events)
      as [[Hout Hp]|[Hin [(e & _ & Hp)|[(r & e & _ & _ & _ & Hp)
                         |[(Hpass & line & Hline & Hp)|(Hans & Hp)]]]]];
      rewrite Hp; cbn; try discriminate.
    + intros Hf. destruct (IH _ Hf) as (before & after & added & -> & H1 & H2
                                        & H3 & -> & H4).
      exists (c :: before), after, added. repeat (split; [done|]).
      split; [by constructor|]. split; [done|].
      rewrite <- app_comm_cons, filter_named_cons, decide_False by done.
      done.
    + intros Hf. destruct (IH _ Hf) as (before & after & added & -> & H1 & H2
                                        & H3 & -> & H4).
      exists (c :: before), after,
        ([LogAttempting (EndpointConfig.uuid c); Get (probe_url c); line]
           ++ added)%list.
      repeat (split; [done|]).
      split; [by constructor|]. split; [by rewrite <- app_assoc|].
      rewrite requests_app, H4.
      rewrite <- app_comm_cons, filter_named_cons, decide_True by done.
      by destruct Hline as [->| ->].
    + intros [= <- <-]. exists [], available.
      exists [LogAttempting (EndpointConfig.uuid c); Get (probe_url c);
              LogSuccessful (EndpointConfig.uuid c)].
      split; [done|]. split; [done|]. split; [done|].
      split; [constructor|]. split; [done|].
      cbn [app]. rewrite filter_named_cons. rewrite decide_True by done. done.
Qed.

Lemma find_none endpoints available events :
  Forall (fun c => EndpointConfig.uuid c ∈ endpoints -> passed_over env c)
         available ->
  exists added,
    find env endpoints available events = (Ret None, (events ++ added)%list) /\
    requests added
      = probe_url <$> filter (fun c => EndpointConfig.uuid c ∈ endpoints)
                        available.
Proof.
  intros H. revert events.
  induction H as [|c available Hc H IH]; intros events.
  - exists []. by rewrite app_nil_r.
  - cbn [find]. unfold Eff.bind.
    destruct (probe_cases endpoints c events)
      as [[Hout Hp]|[Hin [(e & He & Hp)|[(r & e & Hr & Hs & Hj & Hp)
                         |[(Hpass & line & Hline & Hp)|(Hans & Hp)]]]]];
      rewrite Hp; cbv beta iota.
    + destruct (IH events) as (added & -> & Hreq). exists added.
      split; [done|]. by rewrite filter_named_cons, decide_False.
    + destruct (Hc Hin) as (r & Hr & _). congruence.
    + destruct (Hc Hin) as (r' & Hr' & [Hs'|(v & Hv & _)]); congruence.
    + destruct (IH (events ++ [LogAttempting (EndpointConfig.uuid c);
                               Get (probe_url c); line])%list)
        as (added & -> & Hreq).
      exists ([LogAttempting (EndpointConfig.uuid c); Get (probe_url c); line]
                ++ added)%list.
      split; [by rewrite <- app_assoc|].
      rewrite requests_app, Hreq, filter_named_cons, decide_True by done.
      by destruct Hline as [->| ->].
    + destruct Hans as (r & Hr & Hs & Hj).
      destruct (Hc Hin) as (r' & Hr' & [Hs'|(v & Hv & Hne)]); congruence.
Qed.

Lemma find_raises endpoints before c after e events :
  Forall (fun c => EndpointConfig.uuid c ∈ endpoints -> passed_over env c)
         before ->
  EndpointConfig.uuid c ∈ endpoints ->
  requests_get env (probe_url c) = inl e ->
  exists added,
    find env endpoints (before ++ c :: after) events
      = (Raise e, (events ++ added)%list) /\
    requests added
      = probe_url <$> filter (fun c => EndpointConfig.uuid c ∈ endpoints)
                        (before ++ [c])%list.
Proof.
  intros Hb Hin He. revert events.
  induction Hb as [|b before Hb Hbs IH]; intros events.
  - cbn [app find]. unfold Eff.bind.
    destruct (probe_cases endpoints c events)
      as [[Hout Hp]|[_ [(e' & He' & Hp)|[(r & e' & Hr & _ & _ & Hp)
                         |[(Hpass & line & Hline & Hp)|(Hans & Hp)]]]]];
      rewrite Hp; cbv beta iota.
    + done.
    + eexists. split; [by replace e' with e by congruence|].
      by rewrite filter_named_cons, decide_True.
    + congruence.
    + destruct Hpass as (r & Hr & _). congruence.
    + destruct Hans as (r & Hr & _). congruence.
  - rewrite <- !app_comm_cons. cbn [find]. unfold Eff.bind.
    destruct (probe_cases endpoints b events)
      as [[Hout Hp]|[Hbin [(e' & He' & Hp)|[(r & e' & Hr & Hs & Hj & Hp)
                         |[(Hpass & line & Hline & Hp)|(Hans & Hp)]]]]];
      rewrite Hp; cbv beta iota.
    + destruct (IH events) as (added & -> & Hreq). exists added.
      split; [done|]. by rewrite filter_named_cons, decide_False.
    + destruct (Hb Hbin) as (r & Hr & _). congruence.
    + destruct (Hb Hbin) as (r' & Hr' & [Hs'|(v & Hv & _)]); congruence.
    + destruct (IH (events ++ [LogAttempting (EndpointConfig.uuid b);
                               Get (probe_url b); line])%list)
        as (added & -> & Hreq).
      exists ([LogAttempting (EndpointConfig.uuid b); Get (probe_url b); line]
                ++ added)%list.
      split; [by rewrite <- app_assoc|].
      rewrite requests_app, Hreq, filter_named_cons, decide_True by done.
      by destruct Hline as [->| ->].
    + destruct Hans as (r & Hr & Hs & Hj).
      destruct (Hb Hbin) as (r' & Hr' & [Hs'|(v & Hv & Hne)]); congruence.
Qed.

Lemma init_run endpoints us proxystore_dir events :
  endpoints <> [] ->
  Forall2 (reads env) endpoints us ->
  init env endpoints proxystore_dir events =
    match find env us (get_configs env (directory env proxystore_dir)) events with
    | (Ret (Some found), events') =>
        (Ret (Endpoint.mkConnector us proxystore_dir
                (EndpointConfig.uuid found) (EndpointConfig.host found)
                (EndpointConfig.port found)
                (base_url (EndpointConfig.host found)
                          (EndpointConfig.port found))), events')
    | (Ret None, events') =>
        (Raise (EndpointConnectorError
                  ("Failed to find endpoint configuration matching one of the "
                     ++ "provided endpoint UUIDs.")), events')
    | (Raise e, events') => (Raise e, events')
    end.
Proof.
  intros Hne Hus. unfold init.
  rewrite bool_decide_eq_false_2 by (by destruct endpoints).
  unfold Eff.bind at 1. rewrite (comprehension_reads_inv _ _ _ Hus).
  unfold Eff.bind, directory.
  destruct (find env us _ events) as [[[found|]|e] events']; done.
Qed.

(** X10. Arguments that cannot be used are refused before anything is
    asked of any endpoint: with no endpoint at all, or with a string that is
    not a UUID among them, [__init__] raises [ValueError] and makes no
    request. *)
Theorem init_refuses_before_any_request endpoints proxystore_dir events :
  endpoints = [] \/
  (exists s message, AsStr s ∈ endpoints /\ uuid_hex env s = inl message) ->
  exists msg,
    init env endpoints proxystore_dir events = (Raise (ValueError msg), events).
Proof.
  intros [->|(s & message & Hin & Hs)]; [by eexists|].
  unfold init. rewrite bool_decide_eq_false_2
    by (destruct endpoints; [by apply elem_of_nil in Hin|done]).
  unfold Eff.bind at 1.
  destruct (comprehension_reads endpoints events)
    as [(us & _ & Hus)|(msg & s' & -> & _)]; [|by exists msg].
  exfalso. apply list_elem_of_lookup in Hin as (i & Hi).
  destruct (Forall2_lookup_l _ _ _ _ _ Hus Hi) as (u & _ & (int & Hint & _)).
  congruence.
Qed.

(** X11. When [__init__] returns, the home endpoint of the connector is
    the first configured endpoint, in the order [get_configs] lists them,
    that is among [endpoints] and answers the probe with status 200 and its
    own UUID: every configured endpoint before it that is among [endpoints]
    answered otherwise, none after it was asked, and each one asked was
    asked once, in order. The connector holds the UUIDs read off the
    arguments, and its address is [http://host:port] of the home
    endpoint. *)
Theorem init_home_is_first_answering endpoints proxystore_dir events self events' :
  init env endpoints proxystore_dir events = (Ret self, events') ->
  exists before found after,
    get_configs env (directory env proxystore_dir)
      = (before ++ found :: after)%list /\
    Forall2 (reads env) endpoints (Endpoint.endpoints self) /\
    EndpointConfig.uuid found ∈ Endpoint.endpoints self /\
    answers env found /\
    Forall (fun c => EndpointConfig.uuid c ∈ Endpoint.endpoints self ->
                     passed_over env c) before /\
    requests (drop (length events) events')
      = probe_url <$> filter (fun c => EndpointConfig.uuid c
                                         ∈ Endpoint.endpoints self)
                        (before ++ [found])%list /\
    self = Endpoint.mkConnector (Endpoint.endpoints self) proxystore_dir
             (EndpointConfig.uuid found) (EndpointConfig.host found)
             (EndpointConfig.port found)
             (base_url (EndpointConfig.host found) (EndpointConfig.port found)).
Proof.
  intros Hinit.
  assert (Hne : endpoints <> []).
  { intros ->. discriminate Hinit. }
  destruct (comprehension_reads endpoints events)
    as [(us & _ & Hus)|(msg & s & Hc & _)].
  2:{ unfold init in Hinit.
      rewrite bool_decide_eq_false_2 in Hinit by (by destruct endpoints).
      unfold Eff.bind at 1 in Hinit. rewrite Hc in Hinit. discriminate Hinit. }
  rewrite (init_run _ _ _ _ Hne Hus) in Hinit.
  destruct (find env us _ events) as [[[found|]|e] ev] eqn:Hfind;
    try discriminate Hinit.
  injection Hinit as <- <-.
  destruct (find_some _ _ _ _ _ Hfind)
    as (before & after & added & Hav & Hin & Hans & Hbefore & -> & Hreq).
  exists before, found, after. cbn [Endpoint.endpoints].
  repeat (split; [done|]). split; [|done].
  by rewrite drop_app_length.
Qed.

(** X12. When every configured endpoint that is among [endpoints] answers
    the probe with another status than 200, or with another UUID than its
    own, [__init__] raises [EndpointConnectorError], after asking each of
    them once, in order, and no other. *)
Theorem init_without_home endpoints us proxystore_dir events :
  endpoints <> [] ->
  Forall2 (reads env) endpoints us ->
  Forall (fun c => EndpointConfig.uuid c ∈ us -> passed_over env c)
         (get_configs env (directory env proxystore_dir)) ->
  let run := init env endpoints proxystore_dir events in
  fst run
    = Raise (EndpointConnectorError
               ("Failed to find endpoint configuration matching one of the "
                  ++ "provided endpoint UUIDs.")) /\
  requests (drop (length events) (snd run))
    = probe_url <$> filter (fun c => EndpointConfig.uuid c ∈ us)
                      (get_configs env (directory env proxystore_dir)).
Proof.
  intros Hne Hus Hall run. unfold run.
  rewrite (init_run _ _ _ _ Hne Hus).
  destruct (find_none us _ events Hall) as (added & -> & Hreq).
  cbn [fst snd]. by rewrite drop_app_length.
Qed.

(** X13. [__init__] does not catch what [requests.get] raises: when the
    first configured endpoint among [endpoints] that is not passed over
    cannot be reached, the exception of [requests.get] comes out of
    [__init__], and the endpoints configured after it are not asked, whether
    they would have answered or not. *)
Theorem init_stops_at_unreachable_endpoint
    endpoints us proxystore_dir events before c after e :
  endpoints <> [] ->
  Forall2 (reads env) endpoints us ->
  get_configs env (directory env proxystore_dir)
    = (before ++ c :: after)%list ->
  Forall (fun c => EndpointConfig.uuid c ∈ us -> passed_over env c) before ->
  EndpointConfig.uuid c ∈ us ->
  requests_get env (probe_url c) = inl e ->
  let run := init env endpoints proxystore_dir events in
  fst run = Raise e /\
  requests (drop (length events) (snd run))
    = probe_url <$> filter (fun c => EndpointConfig.uuid c ∈ us)
                      (before ++ [c])%list.
Proof.
  intros Hne Hus Hav Hb Hin He run. unfold run.
  rewrite (init_run _ _ _ _ Hne Hus), Hav.
  destruct (find_raises us before c after e events Hb Hin He)
    as (added & -> & Hreq).
  cbn [fst snd]. by rewrite drop_app_length.
Qed.

Lemma reads_str_v4 (us : list UUID) :
  Forall (fun u => uuid_hex env (PyUUID.str u) = inr u) us ->
  Forall2 (reads env) (AsStr <$> (PyUUID.str <$> us)) (with_version 4 <$> us).
Proof.
  induction 1 as [|u us Hu _ IH]; [constructor|].
  cbn. constructor; [by exists u|done].
Qed.

Lemma reads_uuid (us : list UUID) : Forall2 (reads env) (AsUUID <$> us) us.
Proof. induction us as [|u us IH]; by constructor. Qed.

Lemma map_is_v4 (us : list UUID) : Forall is_v4 us -> with_version 4 <$> us = us.
Proof.
  induction 1 as [|u us Hu _ IH]; [done|]. cbn. by rewrite Hu, IH.
Qed.

(** X14. [from_config(self.config())] builds the connector for the same
    directory and for the UUIDs of [self.endpoints] with their version and
    variant bits set as in a version 4 UUID, since the UUIDs go through
    their strings and [UUID(s, version=4)]. Hence, on the host where
    [__init__] returned a connector whose endpoints all are version 4
    UUIDs, [from_config] of its [config] returns that very connector, after
    the same requests. *)
Theorem from_config_of_config self events :
  Endpoint.endpoints self <> [] ->
  Forall (fun u => uuid_hex env (PyUUID.str u) = inr u)
         (Endpoint.endpoints self) ->
  from_config env (config self) events
    = init env (AsUUID <$> (with_version 4 <$> Endpoint.endpoints self))
        (Endpoint.proxystore_dir self) events /\
  (Forall is_v4 (Endpoint.endpoints self) ->
   forall endpoints events',
     init env endpoints (Endpoint.proxystore_dir self) events
       = (Ret self, events') ->
     from_config env (config self) events = (Ret self, events')).
Proof.
  intros Hne Hhex.
  assert (Hne1 : AsStr <$> (PyUUID.str <$> Endpoint.endpoints self) <> []).
  { by destruct (Endpoint.endpoints self). }
  assert (Hne2 : AsUUID <$> (with_version 4 <$> Endpoint.endpoints self) <> []).
  { by destruct (Endpoint.endpoints self). }
  assert (Hrun : from_config env (config self) events
    = init env (AsUUID <$> (with_version 4 <$> Endpoint.endpoints self))
        (Endpoint.proxystore_dir self) events).
  { unfold from_config, config. cbn [Config.endpoints Config.proxystore_dir].
    rewrite (init_run _ _ _ _ Hne1 (reads_str_v4 _ Hhex)).
    by rewrite (init_run _ _ _ _ Hne2 (reads_uuid _)). }
  split; [exact Hrun|].
  intros Hv4 endpoints events' Hinit. rewrite Hrun, (map_is_v4 _ Hv4).
  assert (Hne3 : endpoints <> []).
  { intros ->. discriminate Hinit. }
  assert (Hne4 : AsUUID <$> Endpoint.endpoints self <> []).
  { by destruct (Endpoint.endpoints self). }
  destruct (comprehension_reads endpoints events)
    as [(us & _ & Hus)|(msg & s & Hc & _)].
  2:{ unfold init in Hinit.
      rewrite bool_decide_eq_false_2 in Hinit by (by destruct endpoints).
      unfold Eff.bind at 1 in Hinit. rewrite Hc in Hinit. discriminate Hinit. }
  rewrite (init_run _ _ _ _ Hne3 Hus) in Hinit.
  rewrite (init_run _ _ _ _ Hne4 (reads_uuid _)).
  destruct (find env us _ events) as [[[found|]|e] ev] eqn:Hfind;
    try discriminate Hinit.
  injection Hinit as <- <-.
  cbn [Endpoint.endpoints Endpoint.proxystore_dir] in Hfind |- *.
  by rewrite Hfind.
Qed.

(** X15. A connector built by [__init__] is at home on every fabric whose
    endpoints tell their own identity: its address is answered by its home
    endpoint, so that [put] succeeds, with a key of the home endpoint under
    which [get] finds the object. *)
Theorem init_then_put endpoints proxystore_dir events self events' obj w :
  init env endpoints proxystore_dir events = (Ret self, events') ->
  truthful env (Endpoint.net w) ->
  Endpoint.at_home self w /\
  exists key w',
    Endpoint.put self obj w = (Ret key, w') /\
    Endpoint.EndpointKey.endpoint_id key
      = Some (PyUUID.str (Endpoint.endpoint_uuid self)) /\
    Endpoint.get self key w' = (Ret (Some obj), w').
Proof.
  intros Hinit Htrue.
  assert (Hne : endpoints <> []).
  { intros ->. discriminate Hinit. }
  destruct (comprehension_reads endpoints events)
    as [(us & _ & Hus)|(msg & s & Hc & _)].
  2:{ unfold init in Hinit.
      rewrite bool_decide_eq_false_2 in Hinit by (by destruct endpoints).
      unfold Eff.bind at 1 in Hinit. rewrite Hc in Hinit. discriminate Hinit. }
  rewrite (init_run _ _ _ _ Hne Hus) in Hinit.
  destruct (find env us _ events) as [[[found|]|e] ev] eqn:Hfind;
    try discriminate Hinit.
  injection Hinit as <- <-.
  destruct (find_some _ _ _ _ _ Hfind)
    as (before & after & added & _ & _ & (r & Hr & Hs & Hj) & _).
  assert (Hhome : Endpoint.at_home
            (Endpoint.mkConnector us proxystore_dir
               (EndpointConfig.uuid found) (EndpointConfig.host found)
               (EndpointConfig.port found)
               (base_url (EndpointConfig.host found)
                         (EndpointConfig.port found))) w).
  { unfold Endpoint.at_home. cbn [Endpoint.address Endpoint.endpoint_uuid].
    exact (Htrue _ _ _ Hr Hs Hj). }
  split; [exact Hhome|].
  destruct (put_succeeds_at_home _ obj _ Hhome) as (key & w' & Hput).
  exists key, w'. split; [exact Hput|].
  destruct (put_ret_inv _ _ _ _ _ Hput) as (id & Hres & Hkey & Hw').
  split; [by rewrite Hkey|].
  assert (Hres' : Endpoint.resolve (Endpoint.net w')
                    (Endpoint.address
                       (Endpoint.mkConnector us proxystore_dir
                          (EndpointConfig.uuid found)
                          (EndpointConfig.host found)
                          (EndpointConfig.port found)
                          (base_url (EndpointConfig.host found)
                                    (EndpointConfig.port found))))
                    (Endpoint.EndpointKey.endpoint_id key) = inr id).
  { apply (resolve_extends (Endpoint.net w)); [|exact Hres].
    rewrite Hw'. apply with_store_extends. }
  rewrite (get_found _ _ _ _ Hres'). rewrite Hw'. cbn [Endpoint.net].
  by rewrite store_of_with_store_eq, lookup_insert_eq.
Qed.

End ConnectorFacts.

Section ConnectorExamples.
Import Connector MoreEnvironments.

(** X10, witness: a UUID and a string that is not one. *)
Lemma init_refuses_before_any_request_witness :
  let endpoints := [AsUUID 7; AsStr "seven"] in
  (endpoints = [] \/
   (exists s message, AsStr s ∈ endpoints /\ uuid_hex host s = inl message)) /\
  exists msg,
    init host endpoints None [] = (Raise (ValueError msg), []).
Proof.
  intros endpoints.
  assert (H : endpoints = [] \/
              (exists s message, AsStr s ∈ endpoints /\ uuid_hex host s = inl message)).
  { right. exists "seven", "badly formed hexadecimal UUID string".
    split; [|reflexivity].
    apply elem_of_cons; right. apply elem_of_cons; by left. }
  split; [exact H|].
  exact (init_refuses_before_any_request host endpoints None [] H).
Defined.

(** X11, witness: on the example host, the endpoints asked for are the
    third configured one, by its string, and UUID 7. The first configured
    endpoint answers 404, the second is not asked, the third is the home
    endpoint, and the fourth is not asked. *)
Lemma init_home_is_first_answering_witness :
  let endpoints := [AsStr (PyUUID.str v4); AsUUID 7] in
  let self := Endpoint.mkConnector [v4; 7%N] None v4 "localhost" 8765
                "http://localhost:8765" in
  let events' := [LogAttempting 7; Get "http://10.0.0.7:8700/endpoint";
                  LogFailed 7; LogAttempting v4;
                  Get "http://localhost:8765/endpoint"; LogSuccessful v4] in
  init host endpoints None [] = (Ret self, events') /\
  exists before found after,
    get_configs host (directory host None)
      = (before ++ found :: after)%list /\
    Forall2 (reads host) endpoints (Endpoint.endpoints self) /\
    EndpointConfig.uuid found ∈ Endpoint.endpoints self /\
    answers host found /\
    Forall (fun c => EndpointConfig.uuid c ∈ Endpoint.endpoints self ->
                     passed_over host c) before /\
    requests (drop (length (@nil Event)) events')
      = probe_url <$> filter (fun c => EndpointConfig.uuid c
                                         ∈ Endpoint.endpoints self)
                        (before ++ [found])%list /\
    self = Endpoint.mkConnector (Endpoint.endpoints self) None
             (EndpointConfig.uuid found) (EndpointConfig.host found)
             (EndpointConfig.port found)
             (base_url (EndpointConfig.host found) (EndpointConfig.port found)).
Proof.
  intros endpoints self events'.
  assert (H : init host endpoints None [] = (Ret self, events'))
    by (vm_compute; reflexivity).
  split; [exact H|].
  exact (init_home_is_first_answering host endpoints None [] self events' H).
Defined.

(** X12, witness: UUID 7 is configured twice on the example host; one
    endpoint answers 404 and the other with another UUID. *)
Lemma init_without_home_witness :
  let endpoints := [AsUUID 7] in
  let us := [7%N] in
  endpoints <> [] /\
  Forall2 (reads host) endpoints us /\
  Forall (fun c => EndpointConfig.uuid c ∈ us -> passed_over host c)
         (get_configs host (directory host None)) /\
  let run := init host endpoints None [] in
  fst run
    = Raise (EndpointConnectorError
               ("Failed to find endpoint configuration matching one of the "
                  ++ "provided endpoint UUIDs.")) /\
  requests (drop (length (@nil Event)) (snd run))
    = probe_url <$> filter (fun c => EndpointConfig.uuid c ∈ us)
                      (get_configs host (directory host None)).
Proof.
  intros endpoints us.
  assert (H1 : endpoints <> []) by discriminate.
  assert (H2 : Forall2 (reads host) endpoints us)
    by (constructor; [reflexivity|constructor]).
  assert (H3 : Forall (fun c => EndpointConfig.uuid c ∈ us -> passed_over host c)
                 (get_configs host (directory host None))).
  { repeat constructor.
    - intros _. eexists. split; [reflexivity|]. by left.
    - intros Hin. apply list_elem_of_singleton in Hin. discriminate Hin.
    - intros Hin. apply list_elem_of_singleton in Hin. discriminate Hin.
    - intros _. eexists. split; [reflexivity|]. right. eexists.
      split; [reflexivity|]. discriminate. }
  split; [exact H1|]. split; [exact H2|]. split; [exact H3|].
  exact (init_without_home host endpoints us None [] H1 H2 H3).
Defined.

(** X13, witness: the second configured endpoint of the example host
    cannot be reached; the third, which would answer, is not asked. *)
Lemma init_stops_at_unreachable_endpoint_witness :
  let endpoints := [AsUUID 7; AsUUID 9; AsStr (PyUUID.str v4)] in
  let us := [7%N; 9%N; v4] in
  endpoints <> [] /\
  Forall2 (reads host) endpoints us /\
  get_configs host (directory host None)
    = ([stopped] ++ other :: [running; late])%list /\
  Forall (fun c => EndpointConfig.uuid c ∈ us -> passed_over host c)
         [stopped] /\
  EndpointConfig.uuid other ∈ us /\
  requests_get host (probe_url other) = inl OSError /\
  let run := init host endpoints None [] in
  fst run = Raise OSError /\
  requests (drop (length (@nil Event)) (snd run))
    = probe_url <$> filter (fun c => EndpointConfig.uuid c ∈ us)
                      ([stopped] ++ [other])%list.
Proof.
  intros endpoints us.
  assert (H1 : endpoints <> []) by discriminate.
  assert (H2 : Forall2 (reads host) endpoints us).
  { constructor; [reflexivity|]. constructor; [reflexivity|].
    constructor; [|constructor]. exists v4. split; reflexivity. }
  assert (H3 : get_configs host (directory host None)
               = ([stopped] ++ other :: [running; late])%list) by reflexivity.
  assert (H4 : Forall (fun c => EndpointConfig.uuid c ∈ us -> passed_over host c)
                 [stopped]).
  { repeat constructor. intros _. eexists. split; [reflexivity|]. by left. }
  assert (H5 : EndpointConfig.uuid other ∈ us).
  { apply elem_of_cons; right. apply elem_of_cons; by left. }
  assert (H6 : requests_get host (probe_url other) = inl OSError)
    by reflexivity.
  split; [exact H1|]. split; [exact H2|]. split; [exact H3|].
  split; [exact H4|]. split; [exact H5|]. split; [exact H6|].
  exact (init_stops_at_unreachable_endpoint host endpoints us None []
           [stopped] other [running; late] OSError H1 H2 H3 H4 H5 H6).
Defined.

(** X14, witness: a connector for one version 4 UUID. *)
Lemma from_config_of_config_witness :
  let self := Endpoint.mkConnector [v4] None v4 "localhost" 8765
                "http://localhost:8765" in
  Endpoint.endpoints self <> [] /\
  Forall (fun u => uuid_hex host (PyUUID.str u) = inr u)
         (Endpoint.endpoints self) /\
  Forall is_v4 (Endpoint.endpoints self) /\
  from_config host (config self) []
    = init host (AsUUID <$> (with_version 4 <$> Endpoint.endpoints self))
        (Endpoint.proxystore_dir self) [] /\
  (Forall is_v4 (Endpoint.endpoints self) ->
   forall endpoints events',
     init host endpoints (Endpoint.proxystore_dir self) []
       = (Ret self, events') ->
     from_config host (config self) [] = (Ret self, events')).
Proof.
  intros self.
  assert (H1 : Endpoint.endpoints self <> []) by discriminate.
  assert (H2 : Forall (fun u => uuid_hex host (PyUUID.str u) = inr u)
                 (Endpoint.endpoints self)).
  { repeat constructor. }
  assert (H3 : Forall is_v4 (Endpoint.endpoints self)).
  { repeat constructor. }
  split; [exact H1|]. split; [exact H2|]. split; [exact H3|].
  exact (from_config_of_config host self [] H1 H2).
Defined.

(** The endpoints the example host reaches tell their identity on the
    example fabric. *)
Lemma host_truthful : truthful host (Endpoint.net host_fabric).
Proof.
  intros address response id. cbn [requests_get host].
  repeat case_decide; intros [= <-]; cbn; try discriminate; intros _ [= <-].
  - assert (address = "http://localhost:8765") as ->
      by (by apply (append_inj_r address "http://localhost:8765" "/endpoint")).
    reflexivity.
  - assert (address = "http://10.0.0.8:8800") as ->
      by (by apply (append_inj_r address "http://10.0.0.8:8800" "/endpoint")).
    reflexivity.
Qed.

(** X15, witness: the connector built on the example host puts one byte. *)
Lemma init_then_put_witness :
  let endpoints := [AsStr (PyUUID.str v4); AsUUID 7] in
  let self := Endpoint.mkConnector [v4; 7%N] None v4 "localhost" 8765
                "http://localhost:8765" in
  let events' := [LogAttempting 7; Get "http://10.0.0.7:8700/endpoint";
                  LogFailed 7; LogAttempting v4;
                  Get "http://localhost:8765/endpoint"; LogSuccessful v4] in
  init host endpoints None [] = (Ret self, events') /\
  truthful host (Endpoint.net host_fabric) /\
  Endpoint.at_home self host_fabric /\
  exists key w',
    Endpoint.put self [x61] host_fabric = (Ret key, w') /\
    Endpoint.EndpointKey.endpoint_id key
      = Some (PyUUID.str (Endpoint.endpoint_uuid self)) /\
    Endpoint.get self key w' = (Ret (Some [x61]), w').
Proof.
  intros endpoints self events'.
  assert (H : init host endpoints None [] = (Ret self, events'))
    by (vm_compute; reflexivity).
  split; [exact H|]. split; [exact host_truthful|].
  exact (init_then_put host endpoints None [] self events' [x61] host_fabric
           H host_truthful).
Defined.

End ConnectorExamples.

(** ** Batches on the endpoint connector *)
Section EndpointBatchFacts.
Import Endpoint.

Lemma at_home_frame ev self w w' :
  frame ev w w' -> at_home self w -> at_home self w'.
Proof.
  intros (_ & _ & [Hl _] & _) Hhome. unfold at_home in *. by rewrite Hl.
Qed.

Lemma put_batch_run self objs w :
  at_home self w ->
  unique_upto (uuid_source w) (uuid_count w + length objs) ->
  exists keys w',
    put_batch self objs w = (Ret keys, w') /\
    uuid_count w' = uuid_count w + length objs /\
    length keys = length objs /\
    NoDup (EndpointKey.object_id <$> keys) /\
    get_batch self keys w' = (Ret (Some <$> objs), w').
Proof.
  revert w. induction objs as [|obj objs IH]; intros w Hhome Huniq.
  - exists [], w. cbn. split; [done|]. split; [lia|]. split; [done|].
    split; [constructor|done].
  - destruct (put_succeeds_at_home self obj w Hhome) as (k & w1 & Hput).
    destruct (put_ret_inv _ _ _ _ _ Hput) as (id & Hres & Hk & Hw1).
    pose proof (frame_put (fun _ => False) self obj w) as Hf1.
    rewrite Hput in Hf1. cbn [snd] in Hf1.
    assert (Hs1 : uuid_source w1 = uuid_source w) by (by rewrite Hw1).
    assert (Hc1 : uuid_count w1 = S (uuid_count w)) by (by rewrite Hw1).
    assert (Hhome1 : at_home self w1) by exact (at_home_frame _ _ _ _ Hf1 Hhome).
    assert (Huniq1 : unique_upto (uuid_source w1)
                       (uuid_count w1 + length objs)).
    { rewrite Hs1, Hc1. cbn [length] in Huniq.
      by replace (S (uuid_count w) + length objs)
        with (uuid_count w + S (length objs)) by lia. }
    destruct (IH w1 Hhome1 Huniq1) as (ks & w2 & Hputs & Hc2 & Hlen & Hnd & Hgets).
    pose proof (frame_comprehension (fun _ => False) (put self) objs w1
                  (frame_put _ self)) as Hf2.
    pose proof (minted_put_batch self objs w1 ks) as Hminted.
    fold (put_batch self objs) in Hf2. rewrite Hputs in Hf2, Hminted.
    cbn [fst snd] in Hf2, Hminted. specialize (Hminted eq_refl).
    destruct Huniq as [Hbound Hinj]. cbn [length] in Hbound, Hinj.
    assert (Hfresh : forall i, uuid_count w1 <= i < uuid_count w2 ->
              EndpointKey.object_id k <> PyUUID.str (uuid_source w1 i)).
    { intros i Hi. rewrite Hk, Hs1. cbn [EndpointKey.object_id]. intros Heq.
      apply str_inj in Heq; [|apply Hbound; lia|apply Hbound; lia].
      apply Hinj in Heq; lia. }
    exists (k :: ks), w2. split; [|split; [|split; [|split]]].
    + unfold put_batch in *. rewrite comprehension_cons, Hput. by rewrite Hputs.
    + cbn [length]. lia.
    + cbn [length]. by rewrite Hlen.
    + cbn [fmap list_fmap]. constructor; [|exact Hnd].
      intros Hin. apply list_elem_of_fmap in Hin as (k' & Hkk & Hin).
      rewrite Forall_forall in Hminted.
      destruct (Hminted _ Hin) as (i & Hi & ->). cbn in Hkk.
      by apply (Hfresh i).
    + unfold get_batch in *. rewrite comprehension_cons.
      destruct Hf2 as (_ & _ & Hext & Hkeep).
      assert (Hres2 : resolve (net w2) (address self)
                        (EndpointKey.endpoint_id k) = inr id).
      { apply (resolve_extends (net w1)); [exact Hext|].
        apply (resolve_extends (net w)); [|exact Hres].
        by destruct Hf1 as (_ & _ & He & _). }
      rewrite (get_found _ _ _ _ Hres2), Hgets.
      rewrite (Hkeep id _ (fun H => H) Hfresh), Hw1. cbn [net].
      by rewrite store_of_with_store_eq, lookup_insert_eq.
Qed.

(** X16. At home, and as long as [uuid4] does not repeat itself,
    [put_batch] stores every object under a key of its own: it returns one
    key per object, all with different object ids, and [get_batch] of those
    keys returns the objects, in the order they were given. *)
Theorem put_batch_get_batch self objs w :
  at_home self w ->
  unique_upto (uuid_source w) (uuid_count w + length objs) ->
  exists keys w',
    put_batch self objs w = (Ret keys, w') /\
    length keys = length objs /\
    NoDup (EndpointKey.object_id <$> keys) /\
    get_batch self keys w' = (Ret (Some <$> objs), w').
Proof.
  intros Hhome Huniq.
  destruct (put_batch_run self objs w Hhome Huniq)
    as (keys & w' & Hput & _ & Hlen & Hnd & Hget).
  by exists keys, w'.
Qed.

End EndpointBatchFacts.

Section EndpointBatchExamples.
Import Endpoint.

(** X16, witness: three objects, two of them the same bytes, put on the
    example fabric. *)
Lemma put_batch_get_batch_witness :
  let self := Examples.home in
  let w := Examples.fabric in
  let objs := [[x61]; [x62]; [x61]] in
  at_home self w /\
  unique_upto (uuid_source w) (uuid_count w + length objs) /\
  exists keys w',
    put_batch self objs w = (Ret keys, w') /\
    length keys = length objs /\
    NoDup (EndpointKey.object_id <$> keys) /\
    get_batch self keys w' = (Ret (Some <$> objs), w').
Proof.
  intros self w objs.
  assert (H1 : at_home self w) by reflexivity.
  assert (H2 : unique_upto (uuid_source w) (uuid_count w + length objs)).
  { apply source_unique. vm_compute. reflexivity. }
  split; [exact H1|]. split; [exact H2|].
  exact (put_batch_get_batch self objs w H1 H2).
Defined.

End EndpointBatchExamples.

(** ** Writing to the remote store *)
Section RemoteSetFacts.
Import Remote RemoteSet.
Context {B Timestamp Obj : Type} {runtime : Runtime B Timestamp Obj}
        {writer : Writer B Timestamp Obj}.
Context (cache_set : string -> Timestamp * Value Obj ->
                     gmap string (Timestamp * Value Obj) ->
                     gmap string (Timestamp * Value Obj)).

Lemma set_run now created obj key (w : World B Timestamp Obj) data :
  data_of obj = Some data ->
  set now created obj key w
    = (Ret (default created key),
       mkWorld (self w)
         (set_bytes (set_bytes (remote w) (default created key) data)
                    (default created key ++ "_timestamp") (encode_time now))
         (events w)).
Proof.
  intros Hdata. unfold set, call_set_bytes, Eff.bind, Eff.modify, Eff.ret.
  destruct obj as [o|b]; cbn in Hdata; [rewrite Hdata|injection Hdata as ->];
    by destruct key.
Qed.

Lemma is_cached_cold key strict (w : World B Timestamp Obj) :
  cold key (self w) -> is_cached key strict w = (Ret false, w).
Proof.
  intros Hcold. unfold is_cached, Eff.bind, Eff.get, Eff.ret, cache_exists.
  destruct (_cache (self w)) as [cache|] eqn:Hc; [|done].
  rewrite (Hcold cache Hc).
  rewrite bool_decide_eq_false_2; [done|]. by intros [? ?].
Qed.

Lemma is_cached_nonstrict key (w : World B Timestamp Obj) cache entry :
  _cache (self w) = Some cache -> cache !! key = Some entry ->
  is_cached key false w = (Ret true, w).
Proof.
  intros Hc Hk. unfold is_cached, Eff.bind, Eff.get, Eff.ret, cache_exists.
  rewrite Hc, Hk. by rewrite bool_decide_eq_true_2 by eauto.
Qed.

Lemma get_cached key deserialize strict default
    (w w1 : World B Timestamp Obj) cache timestamp value :
  is_cached key strict w = (Ret true, w1) ->
  _cache (self w1) = Some cache -> cache !! key = Some (timestamp, value) ->
  get cache_set key deserialize strict default w
    = (Ret (Some value),
       mkWorld (self w1) (remote w1)
               (events w1 ++ [DebugGet key (Some true)])).
Proof.
  intros Hic Hc Hk. unfold get, Eff.bind at 1. rewrite Hic.
  unfold the_cache, subscript, cache_get, emit,
    Eff.bind, Eff.modify, Eff.ret, Eff.get; cbn.
  repeat (progress (rewrite ?Hc, ?Hk; cbn)). done.
Qed.

Lemma fetch_found key deserialize default (w : World B Timestamp Obj)
    data stamp timestamp value :
  get_bytes (remote w) key = Some data ->
  get_bytes (remote w) (key ++ "_timestamp") = Some stamp ->
  to_float stamp = Some timestamp ->
  read_as deserialize data value ->
  fetch cache_set key deserialize default w
    = (Ret (Some value),
       mkWorld (mkStore (name (self w)) (cache_size (self w))
                  (cache_set key (timestamp, value) <$> _cache (self w)))
               (remote w)
               (events w ++ [GetBytes key; GetBytes (key ++ "_timestamp");
                             DebugGet key (Some false)])).
Proof.
  intros Hdata Hstamp Hfloat Hread. run_remote.
  repeat (progress (rewrite ?Hdata, ?Hstamp, ?Hfloat; cbn)).
  destruct deserialize; cbn in Hread.
  - destruct Hread as (o & Ho & ->). rewrite Ho. cbn.
    destruct (self w) as [n c [cache|]]; cbn; by rewrite <- !app_assoc.
  - subst value.
    destruct (self w) as [n c [cache|]]; cbn; by rewrite <- !app_assoc.
Qed.


(** X17. On a remote store that keeps what is written to it, and with a
    clock reading that survives being written as a string, [set] followed
    by [get] of the key it returned gives back what was stored, whether the
    cache is off or on, as long as the cache does not hold the key already:
    the object itself when it was serialized by [set] and deserialized by
    [get], the bytes when both were told not to. The value then sits in the
    cache, if there is one, stamped with the clock reading of [set]. *)
Theorem set_then_get now created obj key deserialize strict fallback
    (w : World B Timestamp Obj) data value :
  keeps_writes ->
  to_float (encode_time now) = Some now ->
  data_of obj = Some data ->
  read_as deserialize data value ->
  cold (default created key) (self w) ->
  let written := set now created obj key w in
  let read :=
    get cache_set (default created key) deserialize strict fallback
      (snd written) in
  fst written = Ret (default created key) /\
  fst read = Ret (Some value) /\
  _cache (self (snd read))
    = cache_set (default created key) (now, value) <$> _cache (self w).
Proof.
  intros Hkeeps Hnow Hdata Hread Hcold written read.
  unfold read, written. rewrite (set_run _ _ _ _ _ _ Hdata). cbn [fst snd].
  split; [done|]. set (k := default created key) in *.
  set (w1 := mkWorld _ _ _).
  assert (Hk : get_bytes (remote w1) k = Some data).
  { unfold w1. cbn [remote].
    rewrite (proj2 (Hkeeps _ _ _)) by (intros H; symmetry in H; by apply sidecar_differs in H).
    apply Hkeeps. }
  assert (Hs : get_bytes (remote w1) (k ++ "_timestamp")
               = Some (encode_time now)).
  { unfold w1. cbn [remote]. apply Hkeeps. }
  assert (Hget : get cache_set k deserialize strict fallback w1
                 = fetch cache_set k deserialize fallback w1).
  { unfold get, Eff.bind at 1. by rewrite (is_cached_cold k strict w1 Hcold). }
  rewrite Hget, (fetch_found _ _ _ _ _ _ _ _ Hk Hs Hnow Hread). done.
Qed.

(** X18. [set] does not touch the cache. After a [set] on a key the cache
    holds, a [get] that is not strict still returns the cached value, and
    asks the remote store nothing; a strict [get] returns the cached value
    when its timestamp is [>=] the clock reading of [set], and what was
    just stored otherwise. *)
Theorem set_leaves_cache_stale now created obj key deserialize fallback
    (w : World B Timestamp Obj) data value cache cached_at cached :
  keeps_writes ->
  to_float (encode_time now) = Some now ->
  data_of obj = Some data ->
  read_as deserialize data value ->
  _cache (self w) = Some cache ->
  cache !! key = Some (cached_at, cached) ->
  let w1 := snd (set now created obj (Some key) w) in
  get cache_set key deserialize false fallback w1
    = (Ret (Some cached),
       mkWorld (self w) (remote w1)
               (events w ++ [DebugGet key (Some true)])) /\
  fst (get cache_set key deserialize true fallback w1)
    = Ret (Some (if ge cached_at now then cached else value)).
Proof.
  intros Hkeeps Hnow Hdata Hread Hc Hk w1.
  unfold w1. rewrite (set_run _ _ _ _ _ _ Hdata). cbn [snd default].
  set (w2 := mkWorld _ _ _).
  assert (Hc2 : _cache (self w2) = Some cache) by exact Hc.
  assert (Hd : get_bytes (remote w2) key = Some data).
  { unfold w2. cbn [remote].
    rewrite (proj2 (Hkeeps _ _ _)) by (intros H; symmetry in H; by apply sidecar_differs in H).
    apply Hkeeps. }
  assert (Hs : get_bytes (remote w2) (key ++ "_timestamp")
               = Some (encode_time now)).
  { unfold w2. cbn [remote]. apply Hkeeps. }
  split.
  - by rewrite (get_cached _ _ _ _ _ _ _ _ _
                  (is_cached_nonstrict _ _ _ _ Hc2 Hk) Hc2 Hk).
  - pose proof (is_cached_strict key w2 _ _ _ _ _ Hc2 Hk Hs Hnow) as Hic.
    destruct (ge cached_at now) eqn:Hge.
    + by rewrite (get_cached _ _ _ _ _ _ _ _ _ Hic Hc2 Hk).
    + unfold get, Eff.bind at 1. rewrite Hic.
      set (w3 := mkWorld _ _ _).
      by rewrite (fetch_found _ _ _ w3 _ _ _ _ Hd Hs Hnow Hread).
Qed.



(** X20. A key that is neither cached nor in the remote store yields the
    default, after one lookup of the key and none of its timestamp; nothing
    is cached for it. *)
Theorem get_missing_returns_default key deserialize strict default
    (w : World B Timestamp Obj) :
  cold key (self w) ->
  get_bytes (remote w) key = None ->
  get cache_set key deserialize strict default w
    = (Ret default,
       mkWorld (self w) (remote w)
               (events w ++ [GetBytes key; DebugGet key None])).
Proof.
  intros Hcold Hnone. unfold get, Eff.bind at 1.
  rewrite (is_cached_cold _ _ _ Hcold). run_remote. rewrite Hnone. cbn.
  by rewrite <- app_assoc.
Qed.

(** X21. [RemoteStore(name, cache_size=n)] raises [ValueError] for a
    negative [n]; otherwise the store it builds has nothing cached:
    [is_cached] is [False] for every key, strict or not, and consults the
    remote store for none. *)
Theorem init_store_caches_nothing store_name n :
  ((n < 0)%Z ->
   init (Timestamp := Timestamp) (Obj := Obj) store_name n
     = Raise (ValueError "Cache size cannot be negative")) /\
  ((0 <= n)%Z ->
   exists store,
     init store_name n = Ret store /\
     name store = store_name /\ cache_size store = n /\
     forall (r : B) events key strict,
       is_cached key strict (mkWorld store r events)
         = (Ret false, mkWorld store r events)).
Proof.
  unfold init. split; intros Hn.
  - by rewrite (proj2 (Z.ltb_lt _ _) Hn).
  - rewrite (proj2 (Z.ltb_ge _ _) Hn). eexists. split; [done|].
    split; [done|]. split; [done|]. intros r events key strict.
    apply is_cached_cold. intros cache. cbn.
    destruct (0 <? n)%Z; [|discriminate]. by intros [= <-].
Qed.

End RemoteSetFacts.

Section RemoteSetExamples.
Import Remote RemoteSet.

(** A map keeps what is written to it. *)
Lemma map_keeps_writes :
  keeps_writes (runtime := Examples.runtime)
               (writer := MoreEnvironments.writer).
Proof.
  intros r key data. cbn. split; [apply lookup_insert_eq|].
  intros key' Hne. by apply lookup_insert_ne.
Qed.

(** X17, witness: no cache; an object is set under ["k"] at time 9 and
    read back. *)
Lemma set_then_get_witness :
  let w := Examples.no_sidecar in
  let written :=
    set (writer := MoreEnvironments.writer)
      9%N "created" (Pickle [x63]) (Some "k") w in
  let read :=
    get (runtime := Examples.runtime) Examples.cache_insert
      (default "created" (Some "k")) true false None (snd written) in
  keeps_writes (runtime := Examples.runtime)
               (writer := MoreEnvironments.writer) /\
  to_float (Runtime := Examples.runtime)
    (encode_time (Writer := MoreEnvironments.writer) 9%N) = Some 9%N /\
  data_of (writer := MoreEnvironments.writer) (Pickle [x63]) = Some [x63] /\
  read_as (runtime := Examples.runtime) true [x63] (Object [x63]) /\
  cold (default "created" (Some "k")) (self w) /\
  fst written = Ret (default "created" (Some "k")) /\
  fst read = Ret (Some (Object [x63])) /\
  _cache (self (snd read))
    = Examples.cache_insert (default "created" (Some "k"))
        (9%N, Object [x63]) <$> _cache (self w).
Proof.
  intros w written read.
  assert (H1 : to_float (Runtime := Examples.runtime)
                 (encode_time (Writer := MoreEnvironments.writer) 9%N)
               = Some 9%N) by reflexivity.
  assert (H2 : data_of (writer := MoreEnvironments.writer) (Pickle [x63])
               = Some [x63]) by reflexivity.
  assert (H3 : read_as (runtime := Examples.runtime) true [x63]
                 (Object [x63])) by (by exists [x63]).
  assert (H4 : cold (default "created" (Some "k")) (self w))
    by (intros cache Hc; discriminate Hc).
  split; [exact map_keeps_writes|]. split; [exact H1|]. split; [exact H2|].
  split; [exact H3|]. split; [exact H4|].
  exact (set_then_get (runtime := Examples.runtime)
           (writer := MoreEnvironments.writer) Examples.cache_insert
           9%N "created" (Pickle [x63]) (Some "k") true false None w
           [x63] (Object [x63]) map_keeps_writes H1 H2 H3 H4).
Defined.

(** X18, witness: the cache holds ["k"] as of time 5; new bytes are set
    under ["k"] at time 9. *)
Lemma set_leaves_cache_stale_witness :
  let w := Examples.stale_cache in
  let w1 :=
    snd (set (writer := MoreEnvironments.writer)
           9%N "created" (Raw [x63]) (Some "k") w) in
  exists cache,
  keeps_writes (runtime := Examples.runtime)
               (writer := MoreEnvironments.writer) /\
  to_float (Runtime := Examples.runtime)
    (encode_time (Writer := MoreEnvironments.writer) 9%N) = Some 9%N /\
  data_of (writer := MoreEnvironments.writer) (Raw [x63]) = Some [x63] /\
  read_as (runtime := Examples.runtime) false [x63] (Serialized [x63]) /\
  _cache (self w) = Some cache /\
  cache !! "k" = Some (5%N, Serialized [x61]) /\
  get (runtime := Examples.runtime) Examples.cache_insert "k" false false
      None w1
    = (Ret (Some (Serialized [x61])),
       mkWorld (self w) (remote w1)
               (events w ++ [DebugGet "k" (Some true)])) /\
  fst (get (runtime := Examples.runtime) Examples.cache_insert "k" false true
         None w1)
    = Ret (Some (if ge (Runtime := Examples.runtime) 5%N 9%N
                 then Serialized [x61] else Serialized [x63])).
Proof.
  intros w w1.
  exists {[ "k" := (5%N, Serialized [x61]) ]}.
  assert (H1 : to_float (Runtime := Examples.runtime)
                 (encode_time (Writer := MoreEnvironments.writer) 9%N)
               = Some 9%N) by reflexivity.
  assert (H2 : data_of (writer := MoreEnvironments.writer) (Raw [x63])
               = Some [x63]) by reflexivity.
  assert (H3 : read_as (runtime := Examples.runtime) false [x63]
                 (Serialized [x63])) by reflexivity.
  assert (H4 : _cache (self w)
               = Some {[ "k" := (5%N, Serialized [x61]) ]}) by reflexivity.
  assert (H5 : ({[ "k" := (5%N, Serialized [x61]) ]}
                  : gmap string (N * Value (list byte))) !! "k"
               = Some (5%N, Serialized [x61])) by reflexivity.
  split; [exact map_keeps_writes|]. split; [exact H1|]. split; [exact H2|].
  split; [exact H3|]. split; [exact H4|]. split; [exact H5|].
  exact (set_leaves_cache_stale (runtime := Examples.runtime)
           (writer := MoreEnvironments.writer) Examples.cache_insert
           9%N "created" (Raw [x63]) "k" false None w
           [x63] (Serialized [x63]) _ 5%N (Serialized [x61])
           map_keeps_writes H1 H2 H3 H4 H5).
Defined.

(** X20, witness: no cache, and no ["z"] in the remote store. *)
Lemma get_missing_returns_default_witness :
  let w := Examples.no_sidecar in
  cold "z" (self w) /\
  get_bytes (Runtime := Examples.runtime) (remote w) "z" = None /\
  get (runtime := Examples.runtime) Examples.cache_insert "z" true true
      (Some (Object [x00])) w
    = (Ret (Some (Object [x00])),
       mkWorld (self w) (remote w)
               (events w ++ [GetBytes "z"; DebugGet "z" None])).
Proof.
  intros w.
  assert (H1 : cold "z" (self w)) by (intros cache Hc; discriminate Hc).
  assert (H2 : get_bytes (Runtime := Examples.runtime) (remote w) "z" = None)
    by reflexivity.
  split; [exact H1|]. split; [exact H2|].
  exact (get_missing_returns_default (runtime := Examples.runtime)
           Examples.cache_insert "z" true true (Some (Object [x00])) w H1 H2).
Defined.

End RemoteSetExamples.

(** ** Backends *)
Section BackendFacts.
Import Backend.
Context {Store : Type} {stores : Stores Store}.

Lemma run_call_set (c : Call) (s : Store) :
  run_call c (Some s)
    = (if accepts c s then Ret tt else Raise (already_initialized s), Some s).
Proof.
  destruct c as [|hostname port]; cbn;
    unfold init_local_backend, init_redis_backend, Eff.bind, Eff.get; cbn.
  - by destruct (isinstance_LocalStore s).
  - by destruct (isinstance_RedisStore s).
Qed.

Lemma run_calls_set (cs : list Call) (s : Store) :
  run_calls cs (Some s)
    = ((fun c => if accepts c s then Ret tt
                 else Raise (already_initialized s)) <$> cs, Some s).
Proof.
  induction cs as [|c cs IH]; [done|].
  cbn [run_calls]. rewrite run_call_set, IH. done.
Qed.

(** X22. The first backend wins. Whatever calls of [init_local_backend]
    and [init_redis_backend] are made, in whatever order and with whatever
    arguments, [ps.store] is from the first call on the store that call
    made, and is never replaced: every later call returns without a change
    if that store is an instance of the class it asks for, and raises
    [ValueError] otherwise. Since an object is an instance of the class
    that made it, every later call of the function called first returns
    and changes nothing, whatever its arguments: a second
    [init_redis_backend] with another host or port leaves the first store in
    place, and says nothing. *)
Theorem first_backend_wins (first : Call) (later : list Call) :
  instance_of_own_class ->
  run_calls (first :: later) None
    = (Ret tt ::
       ((fun c => if accepts c (made first) then Ret tt
                  else Raise (already_initialized (made first))) <$> later),
       Some (made first)) /\
  forall c, same_function c first = true ->
    run_call c (Some (made first)) = (Ret tt, Some (made first)).
Proof.
  intros [Hlocal Hredis]. split.
  - cbn [run_calls].
    assert (H : run_call first None = (Ret tt, Some (made first)))
      by (by destruct first).
    rewrite H, run_calls_set. done.
  - intros c Hsame. rewrite run_call_set.
    destruct c, first; try discriminate Hsame; cbn [accepts made].
    + by rewrite Hlocal.
    + by rewrite Hredis.
Qed.

End BackendFacts.

Section BackendExamples.
Import Backend.
#[local] Existing Instance MoreEnvironments.stores.

(** X22, witness: a Redis backend is initialised, then another one, then
    a local one. *)
Lemma first_backend_wins_witness :
  let first := InitRedis "a" 6379 in
  let later := [InitRedis "b" 6380; InitLocal] in
  instance_of_own_class /\
  run_calls (first :: later) None
    = (Ret tt ::
       ((fun c => if accepts c (made first) then Ret tt
                  else Raise (already_initialized (made first))) <$> later),
       Some (made first)) /\
  forall c, same_function c first = true ->
    run_call c (Some (made first)) = (Ret tt, Some (made first)).
Proof.
  intros first later.
  assert (H : instance_of_own_class).
  { split; [reflexivity|]. intros hostname port. reflexivity. }
  split; [exact H|].
  exact (first_backend_wins first later H).
Defined.

End BackendExamples.
